(** * The KMS device handle of the native backend

    Shallow embedding of [src/backends/native/meta-kms-device.c]: the
    [MetaKmsDevice] object, its construction with backend selection, the
    cached topology snapshot and the tasks it dispatches to the KMS impl
    context.

    The C code is stateful: it allocates GObjects and [GList]s, mutates the
    device through a pointer and calls into a backend object.  It is embedded
    as a state monad over an explicit [World] (object stores indexed by
    address), with failure standing for a tripped [g_assert] or an access
    through a pointer that designates no live object. *)

From Stdlib Require Import ZArith.
From stdpp Require Import gmap strings list.

(** ** Plain data *)

(** Addresses.  [loc] designates an object owned by this file's code (a
    device, a backend instance, a [GList], a [uint64_t] cell); [gpointer] is
    the payload of a [GList] cell: a CRTC, connector, plane or mode object
    owned by the backend. *)
Abbreviation loc := positive.
Abbreviation gpointer := positive.

(** The three [MetaKmsImplDevice] subclasses named in the file. *)
Inductive GType : Set :=
| META_TYPE_KMS_IMPL_DEVICE_ATOMIC
| META_TYPE_KMS_IMPL_DEVICE_SIMPLE
| META_TYPE_KMS_IMPL_DEVICE_DUMMY.

#[global] Instance GType_eq_dec : EqDecision GType.
Proof. solve_decision. Defined.

(** Error domains: the two the file names, and any other quark. *)
Inductive GQuark : Set :=
| META_KMS_ERROR
| G_IO_ERROR
| G_OTHER_DOMAIN (q : N).

#[global] Instance GQuark_eq_dec : EqDecision GQuark.
Proof. solve_decision. Defined.

Record GError : Set := mkGError {
  domain : GQuark;
  code : Z;
  message : string
}.

(** GLib's [G_IO_ERROR_FAILED] is the first enumerator of [GIOErrorEnum]. *)
Definition G_IO_ERROR_FAILED : Z := 0.

(** Modelled from the spec: the [MetaKmsPlaneType] enumeration (header not
    in src); the glossary lists the plane kinds primary, cursor, overlay. *)
Inductive MetaKmsPlaneType : Set :=
| META_KMS_PLANE_TYPE_PRIMARY
| META_KMS_PLANE_TYPE_CURSOR
| META_KMS_PLANE_TYPE_OVERLAY.

#[global] Instance MetaKmsPlaneType_eq_dec : EqDecision MetaKmsPlaneType.
Proof. solve_decision. Defined.

(** [MetaKmsDeviceCaps] (header not in src): the fields this file reads. *)
Record MetaKmsDeviceCaps : Set := mkCaps {
  has_cursor_size : bool;
  cursor_width : Z;
  cursor_height : Z;
  prefers_shadow_buffer : bool;
  uses_monotonic_clock : bool;
  addfb2_modifiers : bool
}.

(** Modelled from the spec: the empty change set of the
    [MetaKmsUpdateChanges] bit-set (header not in src). *)
Definition META_KMS_UPDATE_CHANGE_NONE : Z := 0.

(** [struct _MetaKmsDevice].  [ref_count] stands for the [GObject parent].
    The [kms] back pointer is not a field here: a [World] holds one KMS
    root, which every [device->kms] designates. *)
Record MetaKmsDevice : Set := mkDevice {
  ref_count : nat;
  impl_device : option loc;
  flags : Z;
  path : option string;
  driver_name : option string;
  driver_description : option string;
  crtcs : option loc;
  connectors : option loc;
  planes : option loc;
  caps : MetaKmsDeviceCaps;
  fallback_modes : option loc
}.

Definition zero_caps : MetaKmsDeviceCaps := mkCaps false 0 0 false false false.

(** The zero-filled instance [g_object_new] hands out. *)
Definition zero_device : MetaKmsDevice :=
  mkDevice 1 None 0 None None None None None None zero_caps None.

(** The context flags of the [MetaKms] root that the assertion macros read. *)
Record MetaKms : Set := mkKms {
  in_impl_task : bool;
  waiting_for_impl_task : bool
}.

(** ** What the file imports

    Everything [meta-kms-device.c] uses from headers and objects that are
    not part of src: two enumerators of [MetaKmsDeviceFlag], the accessors of
    plane, CRTC, connector and update objects, and the [MetaKmsImplDevice]
    virtual interface.  A backend instance has a private state
    [ImplDeviceState]; its operations act on that state and on the state
    [Kernel] of the DRM device nodes. *)
Class KmsEnv : Type := {
  ImplDeviceState : Type;
  Kernel : Type;
  MetaKmsUpdate : Type;
  MetaKmsFeedback : Type;
  (** Modelled from the spec: [flags] is a bit-set, so each enumerator is
      one bit; which bit is left open. *)
  NO_MODE_SETTING_bit : N;
  HAS_ADDFB2_bit : N;
  (** [GInitable] construction of one backend type on a device path. *)
  impl_device_init :
    GType → string → Z → Kernel → (ImplDeviceState + GError) * Kernel;
  meta_kms_impl_device_peek_crtcs : ImplDeviceState → list gpointer;
  meta_kms_impl_device_peek_connectors : ImplDeviceState → list gpointer;
  meta_kms_impl_device_peek_planes : ImplDeviceState → list gpointer;
  meta_kms_impl_device_peek_fallback_modes : ImplDeviceState → list gpointer;
  meta_kms_impl_device_get_caps : ImplDeviceState → MetaKmsDeviceCaps;
  meta_kms_impl_device_get_driver_name : ImplDeviceState → string;
  meta_kms_impl_device_get_driver_description : ImplDeviceState → string;
  meta_kms_impl_device_get_path : ImplDeviceState → string;
  impl_update_states :
    ImplDeviceState → Z → Z → Kernel → Z * ImplDeviceState * Kernel;
  (** Modelled from the spec: the backend's
      "[process_update (update, flags) -> Feedback | Error]".  What the
      backend leaves behind the pointer it returns is a feedback object or
      an error. *)
  impl_process_update :
    ImplDeviceState → MetaKmsUpdate → Z → Kernel →
    (MetaKmsFeedback + GError) * ImplDeviceState * Kernel;
  impl_disable : ImplDeviceState → Kernel → ImplDeviceState * Kernel;
  impl_add_fake_plane :
    ImplDeviceState → MetaKmsPlaneType → gpointer → gpointer * ImplDeviceState;
  meta_kms_update_get_device : MetaKmsUpdate → loc;
  meta_kms_plane_get_plane_type : gpointer → MetaKmsPlaneType;
  meta_kms_plane_is_usable_with : gpointer → gpointer → bool;
  meta_kms_crtc_get_id : gpointer → Z;
  meta_kms_connector_get_id : gpointer → Z
}.

Definition META_KMS_DEVICE_FLAG_NO_MODE_SETTING `{KmsEnv} : Z :=
  Z.shiftl 1 (Z.of_N NO_MODE_SETTING_bit).

Definition META_KMS_DEVICE_FLAG_HAS_ADDFB2 `{KmsEnv} : Z :=
  Z.shiftl 1 (Z.of_N HAS_ADDFB2_bit).

(** A live backend instance: its dynamic type, the construct properties the
    file passes to [g_initable_new], and the private state. *)
Record MetaKmsImplDevice `{KmsEnv} : Type := mkImplDevice {
  impl_type : GType;
  impl_owner : loc;
  impl_state : ImplDeviceState
}.

Arguments mkImplDevice {_} _ _ _.

(** ** The world *)

Record World `{KmsEnv} : Type := mkWorld {
  kms : MetaKms;
  devices : gmap loc MetaKmsDevice;
  impl_devices : gmap loc MetaKmsImplDevice;
  (** the backend instances handed to the [MetaKmsImpl]; a set: the
      file fixes no order among them *)
  impl_registry : gset loc;
  (** [GList]s, each kept under the address of its first cell; [NULL] is
      the empty list and has no entry *)
  glists : gmap loc (list gpointer);
  (** [uint64_t] cells reachable through out-parameters *)
  cells : gmap loc Z;
  kernel : Kernel;
  (** ghost: the types handed to [g_initable_new], oldest first *)
  attempts : list GType;
  (** the [g_warning] lines, oldest first *)
  warnings : list string
}.

Arguments mkWorld {_} _ _ _ _ _ _ _ _ _.

Section Monad.
Context `{KmsEnv}.

Definition set_kms (x : MetaKms) (w : World) : World :=
  mkWorld x (devices w) (impl_devices w) (impl_registry w) (glists w)
          (cells w) (kernel w) (attempts w) (warnings w).

Definition set_devices (x : gmap loc MetaKmsDevice) (w : World) : World :=
  mkWorld (kms w) x (impl_devices w) (impl_registry w) (glists w)
          (cells w) (kernel w) (attempts w) (warnings w).

Definition set_impl_devices (x : gmap loc MetaKmsImplDevice) (w : World)
  : World :=
  mkWorld (kms w) (devices w) x (impl_registry w) (glists w)
          (cells w) (kernel w) (attempts w) (warnings w).

Definition set_impl_registry (x : gset loc) (w : World) : World :=
  mkWorld (kms w) (devices w) (impl_devices w) x (glists w)
          (cells w) (kernel w) (attempts w) (warnings w).

Definition set_glists (x : gmap loc (list gpointer)) (w : World) : World :=
  mkWorld (kms w) (devices w) (impl_devices w) (impl_registry w) x
          (cells w) (kernel w) (attempts w) (warnings w).

Definition set_cells (x : gmap loc Z) (w : World) : World :=
  mkWorld (kms w) (devices w) (impl_devices w) (impl_registry w) (glists w)
          x (kernel w) (attempts w) (warnings w).

Definition set_kernel (x : Kernel) (w : World) : World :=
  mkWorld (kms w) (devices w) (impl_devices w) (impl_registry w) (glists w)
          (cells w) x (attempts w) (warnings w).

Definition set_attempts (x : list GType) (w : World) : World :=
  mkWorld (kms w) (devices w) (impl_devices w) (impl_registry w) (glists w)
          (cells w) (kernel w) x (warnings w).

Definition set_warnings (x : list string) (w : World) : World :=
  mkWorld (kms w) (devices w) (impl_devices w) (impl_registry w) (glists w)
          (cells w) (kernel w) (attempts w) x.

(** State with failure.  [None] is a run that does not return: a tripped
    assertion, or a load, store or free through a dangling pointer. *)
Definition M (A : Type) : Type := World → option (A * World).

#[global] Instance M_ret : MRet M := λ A a w, Some (a, w).

#[global] Instance M_bind : MBind M := λ A B f m w,
  match m w with
  | Some (a, w') => f a w'
  | None => None
  end.

Definition abort {A} : M A := λ _, None.
Definition gets {A} (f : World → A) : M A := λ w, Some (f w, w).
Definition modify (f : World → World) : M unit := λ w, Some (tt, f w).

Definition g_assert (b : bool) : M unit := if b then mret tt else abort.

(** Dereference that fails on [NULL] and on dangling pointers. *)
Definition load {V} (store : World → gmap loc V) (p : loc) : M V :=
  λ w, match store w !! p with
       | Some v => Some (v, w)
       | None => None
       end.

Definition deref {V} (store : World → gmap loc V) (p : option loc) : M V :=
  match p with
  | Some l => load store l
  | None => abort
  end.

End Monad.

(** ** Field stores into a [MetaKmsDevice] *)

Definition with_ref_count (x : nat) (d : MetaKmsDevice) : MetaKmsDevice :=
  mkDevice x (impl_device d) (flags d) (path d) (driver_name d)
           (driver_description d) (crtcs d) (connectors d) (planes d)
           (caps d) (fallback_modes d).

Definition with_impl_device (x : option loc) (d : MetaKmsDevice)
  : MetaKmsDevice :=
  mkDevice (ref_count d) x (flags d) (path d) (driver_name d)
           (driver_description d) (crtcs d) (connectors d) (planes d)
           (caps d) (fallback_modes d).

Definition with_flags (x : Z) (d : MetaKmsDevice) : MetaKmsDevice :=
  mkDevice (ref_count d) (impl_device d) x (path d) (driver_name d)
           (driver_description d) (crtcs d) (connectors d) (planes d)
           (caps d) (fallback_modes d).

Definition with_path (x : option string) (d : MetaKmsDevice) : MetaKmsDevice :=
  mkDevice (ref_count d) (impl_device d) (flags d) x (driver_name d)
           (driver_description d) (crtcs d) (connectors d) (planes d)
           (caps d) (fallback_modes d).

Definition with_driver_name (x : option string) (d : MetaKmsDevice)
  : MetaKmsDevice :=
  mkDevice (ref_count d) (impl_device d) (flags d) (path d) x
           (driver_description d) (crtcs d) (connectors d) (planes d)
           (caps d) (fallback_modes d).

Definition with_driver_description (x : option string) (d : MetaKmsDevice)
  : MetaKmsDevice :=
  mkDevice (ref_count d) (impl_device d) (flags d) (path d) (driver_name d)
           x (crtcs d) (connectors d) (planes d)
           (caps d) (fallback_modes d).

Definition with_crtcs (x : option loc) (d : MetaKmsDevice) : MetaKmsDevice :=
  mkDevice (ref_count d) (impl_device d) (flags d) (path d) (driver_name d)
           (driver_description d) x (connectors d) (planes d)
           (caps d) (fallback_modes d).

Definition with_connectors (x : option loc) (d : MetaKmsDevice)
  : MetaKmsDevice :=
  mkDevice (ref_count d) (impl_device d) (flags d) (path d) (driver_name d)
           (driver_description d) (crtcs d) x (planes d)
           (caps d) (fallback_modes d).

Definition with_planes (x : option loc) (d : MetaKmsDevice) : MetaKmsDevice :=
  mkDevice (ref_count d) (impl_device d) (flags d) (path d) (driver_name d)
           (driver_description d) (crtcs d) (connectors d) x
           (caps d) (fallback_modes d).

Definition with_caps (x : MetaKmsDeviceCaps) (d : MetaKmsDevice)
  : MetaKmsDevice :=
  mkDevice (ref_count d) (impl_device d) (flags d) (path d) (driver_name d)
           (driver_description d) (crtcs d) (connectors d) (planes d)
           x (fallback_modes d).

Definition with_fallback_modes (x : option loc) (d : MetaKmsDevice)
  : MetaKmsDevice :=
  mkDevice (ref_count d) (impl_device d) (flags d) (path d) (driver_name d)
           (driver_description d) (crtcs d) (connectors d) (planes d)
           (caps d) x.

(** The user data of the construction task. *)
Record CreateImplDeviceData : Set := mkCreateData {
  data_device : loc;
  data_path : string;
  data_flags : Z;
  out_impl_device : option loc;
  out_crtcs : option loc;
  out_connectors : option loc;
  out_planes : option loc;
  out_caps : MetaKmsDeviceCaps;
  out_fallback_modes : option loc;
  out_driver_name : option string;
  out_driver_description : option string;
  out_path : option string
}.

Section Glib.
Context `{KmsEnv}.

(** ** GLib and GObject primitives *)

(** [device->field = x] *)
Definition store_device (device : loc) (f : MetaKmsDevice → MetaKmsDevice)
  : M unit :=
  d ← load devices device;
  modify (λ w, set_devices (<[device := f d]> (devices w)) w).

(** [*p = v] on a [uint64_t] cell *)
Definition store_u64 (p : loc) (v : Z) : M unit :=
  _ ← load cells p;
  modify (λ w, set_cells (<[p := v]> (cells w)) w).

(** The elements of a [GList], front to back. *)
Definition read_glist (head : option loc) : M (list gpointer) :=
  match head with
  | None => mret []
  | Some l => load glists l
  end.

(** A new [GList] with the given elements; the empty one is [NULL]. *)
Definition g_list_alloc (content : list gpointer) : M (option loc) :=
  match content with
  | [] => mret None
  | _ :: _ => λ w,
      let l := fresh (dom (glists w)) in
      Some (Some l, set_glists (<[l := content]> (glists w)) w)
  end.

Definition g_list_free (head : option loc) : M unit :=
  match head with
  | None => mret tt
  | Some l =>
      _ ← load glists l;
      modify (λ w, set_glists (delete l (glists w)) w)
  end.

Definition g_list_append (head : option loc) (data : gpointer)
  : M (option loc) :=
  match head with
  | None => g_list_alloc [data]
  | Some l =>
      xs ← load glists l;
      _ ← modify (λ w, set_glists (<[l := xs ++ [data]]> (glists w)) w);
      mret (Some l)
  end.

Definition g_warning (line : string) : M unit :=
  modify (λ w, set_warnings (warnings w ++ [line]) w).

(** [g_object_new (META_TYPE_KMS_DEVICE, NULL)]; [meta_kms_device_init] is
    empty, so the instance stays zero-filled. *)
Definition g_object_new_device : M loc := λ w,
  let l := fresh (dom (devices w)) in
  Some (l, set_devices (<[l := zero_device]> (devices w)) w).

(** [g_initable_new] on a backend type with the properties device, impl,
    path and flags: the new instance, or the error of its initialisation. *)
Definition g_initable_new (type : GType) (device : loc) (path : string)
    (flags : Z) : M (loc + GError) := λ w,
  let '(r, k) := impl_device_init type path flags (kernel w) in
  let w1 := set_attempts (attempts w ++ [type]) (set_kernel k w) in
  match r with
  | inl st =>
      let l := fresh (dom (impl_devices w1)) in
      Some (inl l,
            set_impl_devices
              (<[l := mkImplDevice type device st]> (impl_devices w1)) w1)
  | inr e => Some (inr e, w1)
  end.

(** ** The context assertions and the task dispatcher

    Modelled from the spec: [meta_kms_run_impl_task_sync] and the
    [meta_assert_*] macros live in [meta-kms.c] and [meta-kms-private.h],
    which are not in src.  The dispatcher "runs [the task] inside the
    Privileged Context and blocks the caller until a result or error is
    produced"; the assertions fail fast when an API is entered from the
    wrong context.  A task gets its user data and yields its return value,
    the user data as it left them and the [GError] it set, if any. *)

Definition meta_assert_in_kms_impl : M unit :=
  k ← gets kms; g_assert (in_impl_task k).

Definition meta_assert_not_in_kms_impl : M unit :=
  k ← gets kms; g_assert (negb (in_impl_task k)).

Definition meta_assert_is_waiting_for_kms_impl_task : M unit :=
  k ← gets kms; g_assert (waiting_for_impl_task k).

Definition meta_kms_run_impl_task_sync {D R}
    (func : D → M (R * D * option GError)) (user_data : D)
  : M (R * D * option GError) :=
  _ ← modify (set_kms (mkKms true true));
  ret ← func user_data;
  _ ← modify (set_kms (mkKms false false));
  mret ret.

(** ** The backend instance behind a [MetaKmsImplDevice *] *)

(** Run one virtual method on the instance and store its new state. *)
Definition call_impl {A} (impl_device : option loc)
    (op : ImplDeviceState → Kernel → A * ImplDeviceState * Kernel) : M A :=
  match impl_device with
  | None => abort
  | Some l => λ w,
      match impl_devices w !! l with
      | None => None
      | Some i =>
          let '(a, st, k) := op (impl_state i) (kernel w) in
          Some (a, set_kernel k
                     (set_impl_devices
                        (<[l := mkImplDevice (impl_type i) (impl_owner i) st]>
                           (impl_devices w)) w))
      end
  end.

Definition peek_impl {A} (impl_device : option loc)
    (get : ImplDeviceState → A) : M A :=
  i ← deref impl_devices impl_device; mret (get (impl_state i)).

(** Modelled from the spec: the [copy_*] accessors hand out "fresh backend
    copies" of the live lists. *)
Definition meta_kms_impl_device_copy_crtcs (impl_device : option loc)
  : M (option loc) :=
  l ← peek_impl impl_device meta_kms_impl_device_peek_crtcs; g_list_alloc l.

Definition meta_kms_impl_device_copy_connectors (impl_device : option loc)
  : M (option loc) :=
  l ← peek_impl impl_device meta_kms_impl_device_peek_connectors;
  g_list_alloc l.

Definition meta_kms_impl_device_copy_planes (impl_device : option loc)
  : M (option loc) :=
  l ← peek_impl impl_device meta_kms_impl_device_peek_planes; g_list_alloc l.

Definition meta_kms_impl_device_copy_fallback_modes
    (impl_device : option loc) : M (option loc) :=
  l ← peek_impl impl_device meta_kms_impl_device_peek_fallback_modes;
  g_list_alloc l.

Definition meta_kms_impl_device_update_states (impl_device : option loc)
    (crtc_id connector_id : Z) : M Z :=
  call_impl impl_device (λ st, impl_update_states st crtc_id connector_id).

(** Modelled from the spec: the backend's [process_update] (in
    [meta-kms-impl-device.c], not in src) "performs the actual kernel-level
    commit" and yields "[Feedback | Error]".  The call takes no [GError]
    argument, so the pointer it returns is the one way out for either. *)
Definition meta_kms_impl_device_process_update (impl_device : option loc)
    (update : MetaKmsUpdate) (flags : Z) : M (MetaKmsFeedback + GError) :=
  call_impl impl_device (λ st, impl_process_update st update flags).

Definition meta_kms_impl_device_disable (impl_device : option loc) : M unit :=
  call_impl impl_device
    (λ st k, (tt, (impl_disable st k).1, (impl_disable st k).2)).

Definition meta_kms_impl_device_add_fake_plane (impl_device : option loc)
    (plane_type : MetaKmsPlaneType) (crtc : gpointer) : M gpointer :=
  call_impl impl_device
    (λ st k, (impl_add_fake_plane st plane_type crtc, k)).

(** Modelled from the spec: [meta_kms_impl_add_impl_device] is defined in
    [meta-kms-impl.c], which is not in src; the file only calls it, once,
    on the instance it has just constructed.  As "the backend is
    exclusively reachable from the Privileged Context", the call is recorded
    as the instance joining the set of backends that context can reach.
    Nothing is said about an order among them, and none is modelled. *)
Definition meta_kms_impl_add_impl_device (impl_device : loc) : M unit :=
  modify (λ w, set_impl_registry ({[impl_device]} ∪ impl_registry w) w).

(** Dropping the last reference of a backend instance: it is no longer
    reachable from the impl context and its memory is released. *)
Definition g_object_unref_impl_device (impl_device : option loc) : M unit :=
  match impl_device with
  | None => abort
  | Some l =>
      _ ← load impl_devices l;
      modify (λ w, set_impl_registry
                     (impl_registry w ∖ {[l]})
                     (set_impl_devices (delete l (impl_devices w)) w))
  end.

End Glib.

(** [PostUpdateData], the user data of the update task. *)
Record PostUpdateData `{KmsEnv} : Type := mkPostUpdateData {
  update : MetaKmsUpdate;
  update_flags : Z
}.

Arguments mkPostUpdateData {_} _ _.

(** [device->flags |= bit] *)
Definition or_flags (bit : Z) (d : MetaKmsDevice) : MetaKmsDevice :=
  with_flags (Z.lor (flags d) bit) d.

Section Device.
Context `{KmsEnv}.

(** ** The functions of [meta-kms-device.c] *)

(** [device->kms]: the load through [device]; the root it yields is the
    one of the world. *)
Definition meta_kms_device_get_kms (device : loc) : M unit :=
  _ ← load devices device; mret tt.

Definition meta_kms_device_get_impl_device (device : loc) : M (option loc) :=
  d ← load devices device; mret (impl_device d).

Definition meta_kms_device_get_path (device : loc) : M (option string) :=
  d ← load devices device; mret (path d).

Definition meta_kms_device_get_driver_name (device : loc)
  : M (option string) :=
  d ← load devices device; mret (driver_name d).

Definition meta_kms_device_get_driver_description (device : loc)
  : M (option string) :=
  d ← load devices device; mret (driver_description d).

Definition meta_kms_device_get_flags (device : loc) : M Z :=
  d ← load devices device; mret (flags d).

Definition meta_kms_device_get_cursor_size (device : loc)
    (out_cursor_width out_cursor_height : loc) : M bool :=
  d ← load devices device;
  if has_cursor_size (caps d) then
    _ ← store_u64 out_cursor_width (cursor_width (caps d));
    _ ← store_u64 out_cursor_height (cursor_height (caps d));
    mret true
  else
    mret false.

Definition meta_kms_device_prefers_shadow_buffer (device : loc) : M bool :=
  d ← load devices device; mret (prefers_shadow_buffer (caps d)).

Definition meta_kms_device_uses_monotonic_clock (device : loc) : M bool :=
  d ← load devices device; mret (uses_monotonic_clock (caps d)).

Definition meta_kms_device_get_connectors (device : loc) : M (option loc) :=
  d ← load devices device; mret (connectors d).

(** The loop shared by the two [find_*_in_impl] functions. *)
Fixpoint find_with_id (get_id : gpointer → Z) (id : Z) (l : list gpointer)
  : option gpointer :=
  match l with
  | [] => None
  | x :: next =>
      if decide (get_id x = id) then Some x else find_with_id get_id id next
  end.

Definition meta_kms_device_find_crtc_in_impl (device : loc) (crtc_id : Z)
  : M (option gpointer) :=
  impl_device ← meta_kms_device_get_impl_device device;
  _ ← meta_assert_in_kms_impl;
  _ ← meta_assert_is_waiting_for_kms_impl_task;
  l ← peek_impl impl_device meta_kms_impl_device_peek_crtcs;
  mret (find_with_id meta_kms_crtc_get_id crtc_id l).

Definition meta_kms_device_find_connector_in_impl (device : loc)
    (connector_id : Z) : M (option gpointer) :=
  impl_device ← meta_kms_device_get_impl_device device;
  _ ← meta_assert_in_kms_impl;
  _ ← meta_assert_is_waiting_for_kms_impl_task;
  l ← peek_impl impl_device meta_kms_impl_device_peek_connectors;
  mret (find_with_id meta_kms_connector_get_id connector_id l).

Definition meta_kms_device_get_crtcs (device : loc) : M (option loc) :=
  d ← load devices device; mret (crtcs d).

Definition meta_kms_device_get_planes (device : loc) : M (option loc) :=
  d ← load devices device; mret (planes d).

(** The [for] loop of [get_plane_with_type_for] over the cells of the plane
    list: [continue] on a type mismatch, [return plane] on the first usable
    one, [return NULL] at the end. *)
Fixpoint plane_scan (crtc : gpointer) (type : MetaKmsPlaneType)
    (l : list gpointer) : option gpointer :=
  match l with
  | [] => None
  | plane :: next =>
      if decide (meta_kms_plane_get_plane_type plane ≠ type)
      then plane_scan crtc type next
      else if meta_kms_plane_is_usable_with plane crtc
           then Some plane
           else plane_scan crtc type next
  end.

Definition get_plane_with_type_for (device : loc) (crtc : gpointer)
    (type : MetaKmsPlaneType) : M (option gpointer) :=
  head ← meta_kms_device_get_planes device;
  l ← read_glist head;
  mret (plane_scan crtc type l).

Definition meta_kms_device_get_primary_plane_for (device : loc)
    (crtc : gpointer) : M (option gpointer) :=
  get_plane_with_type_for device crtc META_KMS_PLANE_TYPE_PRIMARY.

Definition meta_kms_device_get_cursor_plane_for (device : loc)
    (crtc : gpointer) : M (option gpointer) :=
  get_plane_with_type_for device crtc META_KMS_PLANE_TYPE_CURSOR.

Definition meta_kms_device_get_fallback_modes (device : loc)
  : M (option loc) :=
  d ← load devices device; mret (fallback_modes d).

Definition disable_device_in_impl (user_data : option loc)
  : M (bool * option loc * option GError) :=
  let impl_device := user_data in
  _ ← meta_kms_impl_device_disable impl_device;
  mret (true, user_data, None).

Definition meta_kms_device_disable (device : loc) : M unit :=
  _ ← meta_kms_device_get_kms device;
  _ ← meta_assert_not_in_kms_impl;
  impl_device ← meta_kms_device_get_impl_device device;
  _ ← meta_kms_run_impl_task_sync disable_device_in_impl impl_device;
  mret tt.

Definition meta_kms_device_update_states_in_impl (device : loc)
    (crtc_id connector_id : Z) : M Z :=
  impl_device ← meta_kms_device_get_impl_device device;
  _ ← meta_assert_in_kms_impl;
  _ ← meta_assert_is_waiting_for_kms_impl_task;
  changes ← meta_kms_impl_device_update_states impl_device crtc_id
              connector_id;
  if decide (changes = META_KMS_UPDATE_CHANGE_NONE) then
    mret changes
  else
    old ← meta_kms_device_get_crtcs device;
    _ ← g_list_free old;
    new ← meta_kms_impl_device_copy_crtcs impl_device;
    _ ← store_device device (with_crtcs new);
    old ← meta_kms_device_get_connectors device;
    _ ← g_list_free old;
    new ← meta_kms_impl_device_copy_connectors impl_device;
    _ ← store_device device (with_connectors new);
    old ← meta_kms_device_get_planes device;
    _ ← g_list_free old;
    new ← meta_kms_impl_device_copy_planes impl_device;
    _ ← store_device device (with_planes new);
    mret changes.

(** The task returns the pointer the backend returned and never touches
    its [error] argument. *)
Definition process_update_in_impl (user_data : PostUpdateData)
  : M (option (MetaKmsFeedback + GError) * PostUpdateData * option GError) :=
  let data := user_data in
  let device := meta_kms_update_get_device (update data) in
  impl_device ← meta_kms_device_get_impl_device device;
  feedback ← meta_kms_impl_device_process_update impl_device (update data)
               (update_flags data);
  mret (Some feedback, user_data, None).

(** The dispatcher is called with [NULL] for [error]: whatever the task
    would report there is dropped, only the returned pointer comes back. *)
Definition meta_kms_device_process_update_sync (device : loc)
    (update : MetaKmsUpdate) (flags : Z)
  : M (option (MetaKmsFeedback + GError)) :=
  _ ← meta_kms_device_get_kms device;
  let data := mkPostUpdateData update flags in
  r ← meta_kms_run_impl_task_sync process_update_in_impl data;
  mret r.1.1.

Definition meta_kms_device_add_fake_plane_in_impl (device : loc)
    (plane_type : MetaKmsPlaneType) (crtc : gpointer) : M unit :=
  impl_device ← meta_kms_device_get_impl_device device;
  _ ← meta_assert_in_kms_impl;
  plane ← meta_kms_impl_device_add_fake_plane impl_device plane_type crtc;
  head ← meta_kms_device_get_planes device;
  new ← g_list_append head plane;
  store_device device (with_planes new).

Definition impl_device_type_to_string (type : GType) : string :=
  match type with
  | META_TYPE_KMS_IMPL_DEVICE_ATOMIC => "atomic modesetting"
  | META_TYPE_KMS_IMPL_DEVICE_SIMPLE => "legacy modesetting"
  | META_TYPE_KMS_IMPL_DEVICE_DUMMY => "no modesetting"
  end.

(** The array the selection loop walks. *)
Definition impl_device_types : list GType :=
  [META_TYPE_KMS_IMPL_DEVICE_ATOMIC; META_TYPE_KMS_IMPL_DEVICE_SIMPLE].

(** The error [g_set_error] leaves when the loop runs out of types. *)
Definition no_suitable_backend_error : GError :=
  mkGError G_IO_ERROR G_IO_ERROR_FAILED
           "No suitable mode setting backend found".

(** The loop of [meta_create_kms_impl_device] from index [i] on, [types]
    being the elements still to try.  The result is the instance with no
    error, or [NULL] with the error stored through [error]. *)
Fixpoint try_impl_device_types (device : loc) (path : string) (flags : Z)
    (types : list GType) : M (option loc * option GError) :=
  match types with
  | [] => mret (None, Some no_suitable_backend_error)
  | type :: rest =>
      r ← g_initable_new type device path flags;
      match r with
      | inl impl_device => mret (Some impl_device, None)
      | inr local_error =>
          _ ← (if decide (domain local_error ≠ META_KMS_ERROR)
               then g_warning ("Failed to open "
                               +:+ impl_device_type_to_string type
                               +:+ " backend: " +:+ message local_error)
               else mret tt);
          try_impl_device_types device path flags rest
      end
  end.

Definition meta_create_kms_impl_device (device : loc) (path : string)
    (flags : Z) : M (option loc * option GError) :=
  _ ← meta_assert_in_kms_impl;
  if decide (Z.land flags META_KMS_DEVICE_FLAG_NO_MODE_SETTING ≠ 0%Z) then
    r ← g_initable_new META_TYPE_KMS_IMPL_DEVICE_DUMMY device path flags;
    match r with
    | inl impl_device => mret (Some impl_device, None)
    | inr e => mret (None, Some e)
    end
  else
    try_impl_device_types device path flags impl_device_types.

Definition create_impl_device_in_impl (user_data : CreateImplDeviceData)
  : M (bool * CreateImplDeviceData * option GError) :=
  let data := user_data in
  r ← meta_create_kms_impl_device (data_device data) (data_path data)
        (data_flags data);
  match r.1 with
  | None => mret (false, data, r.2)
  | Some l =>
      let impl_device := Some l in
      _ ← meta_kms_impl_add_impl_device l;
      crtcs ← meta_kms_impl_device_copy_crtcs impl_device;
      connectors ← meta_kms_impl_device_copy_connectors impl_device;
      planes ← meta_kms_impl_device_copy_planes impl_device;
      caps ← peek_impl impl_device meta_kms_impl_device_get_caps;
      fallback_modes ← meta_kms_impl_device_copy_fallback_modes impl_device;
      driver_name ←
        peek_impl impl_device meta_kms_impl_device_get_driver_name;
      driver_description ←
        peek_impl impl_device meta_kms_impl_device_get_driver_description;
      path ← peek_impl impl_device meta_kms_impl_device_get_path;
      mret (true,
            mkCreateData (data_device data) (data_path data)
              (data_flags data) impl_device crtcs connectors planes caps
              fallback_modes (Some driver_name) (Some driver_description)
              (Some path),
            r.2)
  end.

Definition free_impl_device_in_impl (user_data : option loc)
  : M (bool * option loc * option GError) :=
  let impl_device := user_data in
  _ ← g_object_unref_impl_device impl_device;
  mret (true, user_data, None).

Definition meta_kms_device_finalize (device : loc) : M unit :=
  d ← load devices device;
  _ ← g_list_free (crtcs d);
  _ ← g_list_free (connectors d);
  _ ← g_list_free (planes d);
  _ ← match impl_device d with
      | Some _ =>
          _ ← meta_kms_run_impl_task_sync free_impl_device_in_impl
                (impl_device d);
          mret tt
      | None => mret tt
      end;
  modify (λ w, set_devices (delete device (devices w)) w).

(** [g_object_unref] on a device: the last reference finalizes it. *)
Definition g_object_unref_device (device : loc) : M unit :=
  d ← load devices device;
  if decide (ref_count d = 1%nat) then meta_kms_device_finalize device
  else store_device device (with_ref_count (ref_count d - 1)).

(** The result is the [MetaKmsDevice *] returned and what the call leaves
    in [*error]. *)
Definition meta_kms_device_new (path : string) (flags : Z)
  : M (option loc * option GError) :=
  device ← g_object_new_device;
  let data :=
    mkCreateData device path flags None None None None zero_caps None None
      None None in
  r ← meta_kms_run_impl_task_sync create_impl_device_in_impl data;
  let data := r.1.2 in
  if negb r.1.1 then
    _ ← g_object_unref_device device;
    mret (None, r.2)
  else
    _ ← store_device device (with_impl_device (out_impl_device data));
    _ ← store_device device (with_flags flags);
    _ ← store_device device (with_path (Some path));
    _ ← store_device device (with_crtcs (out_crtcs data));
    _ ← store_device device (with_connectors (out_connectors data));
    _ ← store_device device (with_planes (out_planes data));
    _ ← store_device device (with_caps (out_caps data));
    _ ← store_device device (with_fallback_modes (out_fallback_modes data));
    _ ← store_device device (with_driver_name (out_driver_name data));
    _ ← store_device device
          (with_driver_description (out_driver_description data));
    _ ← store_device device (with_path (out_path data));
    d ← load devices device;
    _ ← (if addfb2_modifiers (caps d)
         then store_device device
                (or_flags META_KMS_DEVICE_FLAG_HAS_ADDFB2)
         else mret tt);
    mret (Some device, r.2).

End Device.

(** ** Vocabulary of the statements *)

Section Vocabulary.
Context `{KmsEnv}.

(** What a [GList *] designates in a heap of lists. *)
Definition list_at (head : option loc) (g : gmap loc (list gpointer))
  : option (list gpointer) :=
  match head with
  | None => Some []
  | Some l => g !! l
  end.

(** The heap after [g_list_free], and the head and heap after a copy. *)
Definition released (head : option loc) (g : gmap loc (list gpointer))
  : gmap loc (list gpointer) :=
  match head with
  | Some l => delete l g
  | None => g
  end.

Definition new_head (content : list gpointer) (g : gmap loc (list gpointer))
  : option loc :=
  match content with
  | [] => None
  | _ :: _ => Some (fresh (dom g))
  end.

Definition linked (content : list gpointer) (g : gmap loc (list gpointer))
  : gmap loc (list gpointer) :=
  match content with
  | [] => g
  | _ :: _ => <[fresh (dom g) := content]> g
  end.

(** The heads of the three cached sequences of a device. *)
Definition snapshot_heads (d : MetaKmsDevice) : list loc :=
  omap id [crtcs d; connectors d; planes d].

(** The cached sequences are live lists and no two of them share cells. *)
Definition snapshot_wf (g : gmap loc (list gpointer)) (d : MetaKmsDevice)
  : Prop :=
  NoDup (snapshot_heads d) ∧ ∀ l, l ∈ snapshot_heads d → is_Some (g !! l).

(** A device whose backend pointer designates a live instance. *)
Definition bound_to (w : World) (device : loc) (d : MetaKmsDevice)
    (l : loc) (i : MetaKmsImplDevice) : Prop :=
  devices w !! device = Some d ∧ impl_device d = Some l ∧
  impl_devices w !! l = Some i.

Definition in_impl_context (w : World) : Prop :=
  in_impl_task (kms w) = true ∧ waiting_for_impl_task (kms w) = true.

(** What a call hands back is "either a feedback object or an error,
    never both" and never neither. *)
Definition exactly_one_of {A B} (ret : option A) (error : option B) : Prop :=
  (is_Some ret ∧ error = None) ∨ (ret = None ∧ is_Some error).

(** The feedback object and the error the caller finds behind the pointer
    [meta_kms_device_process_update_sync] returned. *)
Definition feedback_of {A B} (r : A + B) : option A :=
  match r with
  | inl feedback => Some feedback
  | inr _ => None
  end.

Definition error_of {A B} (r : A + B) : option B :=
  match r with
  | inl _ => None
  | inr error => Some error
  end.


(** "The first plane matching the requested type for which
    [is_usable_with (plane, crtc)] holds", and "not found". *)
Definition plane_matches (crtc : gpointer) (type : MetaKmsPlaneType)
    (plane : gpointer) : Prop :=
  meta_kms_plane_get_plane_type plane = type ∧
  meta_kms_plane_is_usable_with plane crtc = true.

Definition first_matching_plane (crtc : gpointer) (type : MetaKmsPlaneType)
    (l : list gpointer) (r : option gpointer) : Prop :=
  match r with
  | Some plane =>
      ∃ before after, l = before ++ plane :: after ∧
        plane_matches crtc type plane ∧
        ∀ q, q ∈ before → ¬ plane_matches crtc type q
  | None => ∀ q, q ∈ l → ¬ plane_matches crtc type q
  end.

(** The backend types a call with these flags hands to [g_initable_new]. *)
Definition no_mode_setting (flags : Z) : bool :=
  bool_decide (Z.land flags META_KMS_DEVICE_FLAG_NO_MODE_SETTING ≠ 0%Z).

Definition candidate_types (flags : Z) : list GType :=
  if no_mode_setting flags then [META_TYPE_KMS_IMPL_DEVICE_DUMMY]
  else impl_device_types.

(** Every type of the list fails to construct, one after the other: the
    errors in order and the kernel state left behind. *)
Fixpoint all_fail (path : string) (flags : Z) (types : list GType)
    (k : Kernel) : option (list GError * Kernel) :=
  match types with
  | [] => Some ([], k)
  | type :: rest =>
      match impl_device_init type path flags k with
      | (inl _, _) => None
      | (inr e, k1) =>
          match all_fail path flags rest k1 with
          | Some (es, k2) => Some (e :: es, k2)
          | None => None
          end
      end
  end.

(** "Try backend types in fixed priority order; success: stop, adopt that
    backend; failure: continue to next candidate; if all candidates fail:
    no suitable backend" as a function of the kernel state alone. *)
Record Selection : Type := mkSelection {
  tried : list GType;
  warned : list string;
  kernel_after : Kernel;
  adopted : (GType * ImplDeviceState) + GError
}.

Definition warning_for (type : GType) (e : GError) : list string :=
  if decide (domain e ≠ META_KMS_ERROR)
  then ["Failed to open " +:+ impl_device_type_to_string type
        +:+ " backend: " +:+ message e]
  else [].

Fixpoint select_in_order (path : string) (flags : Z) (types : list GType)
    (k : Kernel) : Selection :=
  match types with
  | [] => mkSelection [] [] k (inr no_suitable_backend_error)
  | type :: rest =>
      match impl_device_init type path flags k with
      | (inl st, k1) => mkSelection [type] [] k1 (inl (type, st))
      | (inr e, k1) =>
          let s := select_in_order path flags rest k1 in
          mkSelection (type :: tried s) (warning_for type e ++ warned s)
                      (kernel_after s) (adopted s)
      end
  end.

Definition select_backend (path : string) (flags : Z) (k : Kernel)
  : Selection :=
  if no_mode_setting flags then
    match impl_device_init META_TYPE_KMS_IMPL_DEVICE_DUMMY path flags k with
    | (inl st, k1) =>
        mkSelection [META_TYPE_KMS_IMPL_DEVICE_DUMMY] [] k1
                    (inl (META_TYPE_KMS_IMPL_DEVICE_DUMMY, st))
    | (inr e, k1) =>
        mkSelection [META_TYPE_KMS_IMPL_DEVICE_DUMMY] [] k1 (inr e)
    end
  else select_in_order path flags impl_device_types k.

(** The device as [meta_kms_device_new] leaves it around an adopted
    backend [l] in state [st], its lists copied into [g]. *)
Definition constructed_device (flags : Z) (l : loc) (st : ImplDeviceState)
    (g : gmap loc (list gpointer)) : MetaKmsDevice :=
  let g1 := linked (meta_kms_impl_device_peek_crtcs st) g in
  let g2 := linked (meta_kms_impl_device_peek_connectors st) g1 in
  let g3 := linked (meta_kms_impl_device_peek_planes st) g2 in
  mkDevice 1 (Some l)
    (if addfb2_modifiers (meta_kms_impl_device_get_caps st)
     then Z.lor flags META_KMS_DEVICE_FLAG_HAS_ADDFB2 else flags)
    (Some (meta_kms_impl_device_get_path st))
    (Some (meta_kms_impl_device_get_driver_name st))
    (Some (meta_kms_impl_device_get_driver_description st))
    (new_head (meta_kms_impl_device_peek_crtcs st) g)
    (new_head (meta_kms_impl_device_peek_connectors st) g1)
    (new_head (meta_kms_impl_device_peek_planes st) g2)
    (meta_kms_impl_device_get_caps st)
    (new_head (meta_kms_impl_device_peek_fallback_modes st) g3).

Definition constructed_lists (st : ImplDeviceState)
    (g : gmap loc (list gpointer)) : gmap loc (list gpointer) :=
  linked (meta_kms_impl_device_peek_fallback_modes st)
    (linked (meta_kms_impl_device_peek_planes st)
       (linked (meta_kms_impl_device_peek_connectors st)
          (linked (meta_kms_impl_device_peek_crtcs st) g))).

(** The world after a selection that tried, warned and left the kernel as
    [s] says, and the result of [meta_create_kms_impl_device] on it. *)
Definition after_selection (s : Selection) (w : World) : World :=
  set_warnings (warnings w ++ warned s)
    (set_attempts (attempts w ++ tried s) (set_kernel (kernel_after s) w)).

Definition selection_outcome (device : loc) (s : Selection) (w : World)
  : option (option loc * option GError * World) :=
  match adopted s with
  | inl (type, st) =>
      Some (Some (fresh (dom (impl_devices w))), None,
            set_impl_devices
              (<[fresh (dom (impl_devices w))
                 := mkImplDevice type device st]> (impl_devices w))
              (after_selection s w))
  | inr e => Some (None, Some e, after_selection s w)
  end.

(** What [meta_kms_device_new] returns and the world it leaves. *)
Definition new_outcome (path : string) (flags : Z) (w : World)
  : option loc * option GError * World :=
  let s := select_backend path flags (kernel w) in
  let device := fresh (dom (devices w)) in
  let l := fresh (dom (impl_devices w)) in
  match adopted s with
  | inl (type, st) =>
      (Some device, None,
       mkWorld (mkKms false false)
         (<[device := constructed_device flags l st (glists w)]> (devices w))
         (<[l := mkImplDevice type device st]> (impl_devices w))
         ({[l]} ∪ impl_registry w)
         (constructed_lists st (glists w)) (cells w)
         (kernel_after s) (attempts w ++ tried s) (warnings w ++ warned s))
  | inr e =>
      (None, Some e,
       mkWorld (mkKms false false) (devices w) (impl_devices w)
         (impl_registry w) (glists w) (cells w)
         (kernel_after s) (attempts w ++ tried s) (warnings w ++ warned s))
  end.

(** Two sentences of the specification read to the letter.

    "If all candidates fail, construction fails with [the] no suitable
    backend error", for every call and whatever types the call tries. *)
Definition exhaustion_reports_no_suitable_backend : Prop :=
  ∀ path flags (w : World) errors k,
    all_fail path flags (candidate_types flags) (kernel w)
    = Some (errors, k) →
    ∃ w1, meta_kms_device_new path flags w
          = Some ((None, Some no_suitable_backend_error), w1).

(** "[HAS_ADDFB2] is set on the Device if and only if the backend's
    capability struct has [addfb2_modifiers]", for every successful
    construction. *)
Definition has_addfb2_iff_capability : Prop :=
  ∀ requested_path requested_flags (w : World) device error w1 d l i,
    meta_kms_device_new requested_path requested_flags w
    = Some ((Some device, error), w1) →
    bound_to w1 device d l i →
    (Z.land (flags d) META_KMS_DEVICE_FLAG_HAS_ADDFB2 ≠ 0%Z ↔
     addfb2_modifiers (meta_kms_impl_device_get_caps (impl_state i)) = true).

End Vocabulary.

(** ** A fixture topology

    One concrete environment to run the functions on: a card with two
    CRTCs, one connector and four planes, whose device nodes accept or
    refuse each backend type as the kernel state says. *)

Record FixtureKernel : Set := mkFixtureKernel {
  atomic_ok : bool;
  simple_ok : bool;
  dummy_ok : bool
}.

Record FixtureState : Set := mkFixtureState {
  fx_enabled : bool;
  fx_addfb2 : bool;
  fx_connectors : list gpointer
}.

Definition fixture_init (type : GType) (path : string) (flags : Z)
    (k : FixtureKernel) : (FixtureState + GError) * FixtureKernel :=
  match type with
  | META_TYPE_KMS_IMPL_DEVICE_ATOMIC =>
      if atomic_ok k then (inl (mkFixtureState true true [51%positive]), k)
      else (inr (mkGError META_KMS_ERROR 0 "Atomic mode setting disabled"), k)
  | META_TYPE_KMS_IMPL_DEVICE_SIMPLE =>
      if simple_ok k then (inl (mkFixtureState true false [51%positive]), k)
      else (inr (mkGError G_IO_ERROR 14 "Permission denied"), k)
  | META_TYPE_KMS_IMPL_DEVICE_DUMMY =>
      if dummy_ok k then (inl (mkFixtureState true false []), k)
      else (inr (mkGError G_IO_ERROR 1 "No such file or directory"), k)
  end.

Definition fixture_plane_type (plane : gpointer) : MetaKmsPlaneType :=
  match plane with
  | 31%positive | 33%positive => META_KMS_PLANE_TYPE_PRIMARY
  | 32%positive => META_KMS_PLANE_TYPE_CURSOR
  | _ => META_KMS_PLANE_TYPE_OVERLAY
  end.

Definition fixture_usable_with (plane crtc : gpointer) : bool :=
  match plane, crtc with
  | 31%positive, 41%positive => true
  | 33%positive, 42%positive => true
  | 32%positive, _ => true
  | _, _ => false
  end.

Definition fixture_env : KmsEnv := {|
  ImplDeviceState := FixtureState;
  Kernel := FixtureKernel;
  MetaKmsUpdate := loc * Z;
  MetaKmsFeedback := Z;
  NO_MODE_SETTING_bit := 4;
  HAS_ADDFB2_bit := 5;
  impl_device_init := fixture_init;
  meta_kms_impl_device_peek_crtcs := λ _, [41%positive; 42%positive];
  meta_kms_impl_device_peek_connectors := fx_connectors;
  meta_kms_impl_device_peek_planes :=
    λ _, [34%positive; 31%positive; 32%positive; 33%positive];
  meta_kms_impl_device_peek_fallback_modes := λ _, [];
  meta_kms_impl_device_get_caps :=
    λ st, mkCaps true 64 64 false true (fx_addfb2 st);
  meta_kms_impl_device_get_driver_name := λ _, "fixture";
  meta_kms_impl_device_get_driver_description := λ _, "Fixture card";
  meta_kms_impl_device_get_path := λ _, "/dev/dri/card0";
  impl_update_states := λ st crtc_id connector_id k,
    if decide (connector_id = 0%Z) then (0%Z, st, k)
    else (1%Z,
          mkFixtureState (fx_enabled st) (fx_addfb2 st)
            (fx_connectors st ++ [52%positive]), k);
  impl_process_update := λ st update flags k,
    if bool_decide (0 ≤ update.2)%Z
    then (inl update.2,
          mkFixtureState true (fx_addfb2 st) (fx_connectors st), k)
    else (inr (mkGError G_IO_ERROR 22 "Invalid argument"), st, k);
  impl_disable := λ st k,
    (mkFixtureState false (fx_addfb2 st) (fx_connectors st), k);
  impl_add_fake_plane := λ st plane_type crtc, (35%positive, st);
  meta_kms_update_get_device := λ update, update.1;
  meta_kms_plane_get_plane_type := fixture_plane_type;
  meta_kms_plane_is_usable_with := fixture_usable_with;
  meta_kms_crtc_get_id := Z.pos;
  meta_kms_connector_get_id := Z.pos
|}.

(** No device yet; the kernel state decides which backends will open. *)
Definition fixture_boot (k : FixtureKernel) : @World fixture_env :=
  @mkWorld fixture_env (mkKms false false) ∅ ∅ ∅ ∅
           {[ 1%positive := 0%Z; 2%positive := 0%Z ]} k [] [].

(** The world a run leaves behind, and the boot world if it does not
    return. *)
Definition world_after {A} (m : @M fixture_env A) (w : @World fixture_env)
  : @World fixture_env :=
  match m w with
  | Some (_, w1) => w1
  | None => w
  end.

(** The card opened through its by-path name on a kernel without atomic
    mode setting: device [1] on the legacy backend. *)
Definition fixture_world : @World fixture_env :=
  world_after
    (@meta_kms_device_new fixture_env
       "/dev/dri/by-path/pci-0000:00:02.0-card" 0)
    (fixture_boot (mkFixtureKernel false true true)).

(** The same world as seen from inside a dispatched task. *)
Definition fixture_world_in_impl : @World fixture_env :=
  @set_kms fixture_env (mkKms true true) fixture_world.

(** The device and the backend instance of [fixture_world]. *)
Definition fixture_device : MetaKmsDevice :=
  mkDevice 1 (Some 1%positive) 0 (Some "/dev/dri/card0") (Some "fixture")
    (Some "Fixture card") (Some 1%positive) (Some 2%positive)
    (Some 3%positive) (mkCaps true 64 64 false true false) None.

Definition fixture_impl_device : @MetaKmsImplDevice fixture_env :=
  @mkImplDevice fixture_env META_TYPE_KMS_IMPL_DEVICE_SIMPLE 1%positive
    (mkFixtureState true false [51%positive]).

Definition fixture_planes : list gpointer :=
  [34%positive; 31%positive; 32%positive; 33%positive].

(** ** Vocabulary for the remaining entry points *)

Section MoreVocabulary.
Context `{KmsEnv}.

(** The first element of a list whose id is the one looked for, or nothing
    when no element has it. *)
Definition first_with_id (get_id : gpointer → Z) (id : Z)
    (l : list gpointer) (r : option gpointer) : Prop :=
  match r with
  | Some x =>
      ∃ before after, l = before ++ x :: after ∧ get_id x = id ∧
        ∀ q, q ∈ before → get_id q ≠ id
  | None => ∀ q, q ∈ l → get_id q ≠ id
  end.

(** Every backend the impl context has registered is a live instance. *)
Definition registry_live (w : World) : Prop :=
  ∀ x, x ∈ impl_registry w → is_Some (impl_devices w !! x).

(** The heap of lists after the snapshot [p] was freed and replaced by a
    copy of [L], and the head of that copy. *)
Definition swapped_once (p : option loc) (L : list gpointer)
    (g : gmap loc (list gpointer)) : gmap loc (list gpointer) :=
  linked L (released p g).

Definition swapped_head (p : option loc) (L : list gpointer)
    (g : gmap loc (list gpointer)) : option loc :=
  new_head L (released p g).

(** The world [meta_kms_device_update_states_in_impl] leaves after a
    non-empty change set: [out] is what the backend's [update_states]
    returned. *)
Definition refreshed_device (d : MetaKmsDevice) (st : ImplDeviceState)
    (g : gmap loc (list gpointer)) : MetaKmsDevice :=
  let L1 := meta_kms_impl_device_peek_crtcs st in
  let L2 := meta_kms_impl_device_peek_connectors st in
  let L3 := meta_kms_impl_device_peek_planes st in
  let g1 := swapped_once (crtcs d) L1 g in
  let g2 := swapped_once (connectors d) L2 g1 in
  with_planes (swapped_head (planes d) L3 g2)
    (with_connectors (swapped_head (connectors d) L2 g1)
       (with_crtcs (swapped_head (crtcs d) L1 g) d)).

Definition refreshed_lists (d : MetaKmsDevice) (st : ImplDeviceState)
    (g : gmap loc (list gpointer)) : gmap loc (list gpointer) :=
  swapped_once (planes d) (meta_kms_impl_device_peek_planes st)
    (swapped_once (connectors d) (meta_kms_impl_device_peek_connectors st)
       (swapped_once (crtcs d) (meta_kms_impl_device_peek_crtcs st) g)).

Definition refreshed_world (device l : loc) (d : MetaKmsDevice)
    (i : MetaKmsImplDevice) (out : Z * ImplDeviceState * Kernel) (w : World)
  : World :=
  mkWorld (kms w)
    (<[device := refreshed_device d out.1.2 (glists w)]> (devices w))
    (<[l := mkImplDevice (impl_type i) (impl_owner i) out.1.2]>
       (impl_devices w))
    (impl_registry w) (refreshed_lists d out.1.2 (glists w)) (cells w)
    out.2 (attempts w) (warnings w).

End MoreVocabulary.

(** ** More of the fixture *)

(** A second card, opened with the no-mode-setting flag (bit 4, value 16):
    device [2] on the Dummy backend, next to device [1]. *)
Definition fixture_two_devices : @World fixture_env :=
  world_after (@meta_kms_device_new fixture_env "/dev/dri/card1" 16)
    fixture_world.

Definition fixture_second_device : MetaKmsDevice :=
  mkDevice 1 (Some 2%positive) 16 (Some "/dev/dri/card0") (Some "fixture")
    (Some "Fixture card") (Some 4%positive) None (Some 5%positive)
    (mkCaps true 64 64 false true false) None.

Definition fixture_second_impl_device : @MetaKmsImplDevice fixture_env :=
  @mkImplDevice fixture_env META_TYPE_KMS_IMPL_DEVICE_DUMMY 2%positive
    (mkFixtureState true false []).

Definition fixture_two_devices_in_impl : @World fixture_env :=
  @set_kms fixture_env (mkKms true true) fixture_two_devices.

(** The fixture card with a backend that reports two fallback modes. *)
Definition fixture_env_with_modes : KmsEnv := {|
  ImplDeviceState := FixtureState;
  Kernel := FixtureKernel;
  MetaKmsUpdate := loc * Z;
  MetaKmsFeedback := Z;
  NO_MODE_SETTING_bit := 4;
  HAS_ADDFB2_bit := 5;
  impl_device_init := fixture_init;
  meta_kms_impl_device_peek_crtcs := λ _, [41%positive; 42%positive];
  meta_kms_impl_device_peek_connectors := fx_connectors;
  meta_kms_impl_device_peek_planes :=
    λ _, [34%positive; 31%positive; 32%positive; 33%positive];
  meta_kms_impl_device_peek_fallback_modes :=
    λ _, [61%positive; 62%positive];
  meta_kms_impl_device_get_caps :=
    λ st, mkCaps true 64 64 false true (fx_addfb2 st);
  meta_kms_impl_device_get_driver_name := λ _, "fixture";
  meta_kms_impl_device_get_driver_description := λ _, "Fixture card";
  meta_kms_impl_device_get_path := λ _, "/dev/dri/card0";
  impl_update_states := @impl_update_states fixture_env;
  impl_process_update := @impl_process_update fixture_env;
  impl_disable := @impl_disable fixture_env;
  impl_add_fake_plane := @impl_add_fake_plane fixture_env;
  meta_kms_update_get_device := λ update, update.1;
  meta_kms_plane_get_plane_type := fixture_plane_type;
  meta_kms_plane_is_usable_with := fixture_usable_with;
  meta_kms_crtc_get_id := Z.pos;
  meta_kms_connector_get_id := Z.pos
|}.

Definition fixture_boot_with_modes (k : FixtureKernel)
  : @World fixture_env_with_modes :=
  @mkWorld fixture_env_with_modes (mkKms false false) ∅ ∅ ∅ ∅ ∅ k [] [].

Definition world_after_new_with_modes : @World fixture_env_with_modes :=
  match @meta_kms_device_new fixture_env_with_modes "/dev/dri/card0" 0
          (fixture_boot_with_modes (mkFixtureKernel true true true)) with
  | Some (_, w1) => w1
  | None => fixture_boot_with_modes (mkFixtureKernel true true true)
  end.

(** * The width-limiting column

    Shallow embedding of [src/hdy-column.c]: the [HdyColumn] widget, its
    [maximum-width] property and its size requests.  The widget and the
    [gint] cells behind out-parameters and [GValue]s live in stores indexed
    by address; failure stands for an access through a pointer that
    designates nothing.  [hdy_column_size_allocate] computes in [gdouble]
    and is not embedded. *)

Module Hdy.

(** [enum { PROP_0, PROP_MAXIMUM_WIDTH, LAST_PROP }] *)
Definition PROP_0 : N := 0.
Definition PROP_MAXIMUM_WIDTH : N := 1.
Definition LAST_PROP : N := 2.

(** The two kinds of line the file can log: the critical of a failed
    [g_return_if_fail] check, with the function it guards, and the warning
    of [G_OBJECT_WARN_INVALID_PROPERTY_ID]. *)
Inductive LogLine : Set :=
| CRITICAL_check_failed (func : string)
| WARNING_invalid_property_id (prop_id : N).

(** What a child widget answers to GTK's size queries: minimum and natural
    width; for a width, minimum and natural height and the two baselines. *)
Record GtkWidget : Type := mkWidget {
  visible : bool;
  preferred_width : Z * Z;
  preferred_height_and_baseline_for_width : Z → (Z * Z) * (Z * Z)
}.

(** [struct _HdyColumn]: the child slot of the [GtkBin] parent instance
    and the one field of its own. *)
Record HdyColumn : Set := mkColumn {
  child : option loc;
  maximum_width : Z
}.

Record State : Type := mkState {
  columns : gmap loc HdyColumn;
  widgets : gmap loc GtkWidget;
  (** [gint] cells: out-parameters and the integer held by a [GValue] *)
  gints : gmap loc Z;
  log : list LogLine
}.

Definition set_columns (x : gmap loc HdyColumn) (s : State) : State :=
  mkState x (widgets s) (gints s) (log s).

Definition set_gints (x : gmap loc Z) (s : State) : State :=
  mkState (columns s) (widgets s) x (log s).

Definition set_log (x : list LogLine) (s : State) : State :=
  mkState (columns s) (widgets s) (gints s) x.

Definition H (A : Type) : Type := State → option (A * State).

#[export] Instance H_ret : MRet H := λ A a s, Some (a, s).

#[export] Instance H_bind : MBind H := λ A B f m s,
  match m s with
  | Some (a, s1) => f a s1
  | None => None
  end.

Definition load_in {V} (store : State → gmap loc V) (p : loc) : H V :=
  λ s, match store s !! p with
       | Some v => Some (v, s)
       | None => None
       end.

(** [*p = v] on a [gint] cell, and the [if (p) *p = v] of an optional
    out-parameter *)
Definition store_gint (p : loc) (v : Z) : H unit :=
  λ s, match gints s !! p with
       | Some _ => Some (tt, set_gints (<[p := v]> (gints s)) s)
       | None => None
       end.

Definition store_gint_if (p : option loc) (v : Z) : H unit :=
  match p with
  | Some l => store_gint l v
  | None => mret tt
  end.

(** [self->maximum_width = v] *)
Definition store_maximum_width (self : loc) (v : Z) : H unit :=
  λ s, match columns s !! self with
       | Some c =>
           Some (tt, set_columns (<[self := mkColumn (child c) v]>
                                    (columns s)) s)
       | None => None
       end.

Definition emit (line : LogLine) : H unit :=
  λ s, Some (tt, set_log (log s ++ [line]) s).

(** [HDY_IS_COLUMN (self)]: the pointer is not [NULL] and designates a
    column. *)
Definition HDY_IS_COLUMN (self : option loc) : H bool :=
  λ s, Some (match self with
             | Some l => bool_decide (is_Some (columns s !! l))
             | None => false
             end, s).

(** ** GTK and GObject *)

Definition g_value_set_int (value : loc) (v_int : Z) : H unit :=
  store_gint value v_int.

Definition g_value_get_int (value : loc) : H Z := load_in gints value.

Definition G_OBJECT_WARN_INVALID_PROPERTY_ID (prop_id : N) : H unit :=
  emit (WARNING_invalid_property_id prop_id).

Definition gtk_bin_get_child (bin : loc) : H (option loc) :=
  c ← load_in columns bin; mret (child c).

Definition gtk_widget_get_visible (widget : loc) : H bool :=
  c ← load_in widgets widget; mret (visible c).

Definition gtk_widget_get_preferred_width (widget : loc)
    (minimum natural : loc) : H unit :=
  c ← load_in widgets widget;
  _ ← store_gint minimum (preferred_width c).1;
  store_gint natural (preferred_width c).2.

Definition gtk_widget_get_preferred_height_and_baseline_for_width
    (widget : loc) (width : Z) (minimum natural : loc)
    (minimum_baseline natural_baseline : option loc) : H unit :=
  c ← load_in widgets widget;
  let r := preferred_height_and_baseline_for_width c width in
  _ ← store_gint minimum r.1.1;
  _ ← store_gint natural r.1.2;
  _ ← store_gint_if minimum_baseline r.2.1;
  store_gint_if natural_baseline r.2.2.

(** ** The functions of [hdy-column.c] *)

(** [child && gtk_widget_get_visible (child)] *)
Definition child_is_visible (child : option loc) : H bool :=
  match child with
  | Some c => gtk_widget_get_visible c
  | None => mret false
  end.

Definition hdy_column_get_maximum_width (self : option loc) : H Z :=
  ok ← HDY_IS_COLUMN self;
  if negb ok then
    _ ← emit (CRITICAL_check_failed "hdy_column_get_maximum_width");
    mret 0%Z
  else
    match self with
    | Some l => c ← load_in columns l; mret (maximum_width c)
    | None => mret 0%Z
    end.

Definition hdy_column_set_maximum_width (self : option loc)
    (maximum_width : Z) : H unit :=
  ok ← HDY_IS_COLUMN self;
  if negb ok then
    emit (CRITICAL_check_failed "hdy_column_set_maximum_width")
  else
    match self with
    | Some l => store_maximum_width l maximum_width
    | None => mret tt
    end.

(** The [case PROP_MAXIMUM_WIDTH] has no [break]: control runs on into
    [default]. *)
Definition hdy_column_get_property (object : option loc) (prop_id : N)
    (value : loc) : H unit :=
  let self := object in
  if decide (prop_id = PROP_MAXIMUM_WIDTH) then
    v ← hdy_column_get_maximum_width self;
    _ ← g_value_set_int value v;
    G_OBJECT_WARN_INVALID_PROPERTY_ID prop_id
  else
    G_OBJECT_WARN_INVALID_PROPERTY_ID prop_id.

Definition hdy_column_set_property (object : option loc) (prop_id : N)
    (value : loc) : H unit :=
  let self := object in
  if decide (prop_id = PROP_MAXIMUM_WIDTH) then
    v ← g_value_get_int value;
    hdy_column_set_maximum_width self v
  else
    G_OBJECT_WARN_INVALID_PROPERTY_ID prop_id.

(** The two closing assignments go through [gdouble] and back; every
    [gint] survives that unchanged. *)
Definition hdy_column_get_preferred_width (widget : loc)
    (minimum natural : loc) : H unit :=
  let bin := widget in
  _ ← store_gint minimum 0;
  _ ← store_gint natural 0;
  child ← gtk_bin_get_child bin;
  visible_child ← child_is_visible child;
  _ ← match child with
      | Some c =>
          if (visible_child : bool)
          then gtk_widget_get_preferred_width c minimum natural
          else (mret tt : H unit)
      | None => mret tt
      end;
  m ← load_in gints minimum;
  _ ← store_gint minimum m;
  n ← load_in gints natural;
  store_gint natural n.

Definition hdy_column_get_preferred_height_and_baseline_for_width
    (widget : loc) (width : Z) (minimum natural : loc)
    (minimum_baseline natural_baseline : option loc) : H unit :=
  let bin := widget in
  _ ← store_gint minimum 0;
  _ ← store_gint natural 0;
  _ ← store_gint_if minimum_baseline (-1);
  _ ← store_gint_if natural_baseline (-1);
  child ← gtk_bin_get_child bin;
  visible_child ← child_is_visible child;
  match child with
  | Some c =>
      if (visible_child : bool)
      then gtk_widget_get_preferred_height_and_baseline_for_width c width
             minimum natural minimum_baseline natural_baseline
      else (mret tt : H unit)
  | None => mret tt
  end.

Definition hdy_column_get_preferred_height (widget : loc)
    (minimum natural : loc) : H unit :=
  hdy_column_get_preferred_height_and_baseline_for_width widget (-1)
    minimum natural None None.

(** [g_object_new (HDY_TYPE_COLUMN, NULL)]; [hdy_column_init] is empty. *)
Definition hdy_column_new : H (option loc) := λ s,
  let l := fresh (dom (columns s)) in
  Some (Some l, set_columns (<[l := mkColumn None 0]> (columns s)) s).

(** ** Vocabulary of the statements *)

(** The child the column forwards size requests to: its child, when it has
    one and the child is visible. *)
Definition visible_child (s : State) (c : HdyColumn) : option GtkWidget :=
  match child c with
  | Some x =>
      match widgets s !! x with
      | Some wd => if visible wd then Some wd else None
      | None => None
      end
  | None => None
  end.

Definition child_live (s : State) (c : HdyColumn) : Prop :=
  ∀ x, child c = Some x → is_Some (widgets s !! x).

(** The width and the height request the column passes on. *)
Definition width_request (s : State) (c : HdyColumn) : Z * Z :=
  match visible_child s c with
  | Some wd => preferred_width wd
  | None => (0, 0)%Z
  end.

Definition height_request (s : State) (c : HdyColumn) (width : Z)
  : (Z * Z) * (Z * Z) :=
  match visible_child s c with
  | Some wd => preferred_height_and_baseline_for_width wd width
  | None => ((0, 0), (-1, -1))%Z
  end.

(** The cells after [if (p) *p = v]. *)
Definition put_if (p : option loc) (v : Z) (g : gmap loc Z) : gmap loc Z :=
  match p with
  | Some l => <[l := v]> g
  | None => g
  end.

(** The cells after the four stores of a height request: minimum and
    natural height, then the baselines that were asked for. *)
Definition height_written (minimum natural : loc)
    (minimum_baseline natural_baseline : option loc)
    (r : (Z * Z) * (Z * Z)) (g : gmap loc Z) : gmap loc Z :=
  put_if natural_baseline r.2.2
    (put_if minimum_baseline r.2.1
       (<[natural := r.1.2]> (<[minimum := r.1.1]> g))).

(** The out-parameters of a height request. *)
Definition height_cells (minimum natural : loc)
    (minimum_baseline natural_baseline : option loc) : list loc :=
  minimum :: natural :: omap id [minimum_baseline; natural_baseline].

(** ** A fixture: column 1 around the visible label 2, column 3 empty *)

Definition fixture_label : GtkWidget :=
  mkWidget true (30%Z, 120%Z)
    (λ width, ((18%Z, 18%Z), (14%Z, 14%Z))).

Definition fixture_state : State :=
  mkState {[ 1%positive := mkColumn (Some 2%positive) 400;
             3%positive := mkColumn None 400 ]}
          {[ 2%positive := fixture_label ]}
          {[ 10%positive := 7%Z; 11%positive := 7%Z;
             12%positive := 7%Z; 13%positive := 7%Z ]}
          [].

End Hdy.

(** * Proofs *)

Section Runs.
Context `{KmsEnv}.

(** ** How the primitives run *)

(** Projections out of rebuilt worlds and devices, and nothing else: the
    maps stay folded. *)
Ltac wsimpl :=
  cbn [kms devices impl_devices impl_registry glists cells kernel attempts
       warnings set_kms set_devices set_impl_devices set_impl_registry
       set_glists set_cells set_kernel set_attempts set_warnings
       impl_type impl_owner impl_state fst snd
       ref_count impl_device flags path driver_name driver_description
       crtcs connectors planes caps fallback_modes
       with_ref_count with_impl_device with_flags with_path with_driver_name
       with_driver_description with_crtcs with_connectors with_planes
       with_caps with_fallback_modes or_flags
       data_device data_path data_flags out_impl_device out_crtcs
       out_connectors out_planes out_caps out_fallback_modes out_driver_name
       out_driver_description out_path
       tried warned kernel_after adopted
       in_impl_task waiting_for_impl_task negb].

Lemma bind_run {A B} (m : M A) (f : A → M B) (w : World) :
  (m ≫= f) w = match m w with Some (a, w1) => f a w1 | None => None end.
Proof. reflexivity. Qed.

Lemma bind_run_some {A B} (m : M A) (f : A → M B) (w w1 : World) a :
  m w = Some (a, w1) → (m ≫= f) w = f a w1.
Proof. intros Hm. rewrite bind_run, Hm. reflexivity. Qed.

Lemma load_run {V} (store : World → gmap loc V) p v (w : World) :
  store w !! p = Some v → load store p w = Some (v, w).
Proof. unfold load. intros ->. reflexivity. Qed.

Lemma store_device_run device f d (w : World) :
  devices w !! device = Some d →
  store_device device f w
  = Some (tt, set_devices (<[device := f d]> (devices w)) w).
Proof.
  intros Hd. unfold store_device.
  rewrite (bind_run_some _ _ _ _ _ (load_run devices _ _ _ Hd)).
  reflexivity.
Qed.

Lemma store_u64_run p v (w : World) :
  is_Some (cells w !! p) →
  store_u64 p v w = Some (tt, set_cells (<[p := v]> (cells w)) w).
Proof.
  intros [old Hp]. unfold store_u64.
  rewrite (bind_run_some _ _ _ _ _ (load_run cells _ _ _ Hp)).
  reflexivity.
Qed.

Lemma read_glist_run head l (w : World) :
  list_at head (glists w) = Some l → read_glist head w = Some (l, w).
Proof.
  destruct head as [p|]; simpl.
  - apply load_run.
  - intros [= <-]. reflexivity.
Qed.

Lemma g_list_alloc_run content (w : World) :
  g_list_alloc content w
  = Some (new_head content (glists w),
          set_glists (linked content (glists w)) w).
Proof. destruct content; [|reflexivity]. 
  unfold g_list_alloc, new_head, linked. cbn. destruct w; reflexivity. Qed.

Lemma g_list_free_run head (w : World) :
  is_Some (list_at head (glists w)) →
  g_list_free head w = Some (tt, set_glists (released head (glists w)) w).
Proof.
  destruct head as [p|]; simpl.
  - intros [l Hl]. rewrite (bind_run_some _ _ _ _ _ (load_run glists _ _ _ Hl)).
    reflexivity.
  - intros _. cbn. destruct w; reflexivity.
Qed.

Lemma peek_impl_run {A} l i (get : ImplDeviceState → A) (w : World) :
  impl_devices w !! l = Some i →
  peek_impl (Some l) get w = Some (get (impl_state i), w).
Proof.
  intros Hi. unfold peek_impl, deref.
  rewrite (bind_run_some _ _ _ _ _ (load_run impl_devices _ _ _ Hi)).
  reflexivity.
Qed.

Lemma call_impl_run {A} l i
    (op : ImplDeviceState → Kernel → A * ImplDeviceState * Kernel)
    (w : World) :
  impl_devices w !! l = Some i →
  call_impl (Some l) op w
  = Some ((op (impl_state i) (kernel w)).1.1,
          set_kernel (op (impl_state i) (kernel w)).2
            (set_impl_devices
               (<[l := mkImplDevice (impl_type i) (impl_owner i)
                         (op (impl_state i) (kernel w)).1.2]>
                  (impl_devices w)) w)).
Proof.
  intros Hi. unfold call_impl. rewrite Hi.
  destruct (op (impl_state i) (kernel w)) as [[a st] k]. reflexivity.
Qed.

Lemma get_field_run {A} device d (proj : MetaKmsDevice → A) (w : World) :
  devices w !! device = Some d →
  (load devices device ≫= λ d, mret (proj d)) w = Some (proj d, w).
Proof.
  intros Hd. rewrite (bind_run_some _ _ _ _ _ (load_run devices _ _ _ Hd)).
  reflexivity.
Qed.


(** ** Cursor size *)

(** C10: [meta_kms_device_get_cursor_size] returns [TRUE] exactly when the
    capabilities carry a cursor size, and then stores the width through
    [out_cursor_width] and the height through [out_cursor_height]; without
    the capability it returns [FALSE] and stores nothing. *)
Theorem get_cursor_size_exactly_when_capable
    (w : World) device d out_cursor_width out_cursor_height :
  devices w !! device = Some d →
  (has_cursor_size (caps d) = true →
   is_Some (cells w !! out_cursor_width) ∧
   is_Some (cells w !! out_cursor_height)) →
  ∃ r w1,
    meta_kms_device_get_cursor_size device out_cursor_width
      out_cursor_height w = Some (r, w1) ∧
    (r = true ↔ has_cursor_size (caps d) = true) ∧
    (r = true →
     w1 = set_cells (<[out_cursor_height := cursor_height (caps d)]>
                       (<[out_cursor_width := cursor_width (caps d)]>
                          (cells w))) w ∧
     cells w1 !! out_cursor_height = Some (cursor_height (caps d)) ∧
     (out_cursor_width ≠ out_cursor_height →
      cells w1 !! out_cursor_width = Some (cursor_width (caps d)))) ∧
    (r = false → w1 = w).
Proof.
  intros Hd Hcells. unfold meta_kms_device_get_cursor_size.
  rewrite (bind_run_some _ _ _ _ _ (load_run devices _ _ _ Hd)).
  destruct (has_cursor_size (caps d)) eqn:Hcap.
  - destruct (Hcells eq_refl) as [Hw Hh].
    rewrite (bind_run_some _ _ _ _ _ (store_u64_run _ _ _ Hw)).
    erewrite bind_run_some; last first.
    { apply store_u64_run. simpl. destruct Hh as [old Hh].
      destruct (decide (out_cursor_width = out_cursor_height)) as [->|Hne].
      - rewrite lookup_insert_eq. eauto.
      - rewrite lookup_insert_ne by done. eauto. }
    eexists _, _. split; [reflexivity|]. repeat split; try done.
    + simpl. apply lookup_insert_eq.
    + intros Hne. simpl. rewrite lookup_insert_ne by done.
      apply lookup_insert_eq.
  - eexists _, _. split; [reflexivity|]. repeat split; try done.
Qed.

(** ** Plane lookup *)

Lemma first_matching_skip crtc type plane next r :
  ¬ plane_matches crtc type plane →
  first_matching_plane crtc type next r →
  first_matching_plane crtc type (plane :: next) r.
Proof.
  intros Hno. destruct r as [p|]; simpl.
  - intros (before & after & -> & Hp & Hbefore).
    exists (plane :: before), after. split; [reflexivity|]. split; [exact Hp|].
    intros q Hq. apply elem_of_cons in Hq as [->|Hq]; [exact Hno|].
    by apply Hbefore.
  - intros Hnext q Hq. apply elem_of_cons in Hq as [->|Hq]; [exact Hno|].
    by apply Hnext.
Qed.

Lemma plane_scan_first crtc type l :
  first_matching_plane crtc type l (plane_scan crtc type l).
Proof.
  induction l as [|plane next IH]; simpl.
  - intros q Hq. inversion Hq.
  - destruct (decide (meta_kms_plane_get_plane_type plane ≠ type)) as [Hty|Hty].
    + apply (first_matching_skip crtc type plane next); [|exact IH].
      intros [Hm _]. done.
    + destruct (meta_kms_plane_is_usable_with plane crtc) eqn:Hus.
      * exists [], next. split; [reflexivity|]. split.
        -- split; [|exact Hus].
           destruct (decide (meta_kms_plane_get_plane_type plane = type)); done.
        -- intros q Hq. inversion Hq.
      * apply (first_matching_skip crtc type plane next); [|exact IH].
        intros [_ Hm]. congruence.
Qed.

(** C6: for a device whose plane snapshot is the list [l], the plane
    lookups return without error, leave the world as it is, and hand back
    the first plane of [l] that has the requested type and is usable with
    the CRTC, or [NULL] ("not found") when [l] has no such plane. *)
Theorem plane_for_returns_first_usable_match (w : World) device d crtc l :
  devices w !! device = Some d →
  list_at (planes d) (glists w) = Some l →
  (∀ type, ∃ r,
     get_plane_with_type_for device crtc type w = Some (r, w) ∧
     first_matching_plane crtc type l r) ∧
  (∃ r, meta_kms_device_get_primary_plane_for device crtc w = Some (r, w) ∧
        first_matching_plane crtc META_KMS_PLANE_TYPE_PRIMARY l r) ∧
  (∃ r, meta_kms_device_get_cursor_plane_for device crtc w = Some (r, w) ∧
        first_matching_plane crtc META_KMS_PLANE_TYPE_CURSOR l r).
Proof.
  intros Hd Hl.
  assert (Hgen : ∀ type, ∃ r,
    get_plane_with_type_for device crtc type w = Some (r, w) ∧
    first_matching_plane crtc type l r).
  { intros type. exists (plane_scan crtc type l). split.
    - unfold get_plane_with_type_for, meta_kms_device_get_planes.
      rewrite (bind_run_some _ _ _ _ _ (get_field_run _ _ planes _ Hd)).
      rewrite (bind_run_some _ _ _ _ _ (read_glist_run _ _ _ Hl)).
      reflexivity.
    - apply plane_scan_first. }
  split; [exact Hgen|]. split; apply Hgen.
Qed.

(** ** State refresh *)

Lemma assertions_in_impl_run {A} (k : M A) (w : World) :
  in_impl_context w →
  (meta_assert_in_kms_impl ≫= λ _,
   meta_assert_is_waiting_for_kms_impl_task ≫= λ _, k) w = k w.
Proof.
  intros [Hin Hwait].
  unfold meta_assert_in_kms_impl, meta_assert_is_waiting_for_kms_impl_task.
  rewrite !bind_run. unfold gets. rewrite Hin. simpl.
  rewrite !bind_run. rewrite Hwait. reflexivity.
Qed.

(** C4: when the backend reports the empty change set,
    [meta_kms_device_update_states_in_impl] returns it and leaves every
    device and every cached list as it was. *)
Theorem update_states_empty_change_keeps_snapshot
    (w : World) device d l i crtc_id connector_id :
  in_impl_context w →
  bound_to w device d l i →
  (impl_update_states (impl_state i) crtc_id connector_id (kernel w)).1.1
  = META_KMS_UPDATE_CHANGE_NONE →
  ∃ w1,
    meta_kms_device_update_states_in_impl device crtc_id connector_id w
    = Some (META_KMS_UPDATE_CHANGE_NONE, w1) ∧
    devices w1 = devices w ∧ glists w1 = glists w ∧
    devices w1 !! device = Some d ∧
    list_at (crtcs d) (glists w1) = list_at (crtcs d) (glists w) ∧
    list_at (connectors d) (glists w1) = list_at (connectors d) (glists w) ∧
    list_at (planes d) (glists w1) = list_at (planes d) (glists w).
Proof.
  intros Hctx (Hd & Himpl & Hi) Hnone.
  unfold meta_kms_device_update_states_in_impl, meta_kms_device_get_impl_device.
  rewrite (bind_run_some _ _ _ _ _ (get_field_run _ _ impl_device _ Hd)).
  rewrite Himpl, (assertions_in_impl_run _ _ Hctx).
  unfold meta_kms_impl_device_update_states.
  rewrite (bind_run_some _ _ _ _ _ (call_impl_run _ _ _ _ Hi)).
  rewrite Hnone. rewrite decide_True by reflexivity.
  eexists. split; [reflexivity|]. simpl. by rewrite Hd.
Qed.

(** ** Dispatched tasks *)

Lemma run_impl_task_sync_run {D R} (func : D → M (R * D * option GError))
    (user_data : D) (w w1 : World) ret :
  func user_data (set_kms (mkKms true true) w) = Some (ret, w1) →
  meta_kms_run_impl_task_sync func user_data w
  = Some (ret, set_kms (mkKms false false) w1).
Proof.
  intros Hf. unfold meta_kms_run_impl_task_sync.
  rewrite bind_run. simpl. rewrite bind_run, Hf. reflexivity.
Qed.

Lemma run_impl_task_sync_abort {D R} (func : D → M (R * D * option GError))
    (user_data : D) (w : World) :
  func user_data (set_kms (mkKms true true) w) = None →
  meta_kms_run_impl_task_sync func user_data w = None.
Proof.
  intros Hf. unfold meta_kms_run_impl_task_sync.
  rewrite bind_run. simpl. rewrite bind_run, Hf. reflexivity.
Qed.

(** C5: [meta_kms_device_process_update_sync] returns, and what it
    returns is what the backend of the update's device produced for this
    update and these flags: a feedback object or an error, one of the two
    and never both.  The task sets no error of its own and the dispatcher is
    handed no place to put one, so nothing else reaches the caller.  The
    update is surfaced whole: the world the caller is back in is the one
    before the call with the backend's state and the kernel state as the
    backend's [process_update] left them. *)
Theorem process_update_feedback_xor_error
    (w : World) device update flags d l i :
  is_Some (devices w !! device) →
  bound_to w (meta_kms_update_get_device update) d l i →
  ∃ r w1,
    meta_kms_device_process_update_sync device update flags w
    = Some (Some r, w1) ∧
    r = (impl_process_update (impl_state i) update flags (kernel w)).1.1 ∧
    exactly_one_of (feedback_of r) (error_of r) ∧
    meta_kms_run_impl_task_sync process_update_in_impl
      (mkPostUpdateData update flags) w
    = Some ((Some r, mkPostUpdateData update flags, None), w1) ∧
    w1 = set_kms (mkKms false false)
           (set_kernel
              (impl_process_update (impl_state i) update flags (kernel w)).2
              (set_impl_devices
                 (<[l := mkImplDevice (impl_type i) (impl_owner i)
                           (impl_process_update (impl_state i) update flags
                              (kernel w)).1.2]> (impl_devices w)) w)).
Proof.
  intros [d0 Hd0] (Hd & Himpl & Hi).
  set (out := impl_process_update (impl_state i) update flags (kernel w)).
  set (w1 := set_kernel out.2
               (set_impl_devices
                  (<[l := mkImplDevice (impl_type i) (impl_owner i)
                            out.1.2]> (impl_devices w))
                  (set_kms (mkKms true true) w))).
  assert (Htask :
    process_update_in_impl (mkPostUpdateData update flags)
      (set_kms (mkKms true true) w)
    = Some ((Some out.1.1, mkPostUpdateData update flags, None), w1)).
  { unfold process_update_in_impl, meta_kms_device_get_impl_device. simpl.
    erewrite bind_run_some; last first.
    { apply (get_field_run _ d impl_device). exact Hd. }
    rewrite Himpl. unfold meta_kms_impl_device_process_update.
    erewrite bind_run_some; last first.
    { apply call_impl_run. exact Hi. }
    reflexivity. }
  pose proof (run_impl_task_sync_run _ _ _ _ _ Htask) as Hrun.
  exists out.1.1, (set_kms (mkKms false false) w1).
  split.
  { unfold meta_kms_device_process_update_sync, meta_kms_device_get_kms.
    rewrite (bind_run_some _ _ _ _ _ (get_field_run _ _ (λ _, tt) _ Hd0)).
    rewrite (bind_run_some _ _ _ _ _ Hrun). reflexivity. }
  split; [reflexivity|].
  split.
  { unfold exactly_one_of. clear Htask Hrun.
    destruct (out.1.1) as [fb|e]; cbn [feedback_of error_of].
    - left. split; [by eexists|reflexivity].
    - right. split; [reflexivity|by eexists]. }
  split; [exact Hrun|]. reflexivity.
Qed.

(** ** Disable *)

Lemma disable_run (w : World) device d l i :
  in_impl_task (kms w) = false →
  bound_to w device d l i →
  meta_kms_device_disable device w
  = Some (tt,
          set_kms (mkKms false false)
            (set_kernel (impl_disable (impl_state i) (kernel w)).2
               (set_impl_devices
                  (<[l := mkImplDevice (impl_type i) (impl_owner i)
                            (impl_disable (impl_state i) (kernel w)).1]>
                     (impl_devices w))
                  (set_kms (mkKms true true) w)))).
Proof.
  intros Hout (Hd & Himpl & Hi).
  unfold meta_kms_device_disable, meta_kms_device_get_kms.
  rewrite (bind_run_some _ _ _ _ _ (get_field_run _ _ (λ _, tt) _ Hd)).
  unfold meta_assert_not_in_kms_impl.
  rewrite !bind_run. unfold gets. rewrite Hout. simpl.
  unfold meta_kms_device_get_impl_device.
  rewrite (bind_run_some _ _ _ _ _ (get_field_run _ _ impl_device _ Hd)).
  rewrite Himpl.
  erewrite bind_run_some; last first.
  { apply run_impl_task_sync_run. unfold disable_device_in_impl.
    unfold meta_kms_impl_device_disable.
    erewrite bind_run_some; last first.
    { apply call_impl_run. exact Hi. }
    reflexivity. }
  reflexivity.
Qed.


(** ** The heap of lists under free and copy *)

Lemma new_head_fresh content (g : gmap loc (list gpointer)) x :
  new_head content g = Some x → g !! x = None.
Proof.
  destruct content; simpl; [done|]. intros [= <-].
  apply not_elem_of_dom, is_fresh.
Qed.

Lemma list_at_new_head content (g : gmap loc (list gpointer)) :
  list_at (new_head content g) (linked content g) = Some content.
Proof. destruct content; simpl; [done|]. apply lookup_insert_eq. Qed.

Lemma linked_lookup content (g : gmap loc (list gpointer)) x :
  linked content g !! x
  = if decide (new_head content g = Some x) then Some content else g !! x.
Proof.
  destruct content as [|a content]; cbn [linked new_head].
  - by rewrite decide_False.
  - destruct (decide (Some (fresh (dom g)) = Some x)) as [[= <-]|Hne].
    + apply lookup_insert_eq.
    + apply lookup_insert_ne. congruence.
Qed.

Lemma released_lookup head (g : gmap loc (list gpointer)) x :
  released head g !! x = if decide (head = Some x) then None else g !! x.
Proof.
  destruct head as [l|]; cbn [released].
  - destruct (decide (Some l = Some x)) as [[= <-]|Hne].
    + apply lookup_delete_eq.
    + apply lookup_delete_ne. congruence.
  - by rewrite decide_False.
Qed.

(** One snapshot replaced: the old list freed, the copy linked in. *)
Lemma swap_lookup head content (g : gmap loc (list gpointer)) x :
  linked content (released head g) !! x
  = if decide (new_head content (released head g) = Some x) then Some content
    else if decide (head = Some x) then None else g !! x.
Proof. rewrite linked_lookup, released_lookup. done. Qed.

Lemma swap_keeps head content (g : gmap loc (list gpointer)) x :
  is_Some (g !! x) → head ≠ Some x →
  linked content (released head g) !! x = g !! x ∧
  new_head content (released head g) ≠ Some x.
Proof.
  intros Hx Hne.
  assert (Hnew : new_head content (released head g) ≠ Some x).
  { intros Hn. apply new_head_fresh in Hn.
    rewrite released_lookup, decide_False in Hn by done.
    rewrite Hn in Hx. by destruct Hx. }
  split; [|exact Hnew].
  rewrite swap_lookup, decide_False, decide_False by done. done.
Qed.

Lemma swap_list_at_keeps head content (g : gmap loc (list gpointer)) p :
  is_Some (list_at p g) → (p = None ∨ head ≠ p) →
  list_at p (linked content (released head g)) = list_at p g ∧
  (p = None ∨ new_head content (released head g) ≠ p).
Proof.
  destruct p as [x|]; simpl; [|by auto].
  intros Hx [?|Hne]; [done|].
  destruct (swap_keeps head content g x Hx Hne) as [-> Hn]. auto.
Qed.

Lemma snapshot_wf_heads (g : gmap loc (list gpointer)) d :
  snapshot_wf g d ↔
  (is_Some (list_at (crtcs d) g) ∧ is_Some (list_at (connectors d) g) ∧
   is_Some (list_at (planes d) g)) ∧
  (connectors d = None ∨ crtcs d ≠ connectors d) ∧
  (planes d = None ∨ crtcs d ≠ planes d) ∧
  (planes d = None ∨ connectors d ≠ planes d).
Proof.
  unfold snapshot_wf, snapshot_heads. rewrite <- Forall_forall.
  assert (Hnone : is_Some (Some ([] : list gpointer))) by eauto.
  destruct (crtcs d) as [a|], (connectors d) as [b|], (planes d) as [c|];
    simpl;
    rewrite ?NoDup_cons, ?Forall_cons, ?Forall_nil, ?not_elem_of_cons,
      ?elem_of_nil;
    split; intros Hwf; intuition (try congruence || auto using NoDup_nil_2).
Qed.

Lemma elem_of_snapshot_heads d x :
  x ∈ snapshot_heads d ↔
  crtcs d = Some x ∨ connectors d = Some x ∨ planes d = Some x.
Proof.
  unfold snapshot_heads.
  destruct (crtcs d), (connectors d), (planes d); simpl;
    rewrite ?elem_of_cons, ?elem_of_nil; intuition congruence.
Qed.

Lemma three_swaps_lookup (g : gmap loc (list gpointer)) p1 p2 p3 L1 L2 L3 x :
  new_head L1 (released p1 g) ≠ Some x →
  new_head L2 (released p2 (linked L1 (released p1 g))) ≠ Some x →
  new_head L3 (released p3 (linked L2 (released p2
                              (linked L1 (released p1 g))))) ≠ Some x →
  linked L3 (released p3 (linked L2 (released p2
               (linked L1 (released p1 g))))) !! x
  = if decide (p1 = Some x ∨ p2 = Some x ∨ p3 = Some x) then None
    else g !! x.
Proof.
  intros X1 X2 X3. rewrite !swap_lookup.
  rewrite (decide_False (P := new_head L3 _ = Some x)) by done.
  rewrite (decide_False (P := new_head L2 _ = Some x)) by done.
  rewrite (decide_False (P := new_head L1 _ = Some x)) by done.
  repeat case_decide; tauto.
Qed.

Lemma copy_run (peek : ImplDeviceState → list gpointer) l i (w : World) :
  impl_devices w !! l = Some i →
  (peek_impl (Some l) peek ≫= g_list_alloc) w
  = Some (new_head (peek (impl_state i)) (glists w),
          set_glists (linked (peek (impl_state i)) (glists w)) w).
Proof.
  intros Hi. rewrite (bind_run_some _ _ _ _ _ (peek_impl_run _ _ _ _ Hi)).
  apply g_list_alloc_run.
Qed.

(** C3: when the backend reports a non-empty change set,
    [meta_kms_device_update_states_in_impl] returns it and replaces each of
    the three cached sequences by a fresh copy: for the CRTCs, then the
    connectors, then the planes, the list cached before is freed and a newly
    allocated copy of the backend's list is stored in its place, and the
    world the call leaves is exactly the one these three steps produce.
    The head of each copy is a cell that was free when the copy was made.
    The device ends with the backend's CRTC, connector and plane lists as
    they stand after the refresh, each held in a list of its own; the three
    lists cached before are gone from the heap (unless their cells were
    handed out again for a new copy), and no other list is touched. *)
Theorem update_states_replaces_whole_snapshot
    (w : World) device d l i crtc_id connector_id :
  in_impl_context w →
  bound_to w device d l i →
  snapshot_wf (glists w) d →
  (impl_update_states (impl_state i) crtc_id connector_id (kernel w)).1.1
  ≠ META_KMS_UPDATE_CHANGE_NONE →
  ∃ w1 d1 i1,
    meta_kms_device_update_states_in_impl device crtc_id connector_id w
    = Some ((impl_update_states (impl_state i) crtc_id connector_id
               (kernel w)).1.1, w1) ∧
    w1 = refreshed_world device l d i
           (impl_update_states (impl_state i) crtc_id connector_id
              (kernel w)) w ∧
    d1 = refreshed_device d (impl_state i1) (glists w) ∧
    (∀ h, crtcs d1 = Some h → released (crtcs d) (glists w) !! h = None) ∧
    (∀ h, connectors d1 = Some h →
          released (connectors d)
            (swapped_once (crtcs d)
               (meta_kms_impl_device_peek_crtcs (impl_state i1))
               (glists w)) !! h = None) ∧
    (∀ h, planes d1 = Some h →
          released (planes d)
            (swapped_once (connectors d)
               (meta_kms_impl_device_peek_connectors (impl_state i1))
               (swapped_once (crtcs d)
                  (meta_kms_impl_device_peek_crtcs (impl_state i1))
                  (glists w))) !! h = None) ∧
    bound_to w1 device d1 l i1 ∧
    impl_state i1
    = (impl_update_states (impl_state i) crtc_id connector_id
         (kernel w)).1.2 ∧
    list_at (crtcs d1) (glists w1)
    = Some (meta_kms_impl_device_peek_crtcs (impl_state i1)) ∧
    list_at (connectors d1) (glists w1)
    = Some (meta_kms_impl_device_peek_connectors (impl_state i1)) ∧
    list_at (planes d1) (glists w1)
    = Some (meta_kms_impl_device_peek_planes (impl_state i1)) ∧
    snapshot_wf (glists w1) d1 ∧
    d1 = with_planes (planes d1)
           (with_connectors (connectors d1) (with_crtcs (crtcs d1) d)) ∧
    (∀ x, x ∈ snapshot_heads d → x ∉ snapshot_heads d1 →
          glists w1 !! x = None) ∧
    (∀ x, x ∉ snapshot_heads d → x ∉ snapshot_heads d1 →
          glists w1 !! x = glists w !! x).
Proof.
  intros Hctx (Hd & Himpl & Hi) Hwf Hchg.
  apply snapshot_wf_heads in Hwf as ((Hv1 & Hv2 & Hv3) & H12 & H13 & H23).
  set (out := impl_update_states (impl_state i) crtc_id connector_id
                (kernel w)) in *.
  set (i1 := mkImplDevice (impl_type i) (impl_owner i) out.1.2).
  set (L1 := meta_kms_impl_device_peek_crtcs out.1.2).
  set (L2 := meta_kms_impl_device_peek_connectors out.1.2).
  set (L3 := meta_kms_impl_device_peek_planes out.1.2).
  set (g0 := glists w) in *.
  set (n1 := new_head L1 (released (crtcs d) g0)).
  set (g1 := linked L1 (released (crtcs d) g0)).
  set (n2 := new_head L2 (released (connectors d) g1)).
  set (g2 := linked L2 (released (connectors d) g1)).
  set (n3 := new_head L3 (released (planes d) g2)).
  set (g3 := linked L3 (released (planes d) g2)).
  (* what the three swaps keep *)
  destruct (swap_list_at_keeps (crtcs d) L1 g0 _ Hv2 H12) as [K2a K2b].
  destruct (swap_list_at_keeps (crtcs d) L1 g0 _ Hv3 H13) as [K3a K3b].
  fold g1 n1 in K2a, K2b, K3a, K3b.
  assert (Hv2' : is_Some (list_at (connectors d) g1)) by (by rewrite K2a).
  assert (Hv3' : is_Some (list_at (planes d) g1)) by (by rewrite K3a).
  assert (Hn1 : list_at n1 g1 = Some L1) by apply list_at_new_head.
  assert (Hn1v : is_Some (list_at n1 g1)) by (by rewrite Hn1).
  assert (H21 : n1 = None ∨ connectors d ≠ n1).
  { destruct K2b as [K|K]; [|by auto]. rewrite K.
    destruct n1; [right; done|by left]. }
  assert (H31 : n1 = None ∨ planes d ≠ n1).
  { destruct K3b as [K|K]; [|by auto]. rewrite K.
    destruct n1; [right; done|by left]. }
  destruct (swap_list_at_keeps (connectors d) L2 g1 _ Hv3' H23) as [K3c K3d].
  destruct (swap_list_at_keeps (connectors d) L2 g1 _ Hn1v H21) as [N1a N1b].
  fold g2 n2 in K3c, K3d, N1a, N1b.
  assert (Hv3'' : is_Some (list_at (planes d) g2)) by (by rewrite K3c).
  assert (Hn2 : list_at n2 g2 = Some L2) by apply list_at_new_head.
  assert (Hn1' : is_Some (list_at n1 g2)) by (by rewrite N1a).
  assert (Hn2v : is_Some (list_at n2 g2)) by (by rewrite Hn2).
  assert (H32 : n2 = None ∨ planes d ≠ n2).
  { destruct K3d as [K|K]; [|by auto]. rewrite K.
    destruct n2; [right; done|by left]. }
  assert (H31' : n1 = None ∨ planes d ≠ n1) by exact H31.
  destruct (swap_list_at_keeps (planes d) L3 g2 _ Hn1' H31') as [N1c N1d].
  destruct (swap_list_at_keeps (planes d) L3 g2 _ Hn2v H32) as [N2c N2d].
  fold g3 n3 in N1c, N1d, N2c, N2d.
  assert (Hn3 : list_at n3 g3 = Some L3) by apply list_at_new_head.
  (* the run *)
  exists (mkWorld (kms w)
            (<[device := with_planes n3
                           (with_connectors n2 (with_crtcs n1 d))]>
               (devices w))
            (<[l := i1]> (impl_devices w)) (impl_registry w) g3 (cells w)
            out.2 (attempts w) (warnings w)),
         (with_planes n3 (with_connectors n2 (with_crtcs n1 d))), i1.
  split.
  { unfold meta_kms_device_update_states_in_impl,
      meta_kms_device_get_impl_device, meta_kms_device_get_crtcs,
      meta_kms_device_get_connectors, meta_kms_device_get_planes,
      meta_kms_impl_device_copy_crtcs, meta_kms_impl_device_copy_connectors,
      meta_kms_impl_device_copy_planes.
    rewrite (bind_run_some _ _ _ _ _ (get_field_run _ _ impl_device _ Hd)).
    rewrite Himpl, (assertions_in_impl_run _ _ Hctx).
    unfold meta_kms_impl_device_update_states.
    rewrite (bind_run_some _ _ _ _ _ (call_impl_run _ _ _ _ Hi)).
    fold out. rewrite decide_False by exact Hchg.
    (* crtcs *)
    erewrite bind_run_some; last first.
    { apply (get_field_run _ d crtcs). exact Hd. }
    erewrite bind_run_some; last first.
    { apply g_list_free_run. exact Hv1. }
    erewrite bind_run_some; last first.
    { apply copy_run. wsimpl. apply lookup_insert_eq. }
    erewrite bind_run_some; last first.
    { apply store_device_run. wsimpl. exact Hd. }
    (* connectors *)
    erewrite bind_run_some; last first.
    { apply (get_field_run _ (with_crtcs n1 d) connectors). wsimpl.
      apply lookup_insert_eq. }
    erewrite bind_run_some; last first.
    { apply g_list_free_run. wsimpl. exact Hv2'. }
    erewrite bind_run_some; last first.
    { apply copy_run. wsimpl. apply lookup_insert_eq. }
    erewrite bind_run_some; last first.
    { apply store_device_run. wsimpl. apply lookup_insert_eq. }
    (* planes *)
    erewrite bind_run_some; last first.
    { apply (get_field_run _ (with_connectors n2 (with_crtcs n1 d)) planes).
      wsimpl. apply lookup_insert_eq. }
    erewrite bind_run_some; last first.
    { apply g_list_free_run. wsimpl. exact Hv3''. }
    erewrite bind_run_some; last first.
    { apply copy_run. wsimpl. apply lookup_insert_eq. }
    erewrite bind_run_some; last first.
    { apply store_device_run. wsimpl. apply lookup_insert_eq. }
    unfold mret, M_ret. wsimpl. rewrite !insert_insert_eq. reflexivity. }
  split; [reflexivity|]. split; [reflexivity|].
  split; [intros h Hh; exact (new_head_fresh _ _ _ Hh)|].
  split; [intros h Hh; exact (new_head_fresh _ _ _ Hh)|].
  split; [intros h Hh; exact (new_head_fresh _ _ _ Hh)|].
  split.
  { split; [apply lookup_insert_eq|]. split; [exact Himpl|].
    apply lookup_insert_eq. }
  split; [reflexivity|]. wsimpl.
  split; [by rewrite N1c, N1a|]. split; [by rewrite N2c|].
  split; [exact Hn3|].
  split.
  { apply snapshot_wf_heads. wsimpl.
    split; [split; [|split]|split; [|split]].
    - by rewrite N1c, N1a, Hn1.
    - by rewrite N2c.
    - by rewrite Hn3.
    - destruct N1b as [K|K]; [|destruct n2; auto].
      rewrite K. destruct n2; [right; done|by left].
    - destruct N1d as [K|K]; [|destruct n3; auto].
      rewrite K. destruct n3; [right; done|by left].
    - destruct N2d as [K|K]; [|destruct n3; auto].
      rewrite K. destruct n3; [right; done|by left]. }
  split; [by destruct d|].
  split.
  - intros x Hold Hnew. rewrite elem_of_snapshot_heads in Hold.
    rewrite elem_of_snapshot_heads in Hnew.
    cbn [crtcs connectors planes with_planes] in Hnew.
    unfold g3, g2, g1. rewrite three_swaps_lookup.
    + by rewrite decide_True.
    + intros E. apply Hnew. left. exact E.
    + intros E. apply Hnew. right. left. exact E.
    + intros E. apply Hnew. right. right. exact E.
  - intros x Hold Hnew. rewrite elem_of_snapshot_heads in Hold.
    rewrite elem_of_snapshot_heads in Hnew.
    cbn [crtcs connectors planes with_planes] in Hnew.
    unfold g3, g2, g1. rewrite three_swaps_lookup.
    + by rewrite decide_False.
    + intros E. apply Hnew. left. exact E.
    + intros E. apply Hnew. right. left. exact E.
    + intros E. apply Hnew. right. right. exact E.
Qed.

(** ** Backend selection *)

Lemma try_impl_device_types_run device path flags types (w : World) :
  try_impl_device_types device path flags types w
  = selection_outcome device
      (select_in_order path flags types (kernel w)) w.
Proof.
  revert w. induction types as [|type rest IH]; intros w.
  - unfold selection_outcome, after_selection. simpl.
    rewrite !app_nil_r. destruct w; reflexivity.
  - simpl. rewrite bind_run. unfold g_initable_new.
    destruct (impl_device_init type path flags (kernel w)) as [[st|e] k1] eqn:Hinit.
    + unfold selection_outcome, after_selection. simpl.
      rewrite !app_nil_r. reflexivity.
    + rewrite bind_run.
      assert (Hwarn : ∀ w0 : World,
        (if decide (domain e ≠ META_KMS_ERROR)
         then g_warning ("Failed to open " +:+ impl_device_type_to_string type
                         +:+ " backend: " +:+ message e)
         else mret tt) w0
        = Some (tt, set_warnings (warnings w0 ++ warning_for type e) w0)).
      { intros w0. unfold warning_for. case_decide.
        - reflexivity.
        - rewrite app_nil_r. destruct w0; reflexivity. }
      rewrite Hwarn, IH. unfold selection_outcome, after_selection. simpl.
      rewrite <- !app_assoc. simpl.
      destruct (adopted (select_in_order path flags rest k1)) as [[ty st]|e1];
        reflexivity.
Qed.

Lemma meta_assert_in_kms_impl_run (w : World) :
  in_impl_task (kms w) = true → meta_assert_in_kms_impl w = Some (tt, w).
Proof.
  intros Hin. unfold meta_assert_in_kms_impl. rewrite bind_run.
  unfold gets. rewrite Hin. reflexivity.
Qed.

Lemma meta_create_kms_impl_device_run device path flags (w : World) :
  in_impl_task (kms w) = true →
  meta_create_kms_impl_device device path flags w
  = selection_outcome device (select_backend path flags (kernel w)) w.
Proof.
  intros Hin. unfold meta_create_kms_impl_device.
  rewrite (bind_run_some _ _ _ _ _ (meta_assert_in_kms_impl_run _ Hin)).
  unfold select_backend, no_mode_setting.
  destruct (decide (Z.land flags META_KMS_DEVICE_FLAG_NO_MODE_SETTING ≠ 0%Z))
    as [Hflag|Hflag].
  - rewrite bool_decide_eq_true_2 by exact Hflag.
    rewrite bind_run. unfold g_initable_new.
    destruct (impl_device_init META_TYPE_KMS_IMPL_DEVICE_DUMMY path flags
                (kernel w)) as [[st|e] k1];
      unfold selection_outcome, after_selection; wsimpl;
      rewrite !app_nil_r; reflexivity.
  - rewrite bool_decide_eq_false_2 by exact Hflag.
    apply try_impl_device_types_run.
Qed.

(** ** Construction *)

Lemma fresh_device (w : World) : devices w !! fresh (dom (devices w)) = None.
Proof. apply not_elem_of_dom, is_fresh. Qed.

(** Dropping the only reference of a device that was never bound to a
    backend and caches nothing just releases it. *)
Lemma unref_unbound_device device (w : World) :
  devices w !! device = Some zero_device →
  g_object_unref_device device w
  = Some (tt, set_devices (delete device (devices w)) w).
Proof.
  intros Hd. unfold g_object_unref_device.
  rewrite (bind_run_some _ _ _ _ _ (load_run devices _ _ _ Hd)).
  change (ref_count zero_device) with 1%nat.
  rewrite decide_True by reflexivity.
  unfold meta_kms_device_finalize.
  rewrite (bind_run_some _ _ _ _ _ (load_run devices _ _ _ Hd)).
  change (crtcs zero_device) with (@None loc).
  change (connectors zero_device) with (@None loc).
  change (planes zero_device) with (@None loc).
  change (impl_device zero_device) with (@None loc).
  reflexivity.
Qed.

Lemma meta_kms_device_new_run path flags (w : World) :
  meta_kms_device_new path flags w = Some (new_outcome path flags w).
Proof.
  unfold meta_kms_device_new, new_outcome.
  rewrite bind_run. unfold g_object_new_device.
  set (device := fresh (dom (devices w))).
  set (l := fresh (dom (impl_devices w))).
  set (s := select_backend path flags (kernel w)).
  set (data := mkCreateData device path flags None None None None zero_caps
                 None None None None).
  destruct (adopted s) as [[type st]|e] eqn:Hs.
  - (* a backend was adopted *)
    erewrite bind_run_some; last first.
    { apply run_impl_task_sync_run. unfold create_impl_device_in_impl.
      erewrite bind_run_some; last first.
      { rewrite meta_create_kms_impl_device_run by reflexivity.
        unfold selection_outcome. simpl. fold s. rewrite Hs. reflexivity. }
      simpl. fold l.
      rewrite bind_run. unfold meta_kms_impl_add_impl_device, modify.
      unfold meta_kms_impl_device_copy_crtcs,
        meta_kms_impl_device_copy_connectors,
        meta_kms_impl_device_copy_planes,
        meta_kms_impl_device_copy_fallback_modes.
      erewrite bind_run_some; last first.
      { apply copy_run. simpl. apply lookup_insert_eq. }
      erewrite bind_run_some; last first.
      { apply copy_run. simpl. apply lookup_insert_eq. }
      erewrite bind_run_some; last first.
      { apply copy_run. simpl. apply lookup_insert_eq. }
      erewrite bind_run_some; last first.
      { apply peek_impl_run. simpl. apply lookup_insert_eq. }
      erewrite bind_run_some; last first.
      { apply copy_run. simpl. apply lookup_insert_eq. }
      erewrite bind_run_some; last first.
      { apply peek_impl_run. simpl. apply lookup_insert_eq. }
      erewrite bind_run_some; last first.
      { apply peek_impl_run. simpl. apply lookup_insert_eq. }
      erewrite bind_run_some; last first.
      { apply peek_impl_run. simpl. apply lookup_insert_eq. }
      reflexivity. }
    simpl.
    do 11 (erewrite bind_run_some; last first;
           [apply store_device_run; simpl; apply lookup_insert_eq|]).
    erewrite bind_run_some; last first.
    { apply load_run. simpl. apply lookup_insert_eq. }
    simpl. unfold constructed_device, constructed_lists.
    destruct (addfb2_modifiers (meta_kms_impl_device_get_caps st)).
    + erewrite bind_run_some; last first.
      { apply store_device_run. simpl. apply lookup_insert_eq. }
      unfold mret, M_ret. simpl. rewrite !insert_insert_eq. reflexivity.
    + unfold mret, M_ret. simpl. rewrite !insert_insert_eq. reflexivity.
  - (* no backend *)
    erewrite bind_run_some; last first.
    { apply run_impl_task_sync_run. unfold create_impl_device_in_impl.
      erewrite bind_run_some; last first.
      { rewrite meta_create_kms_impl_device_run by reflexivity.
        unfold selection_outcome. simpl. fold s. rewrite Hs. reflexivity. }
      reflexivity. }
    wsimpl.
    erewrite bind_run_some; last first.
    { apply unref_unbound_device. wsimpl. apply lookup_insert_eq. }
    unfold mret, M_ret, after_selection. wsimpl. fold device.
    rewrite delete_insert_id by apply fresh_device.
    reflexivity.
Qed.

(** The loop stops at the first type that constructs and not before: every
    type ahead of the adopted one was tried and failed, whatever its error;
    with no adopted type, all were tried. *)
Lemma select_in_order_tries_until_success path flags types k :
  match adopted (select_in_order path flags types k) with
  | inl (type, _) =>
      ∃ failed rest,
        types = failed ++ type :: rest ∧
        tried (select_in_order path flags types k) = failed ++ [type] ∧
        is_Some (all_fail path flags failed k)
  | inr e =>
      tried (select_in_order path flags types k) = types ∧
      e = no_suitable_backend_error ∧
      is_Some (all_fail path flags types k)
  end.
Proof.
  revert k. induction types as [|type rest IH]; intros k; simpl.
  - eauto.
  - destruct (impl_device_init type path flags k) as [[st|e] k1] eqn:Hinit;
      simpl.
    + exists [], rest. simpl. eauto.
    + specialize (IH k1).
      destruct (adopted (select_in_order path flags rest k1))
        as [[ty st]|e1].
      * destruct IH as (failed & rest1 & -> & -> & [x Hx]).
        exists (type :: failed), rest1. simpl. rewrite Hinit, Hx.
        destruct x. eauto.
      * destruct IH as (-> & -> & [x Hx]). rewrite Hx. destruct x. eauto.
Qed.

Lemma all_fail_select_in_order path flags types k errors k1 :
  all_fail path flags types k = Some (errors, k1) →
  adopted (select_in_order path flags types k)
  = inr no_suitable_backend_error ∧
  kernel_after (select_in_order path flags types k) = k1 ∧
  tried (select_in_order path flags types k) = types.
Proof.
  revert k errors. induction types as [|type rest IH]; intros k errors; simpl.
  - intros [= <- <-]. done.
  - destruct (impl_device_init type path flags k) as [[st|e] k2]; [done|].
    destruct (all_fail path flags rest k2) as [[es k3]|] eqn:Hrest; [|done].
    intros [= <- <-]. destruct (IH _ _ Hrest) as (-> & -> & ->). done.
Qed.

Lemma select_backend_tried path flags k :
  tried (select_backend path flags k)
  = if no_mode_setting flags then [META_TYPE_KMS_IMPL_DEVICE_DUMMY]
    else match (impl_device_init META_TYPE_KMS_IMPL_DEVICE_ATOMIC path flags
                  k).1 with
         | inl _ => [META_TYPE_KMS_IMPL_DEVICE_ATOMIC]
         | inr _ => impl_device_types
         end.
Proof.
  unfold select_backend. destruct (no_mode_setting flags).
  - by destruct (impl_device_init _ _ _ _) as [[?|?] ?].
  - simpl.
    destruct (impl_device_init META_TYPE_KMS_IMPL_DEVICE_ATOMIC _ _ _)
      as [[?|?] k1]; simpl; [done|].
    by destruct (impl_device_init META_TYPE_KMS_IMPL_DEVICE_SIMPLE _ _ _)
      as [[?|?] ?].
Qed.

Lemma new_outcome_attempts path flags (w : World) :
  attempts (new_outcome path flags w).2
  = attempts w ++ tried (select_backend path flags (kernel w)).
Proof.
  unfold new_outcome.
  by destruct (adopted (select_backend path flags (kernel w))) as [[??]|?].
Qed.

(** C1: [meta_kms_device_new] always returns, and the backend types it
    hands to [g_initable_new] are: only Dummy when the no-mode-setting flag
    is set; otherwise Atomic first, and Simple next exactly when Atomic did
    not construct, whatever the domain of its error. *)
Theorem backend_selection_order path flags (w : World) :
  ∃ r w1 attempted,
    meta_kms_device_new path flags w = Some (r, w1) ∧
    attempts w1 = attempts w ++ attempted ∧
    (Z.land flags META_KMS_DEVICE_FLAG_NO_MODE_SETTING ≠ 0%Z →
     attempted = [META_TYPE_KMS_IMPL_DEVICE_DUMMY]) ∧
    (Z.land flags META_KMS_DEVICE_FLAG_NO_MODE_SETTING = 0%Z →
     (∀ st k, impl_device_init META_TYPE_KMS_IMPL_DEVICE_ATOMIC path flags
                (kernel w) = (inl st, k) →
              attempted = [META_TYPE_KMS_IMPL_DEVICE_ATOMIC]) ∧
     (∀ e k, impl_device_init META_TYPE_KMS_IMPL_DEVICE_ATOMIC path flags
               (kernel w) = (inr e, k) →
             attempted = [META_TYPE_KMS_IMPL_DEVICE_ATOMIC;
                          META_TYPE_KMS_IMPL_DEVICE_SIMPLE])).
Proof.
  exists (new_outcome path flags w).1, (new_outcome path flags w).2,
         (tried (select_backend path flags (kernel w))).
  split.
  { rewrite meta_kms_device_new_run.
    by destruct (new_outcome path flags w) as [??]. }
  split; [apply new_outcome_attempts|].
  rewrite select_backend_tried. unfold no_mode_setting. split.
  - intros Hflag. by rewrite bool_decide_eq_true_2.
  - intros Hflag. rewrite bool_decide_eq_false_2 by (by intros ?).
    split; intros ? ? ->; reflexivity.
Qed.

Lemma all_fail_select_backend path flags k errors k1 :
  all_fail path flags (candidate_types flags) k = Some (errors, k1) →
  ∃ e,
    adopted (select_backend path flags k) = inr e ∧
    kernel_after (select_backend path flags k) = k1 ∧
    tried (select_backend path flags k) = candidate_types flags ∧
    (no_mode_setting flags = false → e = no_suitable_backend_error) ∧
    (no_mode_setting flags = true → errors = [e]).
Proof.
  unfold candidate_types, select_backend.
  destruct (no_mode_setting flags).
  - cbn [all_fail].
    destruct (impl_device_init META_TYPE_KMS_IMPL_DEVICE_DUMMY path flags k)
      as [[st|e] k2]; [done|].
    intros [= <- <-]. exists e. wsimpl.
    split; [done|]. split; [done|]. split; [done|]. split; [|done].
    intros ?; discriminate.
  - intros Hall. exists no_suitable_backend_error.
    destruct (all_fail_select_in_order _ _ _ _ _ _ Hall) as (-> & -> & ->).
    split; [done|]. split; [done|]. split; [done|]. split; [done|].
    intros ?; discriminate.
Qed.

(** C2, as amended: when every backend type the call tries fails to
    construct, [meta_kms_device_new] returns [NULL] with one error: "No
    suitable mode setting backend found" when the no-mode-setting flag is
    clear (Atomic and Simple both failed), the Dummy backend's own error
    when the flag is set.  The device handle allocated for the call is
    released: the devices, backends and lists of the world are those from
    before the call. *)
Theorem exhausted_candidates_return_no_device
    path flags (w : World) errors k :
  all_fail path flags (candidate_types flags) (kernel w) = Some (errors, k) →
  ∃ e w1,
    meta_kms_device_new path flags w = Some ((None, Some e), w1) ∧
    (no_mode_setting flags = false → e = no_suitable_backend_error) ∧
    (no_mode_setting flags = true → errors = [e]) ∧
    devices w1 = devices w ∧ glists w1 = glists w ∧
    impl_devices w1 = impl_devices w ∧
    impl_registry w1 = impl_registry w ∧
    kernel w1 = k ∧
    attempts w1 = attempts w ++ candidate_types flags.
Proof.
  intros Hall.
  destruct (all_fail_select_backend _ _ _ _ _ Hall)
    as (e & Hadopted & Hkernel & Htried & Hclear & Hset).
  exists e, (new_outcome path flags w).2.
  rewrite meta_kms_device_new_run. unfold new_outcome.
  rewrite Hadopted. wsimpl. rewrite Hkernel, Htried. done.
Qed.

(** ** Flags and path of a constructed device *)

Lemma has_addfb2_bit_set (f : Z) :
  Z.land (Z.lor f META_KMS_DEVICE_FLAG_HAS_ADDFB2)
         META_KMS_DEVICE_FLAG_HAS_ADDFB2 ≠ 0%Z.
Proof.
  unfold META_KMS_DEVICE_FLAG_HAS_ADDFB2.
  rewrite Z.shiftl_1_l. intros Hz.
  assert (Hbit : Z.testbit
            (Z.land (Z.lor f (2 ^ Z.of_N HAS_ADDFB2_bit))
                    (2 ^ Z.of_N HAS_ADDFB2_bit))
            (Z.of_N HAS_ADDFB2_bit) = true).
  { rewrite Z.land_spec, Z.lor_spec, Z.pow2_bits_true by lia.
    by rewrite orb_true_r. }
  rewrite Hz, Z.bits_0 in Hbit. discriminate.
Qed.

Lemma other_bits_kept (f n : Z) :
  n ≠ Z.of_N HAS_ADDFB2_bit →
  Z.testbit (Z.lor f META_KMS_DEVICE_FLAG_HAS_ADDFB2) n = Z.testbit f n.
Proof.
  intros Hn. unfold META_KMS_DEVICE_FLAG_HAS_ADDFB2.
  rewrite Z.shiftl_1_l, Z.lor_spec, Z.pow2_bits_false by congruence.
  apply orb_false_r.
Qed.

(** C7, as amended: after a successful construction the device's path is
    the one its backend reports, its capabilities are the backend's, and its
    flags are the requested flags with [HAS_ADDFB2] or-ed in when the
    backend has [addfb2_modifiers]: [HAS_ADDFB2] is set if and only if the
    backend has the capability or the caller already passed the flag, and
    every other bit is as passed. *)
Theorem constructed_device_adopts_backend_outputs
    requested_path requested_flags (w : World) device error w1 :
  meta_kms_device_new requested_path requested_flags w
  = Some ((Some device, error), w1) →
  ∃ d l i,
    bound_to w1 device d l i ∧
    path d = Some (meta_kms_impl_device_get_path (impl_state i)) ∧
    caps d = meta_kms_impl_device_get_caps (impl_state i) ∧
    flags d
    = (if addfb2_modifiers (meta_kms_impl_device_get_caps (impl_state i))
       then Z.lor requested_flags META_KMS_DEVICE_FLAG_HAS_ADDFB2
       else requested_flags) ∧
    (Z.land (flags d) META_KMS_DEVICE_FLAG_HAS_ADDFB2 ≠ 0%Z ↔
     addfb2_modifiers (meta_kms_impl_device_get_caps (impl_state i)) = true
     ∨ Z.land requested_flags META_KMS_DEVICE_FLAG_HAS_ADDFB2 ≠ 0%Z) ∧
    (∀ n, n ≠ Z.of_N HAS_ADDFB2_bit →
          Z.testbit (flags d) n = Z.testbit requested_flags n).
Proof.
  rewrite meta_kms_device_new_run. unfold new_outcome.
  destruct (adopted (select_backend requested_path requested_flags
                       (kernel w))) as [[type st]|e]; [|discriminate].
  intros [= <- <- <-].
  eexists (constructed_device requested_flags _ st (glists w)), _,
          (mkImplDevice type _ st).
  split.
  { split; [apply lookup_insert_eq|]. split; [reflexivity|].
    apply lookup_insert_eq. }
  unfold constructed_device. wsimpl.
  split; [reflexivity|]. split; [reflexivity|]. split; [reflexivity|].
  destruct (addfb2_modifiers (meta_kms_impl_device_get_caps st)).
  - split.
    + split; [auto|]. intros _. apply has_addfb2_bit_set.
    + intros n Hn. by apply other_bits_kept.
  - split; [|done]. split; [auto|]. intros [?|?]; done.
Qed.

(** ** The snapshot invariant

    Construction establishes [snapshot_wf] and caches the backend's lists;
    a refresh keeps it, as shown above. *)

Lemma heads_apart_sym (a b : option loc) :
  a = None ∨ b ≠ a → b = None ∨ a ≠ b.
Proof.
  intros [->|Hne].
  - destruct b; [right; discriminate|by left].
  - right. congruence.
Qed.

Lemma linked_list_at_keeps content (g : gmap loc (list gpointer)) p :
  is_Some (list_at p g) →
  list_at p (linked content g) = list_at p g ∧
  (p = None ∨ new_head content g ≠ p).
Proof.
  intros Hp. apply (swap_list_at_keeps None content g p Hp).
  destruct p; [right; discriminate|by left].
Qed.

Lemma constructed_device_snapshot_wf flags l st
    (g : gmap loc (list gpointer)) :
  snapshot_wf (constructed_lists st g) (constructed_device flags l st g) ∧
  list_at (crtcs (constructed_device flags l st g)) (constructed_lists st g)
  = Some (meta_kms_impl_device_peek_crtcs st) ∧
  list_at (connectors (constructed_device flags l st g))
    (constructed_lists st g)
  = Some (meta_kms_impl_device_peek_connectors st) ∧
  list_at (planes (constructed_device flags l st g)) (constructed_lists st g)
  = Some (meta_kms_impl_device_peek_planes st).
Proof.
  unfold constructed_device, constructed_lists. wsimpl.
  set (L1 := meta_kms_impl_device_peek_crtcs st).
  set (L2 := meta_kms_impl_device_peek_connectors st).
  set (L3 := meta_kms_impl_device_peek_planes st).
  set (L4 := meta_kms_impl_device_peek_fallback_modes st).
  set (g1 := linked L1 g). set (g2 := linked L2 g1).
  set (g3 := linked L3 g2).
  set (n1 := new_head L1 g). set (n2 := new_head L2 g1).
  set (n3 := new_head L3 g2).
  assert (H1 : list_at n1 g1 = Some L1) by apply list_at_new_head.
  assert (H2 : list_at n2 g2 = Some L2) by apply list_at_new_head.
  assert (H3 : list_at n3 g3 = Some L3) by apply list_at_new_head.
  destruct (linked_list_at_keeps L2 g1 n1) as [K12 A12]; [by rewrite H1|].
  fold g2 n2 in K12, A12.
  destruct (linked_list_at_keeps L3 g2 n1) as [K13 A13];
    [by rewrite K12, H1|].
  destruct (linked_list_at_keeps L3 g2 n2) as [K23 A23]; [by rewrite H2|].
  fold g3 n3 in K13, A13, K23, A23.
  destruct (linked_list_at_keeps L4 g3 n1) as [K14 _];
    [by rewrite K13, K12, H1|].
  destruct (linked_list_at_keeps L4 g3 n2) as [K24 _];
    [by rewrite K23, H2|].
  destruct (linked_list_at_keeps L4 g3 n3) as [K34 _]; [by rewrite H3|].
  assert (E1 : list_at n1 (linked L4 g3) = Some L1)
    by (by rewrite K14, K13, K12).
  assert (E2 : list_at n2 (linked L4 g3) = Some L2) by (by rewrite K24, K23).
  assert (E3 : list_at n3 (linked L4 g3) = Some L3) by (by rewrite K34).
  split; [|by auto].
  apply snapshot_wf_heads. wsimpl.
  split; [split; [|split]|split; [|split]].
  - by rewrite E1.
  - by rewrite E2.
  - by rewrite E3.
  - by apply heads_apart_sym.
  - by apply heads_apart_sym.
  - by apply heads_apart_sym.
Qed.

(** Every device [meta_kms_device_new] returns satisfies the invariant
    and caches the lists of its backend. *)
Lemma meta_kms_device_new_snapshot_wf path flags (w : World) device error w1 :
  meta_kms_device_new path flags w = Some ((Some device, error), w1) →
  ∃ d l i,
    bound_to w1 device d l i ∧ snapshot_wf (glists w1) d ∧
    list_at (crtcs d) (glists w1)
    = Some (meta_kms_impl_device_peek_crtcs (impl_state i)) ∧
    list_at (connectors d) (glists w1)
    = Some (meta_kms_impl_device_peek_connectors (impl_state i)) ∧
    list_at (planes d) (glists w1)
    = Some (meta_kms_impl_device_peek_planes (impl_state i)).
Proof.
  rewrite meta_kms_device_new_run. unfold new_outcome.
  destruct (adopted (select_backend path flags (kernel w)))
    as [[type st]|e]; [|discriminate].
  intros [= <- <- <-].
  eexists (constructed_device flags _ st (glists w)), _,
          (mkImplDevice type _ st).
  split.
  { split; [apply lookup_insert_eq|]. split; [reflexivity|].
    apply lookup_insert_eq. }
  wsimpl. apply constructed_device_snapshot_wf.
Qed.

End Runs.

(** * The theorems on the fixture *)

Lemma fixture_world_bound :
  @bound_to fixture_env fixture_world 1%positive fixture_device 1%positive
    fixture_impl_device.
Proof. repeat split; vm_compute; reflexivity. Qed.

Lemma fixture_world_in_impl_bound :
  @bound_to fixture_env fixture_world_in_impl 1%positive fixture_device
    1%positive fixture_impl_device.
Proof. repeat split; vm_compute; reflexivity. Qed.

Lemma fixture_snapshot_wf :
  @snapshot_wf (glists fixture_world_in_impl) fixture_device.
Proof.
  split.
  - apply (bool_decide_unpack _). vm_compute. exact I.
  - apply Forall_forall. apply (bool_decide_unpack _). vm_compute. exact I.
Qed.

(** Atomic refused, legacy denied, no Dummy requested: no device, and the
    caller sees the one "no suitable backend" error. *)
Lemma exhausted_candidates_witness :
  ∃ e w1,
    @meta_kms_device_new fixture_env "/dev/dri/card0" 0
      (fixture_boot (mkFixtureKernel false false true))
    = Some ((None, Some e), w1) ∧
    e = no_suitable_backend_error ∧
    devices w1 = ∅.
Proof.
  destruct (@exhausted_candidates_return_no_device fixture_env
              "/dev/dri/card0" 0
              (fixture_boot (mkFixtureKernel false false true))
              [mkGError META_KMS_ERROR 0 "Atomic mode setting disabled";
               mkGError G_IO_ERROR 14 "Permission denied"]
              (mkFixtureKernel false false true))
    as (e & w1 & Hrun & Hclear & _ & Hdev & _).
  { vm_compute. reflexivity. }
  exists e, w1. split; [exact Hrun|]. split.
  - apply Hclear. vm_compute. reflexivity.
  - exact Hdev.
Defined.

(** With the no-mode-setting flag set and a Dummy backend that does not
    open, every backend type the call tries has failed, and the caller gets
    the Dummy's own error instead of "no suitable backend". *)
Lemma exhaustion_with_dummy_counterexample :
  (∃ errors k,
     @all_fail fixture_env "/dev/dri/card0" 16
       (@candidate_types fixture_env 16)
       (mkFixtureKernel true true false) = Some (errors, k)) ∧
  (∃ w1,
     @meta_kms_device_new fixture_env "/dev/dri/card0" 16
       (fixture_boot (mkFixtureKernel true true false))
     = Some ((None,
              Some (mkGError G_IO_ERROR 1 "No such file or directory")),
             w1)) ∧
  ¬ @exhaustion_reports_no_suitable_backend fixture_env.
Proof.
  split; [|split].
  - eexists _, _. vm_compute. reflexivity.
  - eexists. vm_compute. reflexivity.
  - intros Hread.
    destruct (Hread "/dev/dri/card0" 16%Z
                (fixture_boot (mkFixtureKernel true true false))
                [mkGError G_IO_ERROR 1 "No such file or directory"]
                (mkFixtureKernel true true false)) as [w1 Hw1].
    + vm_compute. reflexivity.
    + vm_compute in Hw1. discriminate Hw1.
Qed.

(** Refresh after a hot-plug on connector 1: the lists 1, 2 and 3 cached
    before are freed, the device caches the new lists 4, 5 and 6, and the
    connector list has the new connector 52. *)
Lemma update_states_witness :
  ∃ w1 d1,
    @meta_kms_device_update_states_in_impl fixture_env 1%positive 0 1
      fixture_world_in_impl = Some (1%Z, w1) ∧
    devices w1 !! 1%positive = Some d1 ∧
    snapshot_heads fixture_device = [1%positive; 2%positive; 3%positive] ∧
    snapshot_heads d1 = [4%positive; 5%positive; 6%positive] ∧
    glists w1 !! 1%positive = None ∧
    glists w1 !! 2%positive = None ∧
    glists w1 !! 3%positive = None ∧
    glists w1 !! 4%positive = Some [41%positive; 42%positive] ∧
    glists w1 !! 5%positive = Some [51%positive; 52%positive] ∧
    glists w1 !! 6%positive
    = Some [34%positive; 31%positive; 32%positive; 33%positive].
Proof.
  destruct (@update_states_replaces_whole_snapshot fixture_env
              fixture_world_in_impl 1%positive fixture_device 1%positive
              fixture_impl_device 0 1)
    as (w1 & d1 & i1 & Hrun & Hw1 & Hd1 & _ & _ & _ & (Hb & _) & Hst & _).
  - split; reflexivity.
  - exact fixture_world_in_impl_bound.
  - exact fixture_snapshot_wf.
  - vm_compute. discriminate.
  - exists w1, d1. split; [exact Hrun|]. split; [exact Hb|].
    rewrite Hd1, Hst, Hw1.
    split; [reflexivity|]. split; [vm_compute; reflexivity|].
    split; [vm_compute; reflexivity|]. split; [vm_compute; reflexivity|].
    split; [vm_compute; reflexivity|]. split; [vm_compute; reflexivity|].
    split; vm_compute; reflexivity.
Defined.

(** A notification that changes nothing (connector id 0). *)
Lemma update_states_noop_witness :
  ∃ w1,
    @meta_kms_device_update_states_in_impl fixture_env 1%positive 0 0
      fixture_world_in_impl = Some (META_KMS_UPDATE_CHANGE_NONE, w1) ∧
    devices w1 = devices fixture_world_in_impl ∧
    glists w1 = glists fixture_world_in_impl.
Proof.
  destruct (@update_states_empty_change_keeps_snapshot fixture_env
              fixture_world_in_impl 1%positive fixture_device 1%positive
              fixture_impl_device 0 0)
    as (w1 & Hrun & Hdev & Hlists & _).
  - split; reflexivity.
  - exact fixture_world_in_impl_bound.
  - vm_compute. reflexivity.
  - exists w1. auto.
Defined.

(** The fixture backend commits update 7 and answers with the feedback
    object 7; it refuses update -1 and answers with an error. *)
Lemma process_update_witness :
  ∃ w1 w2,
    @meta_kms_device_process_update_sync fixture_env 1%positive
      (1%positive, 7%Z) 0 fixture_world = Some (Some (inl 7%Z), w1) ∧
    @meta_kms_device_process_update_sync fixture_env 1%positive
      (1%positive, (-1)%Z) 0 fixture_world
    = Some (Some (inr (mkGError G_IO_ERROR 22 "Invalid argument")), w2).
Proof.
  destruct (@process_update_feedback_xor_error fixture_env fixture_world
              1%positive (1%positive, 7%Z) 0 fixture_device 1%positive
              fixture_impl_device)
    as (r1 & w1 & Hsync1 & Hr1 & _).
  { vm_compute. eauto. }
  { exact fixture_world_bound. }
  destruct (@process_update_feedback_xor_error fixture_env fixture_world
              1%positive (1%positive, (-1)%Z) 0 fixture_device 1%positive
              fixture_impl_device)
    as (r2 & w2 & Hsync2 & Hr2 & _).
  { vm_compute. eauto. }
  { exact fixture_world_bound. }
  exists w1, w2. split.
  - rewrite Hsync1, Hr1. reflexivity.
  - rewrite Hsync2, Hr2. reflexivity.
Defined.

(** CRTC 42: the overlay 34 and the cursor 32 have the wrong type, the
    primary 31 only drives CRTC 41, so the primary plane is 33. *)
Lemma plane_for_witness :
  @meta_kms_device_get_primary_plane_for fixture_env 1%positive 42%positive
    fixture_world = Some (Some 33%positive, fixture_world) ∧
  @meta_kms_device_get_cursor_plane_for fixture_env 1%positive 42%positive
    fixture_world = Some (Some 32%positive, fixture_world).
Proof.
  destruct (@plane_for_returns_first_usable_match fixture_env fixture_world
              1%positive fixture_device 42%positive fixture_planes)
    as (_ & (r1 & Hr1 & _) & (r2 & Hr2 & _)).
  - vm_compute. reflexivity.
  - vm_compute. reflexivity.
  - split; vm_compute; reflexivity.
Defined.

(** The by-path name is requested, the device carries the backend's
    [/dev/dri/card0]. *)
Lemma constructed_device_witness :
  ∃ d, devices fixture_world !! 1%positive = Some d ∧
       path d = Some "/dev/dri/card0" ∧ flags d = 0%Z.
Proof.
  destruct (@constructed_device_adopts_backend_outputs fixture_env
              "/dev/dri/by-path/pci-0000:00:02.0-card" 0
              (fixture_boot (mkFixtureKernel false true true))
              1%positive None fixture_world)
    as (d & l & i & (Hd & _) & _).
  - vm_compute. reflexivity.
  - exists d. split; [exact Hd|].
    assert (d = fixture_device) as ->.
    { vm_compute in Hd. injection Hd as <-. reflexivity. }
    split; reflexivity.
Defined.

(** The caller passes [HAS_ADDFB2] (bit 5, value 32) and the legacy
    backend, which has no [addfb2_modifiers], is adopted: the flag stays
    set on the device. *)
Lemma has_addfb2_without_capability_counterexample :
  ¬ @has_addfb2_iff_capability fixture_env.
Proof.
  intros Hread.
  pose proof (Hread "/dev/dri/card0" 32%Z
                (fixture_boot (mkFixtureKernel false true true))
                1%positive None
                (world_after
                   (@meta_kms_device_new fixture_env "/dev/dri/card0" 32)
                   (fixture_boot (mkFixtureKernel false true true)))
                (with_flags 32 fixture_device) 1%positive
                fixture_impl_device) as Hiff.
  destruct Hiff as [Hcap _].
  - vm_compute. reflexivity.
  - repeat split; vm_compute; reflexivity.
  - assert (Hno : @addfb2_modifiers
                    (@meta_kms_impl_device_get_caps fixture_env
                       (@impl_state fixture_env fixture_impl_device))
                  = true).
    { apply Hcap. vm_compute. discriminate. }
    vm_compute in Hno. discriminate Hno.
Qed.



(** The fixture's cursor is 64 by 64; the two cells are 1 and 2. *)
Lemma get_cursor_size_witness :
  ∃ w1,
    @meta_kms_device_get_cursor_size fixture_env 1%positive 1%positive
      2%positive fixture_world = Some (true, w1) ∧
    cells w1 !! 1%positive = Some 64%Z ∧ cells w1 !! 2%positive = Some 64%Z.
Proof.
  destruct (@get_cursor_size_exactly_when_capable fixture_env fixture_world
              1%positive fixture_device 1%positive 2%positive)
    as (r & w1 & Hrun & Hr & Htrue & _).
  - vm_compute. reflexivity.
  - intros _. split; vm_compute; eauto.
  - assert (r = true) as -> by (apply Hr; reflexivity).
    destruct (Htrue eq_refl) as (_ & Hh & Hw).
    exists w1. split; [exact Hrun|]. split.
    + apply Hw. discriminate.
    + exact Hh.
Defined.

(** * The remaining entry points of [meta-kms-device.c] *)

Section EntryPoints.
Context `{KmsEnv}.

(** ** Lookups by id in the backend's live lists *)

Lemma first_with_id_skip get_id id x next r :
  get_id x ≠ id →
  first_with_id get_id id next r →
  first_with_id get_id id (x :: next) r.
Proof.
  intros Hne. destruct r as [y|]; simpl.
  - intros (before & after & -> & Hy & Hbefore).
    exists (x :: before), after. split; [reflexivity|]. split; [exact Hy|].
    intros q Hq. apply elem_of_cons in Hq as [->|Hq]; [exact Hne|].
    by apply Hbefore.
  - intros Hnext q Hq. apply elem_of_cons in Hq as [->|Hq]; [exact Hne|].
    by apply Hnext.
Qed.

Lemma find_with_id_first get_id id l :
  first_with_id get_id id l (find_with_id get_id id l).
Proof.
  induction l as [|x next IH]; simpl.
  - intros q Hq. inversion Hq.
  - destruct (decide (get_id x = id)) as [Heq|Hne].
    + exists [], next. split; [reflexivity|]. split; [exact Heq|].
      intros q Hq. inversion Hq.
    + by apply first_with_id_skip.
Qed.

Lemma find_in_impl_run (peek : ImplDeviceState → list gpointer)
    (get_id : gpointer → Z) (w : World) device d l i id :
  in_impl_context w →
  bound_to w device d l i →
  (meta_kms_device_get_impl_device device ≫= λ impl_device,
   meta_assert_in_kms_impl ≫= λ _,
   meta_assert_is_waiting_for_kms_impl_task ≫= λ _,
   peek_impl impl_device peek ≫= λ l0,
   mret (find_with_id get_id id l0)) w
  = Some (find_with_id get_id id (peek (impl_state i)), w).
Proof.
  intros Hctx (Hd & Himpl & Hi). unfold meta_kms_device_get_impl_device.
  rewrite (bind_run_some _ _ _ _ _ (get_field_run _ _ impl_device _ Hd)).
  rewrite Himpl, (assertions_in_impl_run _ _ Hctx).
  rewrite (bind_run_some _ _ _ _ _ (peek_impl_run _ _ _ _ Hi)).
  reflexivity.
Qed.

(** X1: inside an impl task, [meta_kms_device_find_crtc_in_impl] returns
    the first CRTC of the backend's live list whose id is [crtc_id], [NULL]
    when the list has no CRTC with that id, and changes nothing. *)
Theorem find_crtc_in_impl_first_with_id (w : World) device d l i crtc_id :
  in_impl_context w →
  bound_to w device d l i →
  ∃ r,
    meta_kms_device_find_crtc_in_impl device crtc_id w = Some (r, w) ∧
    first_with_id meta_kms_crtc_get_id crtc_id
      (meta_kms_impl_device_peek_crtcs (impl_state i)) r.
Proof.
  intros Hctx Hb. eexists. split.
  - apply (find_in_impl_run _ _ _ _ _ _ _ _ Hctx Hb).
  - apply find_with_id_first.
Qed.

(** X2: inside an impl task, [meta_kms_device_find_connector_in_impl]
    returns the first connector of the backend's live list whose id is
    [connector_id], [NULL] when there is none, and changes nothing. *)
Theorem find_connector_in_impl_first_with_id
    (w : World) device d l i connector_id :
  in_impl_context w →
  bound_to w device d l i →
  ∃ r,
    meta_kms_device_find_connector_in_impl device connector_id w
    = Some (r, w) ∧
    first_with_id meta_kms_connector_get_id connector_id
      (meta_kms_impl_device_peek_connectors (impl_state i)) r.
Proof.
  intros Hctx Hb. eexists. split.
  - apply (find_in_impl_run _ _ _ _ _ _ _ _ Hctx Hb).
  - apply find_with_id_first.
Qed.

(** ** The context assertions *)

Lemma assert_in_impl_trips {A} (k : M A) (w : World) :
  in_impl_task (kms w) = false →
  (meta_assert_in_kms_impl ≫= λ _, k) w = None.
Proof.
  intros Hout. unfold meta_assert_in_kms_impl. rewrite !bind_run.
  unfold gets. rewrite Hout. reflexivity.
Qed.

Lemma get_impl_device_then {A} (k : option loc → M A) (w : World) device :
  (meta_kms_device_get_impl_device device ≫= k) w
  = match devices w !! device with
    | Some d => k (impl_device d) w
    | None => None
    end.
Proof.
  unfold meta_kms_device_get_impl_device. rewrite !bind_run. unfold load.
  destruct (devices w !! device); reflexivity.
Qed.

(** X3: the entry points reserved to the impl context do not return when
    they are entered outside an impl task, and [meta_kms_device_disable]
    does not return when it is entered inside one: the assertion at their
    head trips before the backend or the cached lists are touched. *)
Theorem context_assertions_trip (w : World) device :
  (in_impl_task (kms w) = false →
   (∀ crtc_id connector_id,
      meta_kms_device_update_states_in_impl device crtc_id connector_id w
      = None) ∧
   (∀ crtc_id, meta_kms_device_find_crtc_in_impl device crtc_id w = None) ∧
   (∀ connector_id,
      meta_kms_device_find_connector_in_impl device connector_id w = None) ∧
   (∀ plane_type crtc,
      meta_kms_device_add_fake_plane_in_impl device plane_type crtc w
      = None) ∧
   (∀ path flags, meta_create_kms_impl_device device path flags w = None)) ∧
  (in_impl_task (kms w) = true → meta_kms_device_disable device w = None).
Proof.
  split.
  - intros Hout.
    split; [|split; [|split; [|split]]]; intros.
    + unfold meta_kms_device_update_states_in_impl.
      rewrite get_impl_device_then.
      destruct (devices w !! device); [|done].
      by apply assert_in_impl_trips.
    + unfold meta_kms_device_find_crtc_in_impl.
      rewrite get_impl_device_then.
      destruct (devices w !! device); [|done].
      by apply assert_in_impl_trips.
    + unfold meta_kms_device_find_connector_in_impl.
      rewrite get_impl_device_then.
      destruct (devices w !! device); [|done].
      by apply assert_in_impl_trips.
    + unfold meta_kms_device_add_fake_plane_in_impl.
      rewrite get_impl_device_then.
      destruct (devices w !! device); [|done].
      by apply assert_in_impl_trips.
    + unfold meta_create_kms_impl_device.
      by apply assert_in_impl_trips.
  - intros Hin. unfold meta_kms_device_disable, meta_kms_device_get_kms.
    rewrite bind_run. rewrite bind_run. unfold load.
    destruct (devices w !! device); [|done].
    unfold mret at 1, M_ret at 1.
    unfold meta_assert_not_in_kms_impl. rewrite !bind_run.
    unfold gets. rewrite Hin. reflexivity.
Qed.

(** ** Fallback plane injection *)

Lemma plane_scan_app crtc type l1 l2 :
  plane_scan crtc type (l1 ++ l2)
  = match plane_scan crtc type l1 with
    | Some r => Some r
    | None => plane_scan crtc type l2
    end.
Proof.
  induction l1 as [|plane next IH]; [reflexivity|]. simpl.
  destruct (decide (meta_kms_plane_get_plane_type plane ≠ type)); [exact IH|].
  destruct (meta_kms_plane_is_usable_with plane crtc); [reflexivity|exact IH].
Qed.

Lemma get_plane_with_type_for_run (w : World) device d crtc type l :
  devices w !! device = Some d →
  list_at (planes d) (glists w) = Some l →
  get_plane_with_type_for device crtc type w
  = Some (plane_scan crtc type l, w).
Proof.
  intros Hd Hl. unfold get_plane_with_type_for, meta_kms_device_get_planes.
  rewrite (bind_run_some _ _ _ _ _ (get_field_run _ _ planes _ Hd)).
  rewrite (bind_run_some _ _ _ _ _ (read_glist_run _ _ _ Hl)).
  reflexivity.
Qed.

Lemma add_fake_plane_run (w : World) device d l i plane_type crtc planes0 :
  in_impl_task (kms w) = true →
  bound_to w device d l i →
  list_at (planes d) (glists w) = Some planes0 →
  ∃ w1 d1,
    meta_kms_device_add_fake_plane_in_impl device plane_type crtc w
    = Some (tt, w1) ∧
    devices w1 = <[device := d1]> (devices w) ∧
    d1 = with_planes (planes d1) d ∧
    impl_devices w1
    = <[l := mkImplDevice (impl_type i) (impl_owner i)
                (impl_add_fake_plane (impl_state i) plane_type crtc).2]>
        (impl_devices w) ∧
    kernel w1 = kernel w ∧ kms w1 = kms w ∧
    list_at (planes d1) (glists w1)
    = Some (planes0 ++ [(impl_add_fake_plane (impl_state i) plane_type
                           crtc).1]) ∧
    (∀ x, is_Some (glists w !! x) → planes d ≠ Some x →
          glists w1 !! x = glists w !! x ∧ planes d1 ≠ Some x).
Proof.
  intros Hin (Hd & Himpl & Hi) Hl.
  set (out := impl_add_fake_plane (impl_state i) plane_type crtc).
  unfold meta_kms_device_add_fake_plane_in_impl.
  rewrite get_impl_device_then, Hd, Himpl.
  rewrite (bind_run_some _ _ _ _ _ (meta_assert_in_kms_impl_run _ Hin)).
  unfold meta_kms_impl_device_add_fake_plane.
  rewrite (bind_run_some _ _ _ _ _ (call_impl_run _ _ _ _ Hi)).
  cbn [fst snd]. fold out.
  unfold meta_kms_device_get_planes.
  erewrite bind_run_some; last first.
  { apply (get_field_run _ d planes). exact Hd. }
  destruct (planes d) as [p|] eqn:Hp.
  - (* the list exists: the plane goes behind its last cell *)
    cbn [list_at] in Hl. unfold g_list_append.
    erewrite bind_run_some; last first.
    { erewrite bind_run_some; last first.
      { apply load_run. exact Hl. }
      reflexivity. }
    erewrite store_device_run; last exact Hd.
    eexists _, _. split; [reflexivity|].
    cbn [devices impl_devices kernel kms glists set_devices set_glists
         set_kernel set_impl_devices planes with_planes list_at].
    split; [reflexivity|]. split; [by destruct d|].
    split; [reflexivity|]. split; [reflexivity|]. split; [reflexivity|].
    split; [apply lookup_insert_eq|].
    intros x Hx Hne. split; [|exact Hne].
    apply lookup_insert_ne. congruence.
  - (* no list yet: a new one with the plane alone *)
    injection Hl as <-. unfold g_list_append.
    rewrite (bind_run_some _ _ _ _ _ (g_list_alloc_run _ _)).
    erewrite store_device_run; last exact Hd.
    eexists _, _. split; [reflexivity|].
    cbn [devices impl_devices kernel kms glists set_devices set_glists
         set_kernel set_impl_devices planes with_planes list_at new_head
         linked].
    split; [reflexivity|]. split; [reflexivity|].
    split; [reflexivity|]. split; [reflexivity|]. split; [reflexivity|].
    split; [apply lookup_insert_eq|].
    intros x Hx _.
    assert (Hfresh : fresh (dom (glists w)) ≠ x).
    { intros <-. destruct Hx as [v Hv].
      pose proof (is_fresh (dom (glists w))) as Hf.
      apply Hf. apply elem_of_dom. eauto. }
    split; [by apply lookup_insert_ne|].
    intros [= E]. by apply Hfresh.
Qed.

(** X4: inside an impl task, [meta_kms_device_add_fake_plane_in_impl]
    puts the plane the backend made up behind the last plane of the cached
    list (a cached list that was empty becomes the one-element list); the
    cached CRTC and connector lists are untouched and the three lists stay
    live and apart. *)
Theorem add_fake_plane_appends_to_snapshot
    (w : World) device d l i plane_type crtc planes0 :
  in_impl_task (kms w) = true →
  bound_to w device d l i →
  snapshot_wf (glists w) d →
  list_at (planes d) (glists w) = Some planes0 →
  ∃ w1 d1 i1,
    meta_kms_device_add_fake_plane_in_impl device plane_type crtc w
    = Some (tt, w1) ∧
    bound_to w1 device d1 l i1 ∧
    impl_state i1 = (impl_add_fake_plane (impl_state i) plane_type crtc).2 ∧
    list_at (planes d1) (glists w1)
    = Some (planes0 ++ [(impl_add_fake_plane (impl_state i) plane_type
                           crtc).1]) ∧
    crtcs d1 = crtcs d ∧ connectors d1 = connectors d ∧
    list_at (crtcs d1) (glists w1) = list_at (crtcs d) (glists w) ∧
    list_at (connectors d1) (glists w1) = list_at (connectors d) (glists w) ∧
    snapshot_wf (glists w1) d1.
Proof.
  intros Hin Hb Hwf Hl.
  destruct (add_fake_plane_run _ _ _ _ _ plane_type crtc _ Hin Hb Hl)
    as (w1 & d1 & Hrun & Hdev & Hd1 & Himpls & _ & _ & Hplanes & Hkeep).
  destruct Hb as (Hd & Himpl & Hi).
  apply snapshot_wf_heads in Hwf as ((Hv1 & Hv2 & Hv3) & H12 & H13 & H23).
  assert (Hc : crtcs d1 = crtcs d) by (rewrite Hd1; reflexivity).
  assert (Hn : connectors d1 = connectors d) by (rewrite Hd1; reflexivity).
  assert (Kc : list_at (crtcs d) (glists w1) = list_at (crtcs d) (glists w)
               ∧ (crtcs d = None ∨ planes d1 ≠ crtcs d)).
  { destruct (crtcs d) as [x|] eqn:Hx; [|by auto]. cbn [list_at] in *.
    destruct (Hkeep x Hv1) as [-> ?]; [|by auto].
    destruct H13 as [E|E]; [rewrite E; discriminate|congruence]. }
  assert (Kn : list_at (connectors d) (glists w1)
               = list_at (connectors d) (glists w)
               ∧ (connectors d = None ∨ planes d1 ≠ connectors d)).
  { destruct (connectors d) as [x|] eqn:Hx; [|by auto]. cbn [list_at] in *.
    destruct (Hkeep x Hv2) as [-> ?]; [|by auto].
    destruct H23 as [E|E]; [rewrite E; discriminate|congruence]. }
  destruct Kc as [Kc Ac]. destruct Kn as [Kn An].
  exists w1, d1, (mkImplDevice (impl_type i) (impl_owner i)
                    (impl_add_fake_plane (impl_state i) plane_type crtc).2).
  split; [exact Hrun|]. split.
  { split; [rewrite Hdev; apply lookup_insert_eq|].
    split; [rewrite Hd1; exact Himpl|].
    rewrite Himpls. apply lookup_insert_eq. }
  split; [reflexivity|]. split; [exact Hplanes|].
  split; [exact Hc|]. split; [exact Hn|].
  rewrite Hc, Hn. split; [exact Kc|]. split; [exact Kn|].
  apply snapshot_wf_heads. rewrite Hc, Hn.
  split; [split; [|split]|split; [|split]].
  - by rewrite Kc.
  - by rewrite Kn.
  - by rewrite Hplanes.
  - exact H12.
  - by apply heads_apart_sym.
  - by apply heads_apart_sym.
Qed.

(** X5: a fake plane never shadows a plane that was already cached: after
    [meta_kms_device_add_fake_plane_in_impl], a plane lookup that found a
    plane before finds the same plane, and a lookup that found none finds
    the fake plane exactly when it has the requested type and is usable
    with the CRTC asked for. *)
Theorem fake_plane_is_found_last
    (w : World) device d l i plane_type crtc planes0 for_crtc type :
  in_impl_task (kms w) = true →
  bound_to w device d l i →
  list_at (planes d) (glists w) = Some planes0 →
  ∃ w1 before after,
    meta_kms_device_add_fake_plane_in_impl device plane_type crtc w
    = Some (tt, w1) ∧
    get_plane_with_type_for device for_crtc type w = Some (before, w) ∧
    get_plane_with_type_for device for_crtc type w1 = Some (after, w1) ∧
    (is_Some before → after = before) ∧
    (before = None →
     (plane_matches for_crtc type
        (impl_add_fake_plane (impl_state i) plane_type crtc).1 →
      after = Some (impl_add_fake_plane (impl_state i) plane_type crtc).1) ∧
     (¬ plane_matches for_crtc type
          (impl_add_fake_plane (impl_state i) plane_type crtc).1 →
      after = None)).
Proof.
  intros Hin Hb Hl.
  destruct (add_fake_plane_run _ _ _ _ _ plane_type crtc _ Hin Hb Hl)
    as (w1 & d1 & Hrun & Hdev & _ & _ & _ & _ & Hplanes & _).
  destruct Hb as (Hd & _ & _).
  set (fake := (impl_add_fake_plane (impl_state i) plane_type crtc).1) in *.
  assert (Hd1 : devices w1 !! device = Some d1)
    by (rewrite Hdev; apply lookup_insert_eq).
  exists w1, (plane_scan for_crtc type planes0),
         (plane_scan for_crtc type (planes0 ++ [fake])).
  split; [exact Hrun|].
  split; [by apply get_plane_with_type_for_run with d|].
  split; [by apply get_plane_with_type_for_run with d1|].
  rewrite plane_scan_app.
  destruct (plane_scan for_crtc type planes0) as [r|].
  - split; [done|]. discriminate.
  - split; [by intros [? ?]|]. intros _. unfold plane_matches. simpl.
    destruct (decide (meta_kms_plane_get_plane_type fake ≠ type)) as [Hty|Hty].
    + split; [intros [? _]; done|done].
    + destruct (meta_kms_plane_is_usable_with fake for_crtc).
      * split; [done|]. intros Hno. exfalso. apply Hno. split; [|done].
        by destruct (decide (meta_kms_plane_get_plane_type fake = type)).
      * split; [intros [_ ?]; done|done].
Qed.

(** ** What construction leaves behind *)

Lemma new_success_inv path flags (w : World) device error w1 :
  meta_kms_device_new path flags w = Some ((Some device, error), w1) →
  ∃ type st,
    adopted (select_backend path flags (kernel w)) = inl (type, st) ∧
    device = fresh (dom (devices w)) ∧ error = None ∧
    w1 = mkWorld (mkKms false false)
           (<[device := constructed_device flags
                           (fresh (dom (impl_devices w))) st (glists w)]>
              (devices w))
           (<[fresh (dom (impl_devices w))
              := mkImplDevice type device st]> (impl_devices w))
           ({[fresh (dom (impl_devices w))]} ∪ impl_registry w)
           (constructed_lists st (glists w)) (cells w)
           (kernel_after (select_backend path flags (kernel w)))
           (attempts w ++ tried (select_backend path flags (kernel w)))
           (warnings w ++ warned (select_backend path flags (kernel w))).
Proof.
  rewrite meta_kms_device_new_run. unfold new_outcome.
  destruct (adopted (select_backend path flags (kernel w)))
    as [[type st]|e]; [|discriminate].
  intros [= <- <- <-]. exists type, st.
  split; [reflexivity|]. split; [reflexivity|]. split; reflexivity.
Qed.

(** X6: on a device [meta_kms_device_new] returned, the getters answer
    with what the adopted backend reports: its driver name and description,
    its path, and the shadow-buffer and monotonic-clock capabilities; the
    call left [*error] unset. *)
Theorem constructed_device_getters
    requested_path flags (w : World) device error w1 :
  meta_kms_device_new requested_path flags w = Some ((Some device, error), w1) →
  ∃ l i,
    error = None ∧
    meta_kms_device_get_impl_device device w1 = Some (Some l, w1) ∧
    impl_devices w1 !! l = Some i ∧
    meta_kms_device_get_driver_name device w1
    = Some (Some (meta_kms_impl_device_get_driver_name (impl_state i)), w1) ∧
    meta_kms_device_get_driver_description device w1
    = Some (Some (meta_kms_impl_device_get_driver_description
                    (impl_state i)), w1) ∧
    meta_kms_device_get_path device w1
    = Some (Some (meta_kms_impl_device_get_path (impl_state i)), w1) ∧
    meta_kms_device_prefers_shadow_buffer device w1
    = Some (prefers_shadow_buffer
              (meta_kms_impl_device_get_caps (impl_state i)), w1) ∧
    meta_kms_device_uses_monotonic_clock device w1
    = Some (uses_monotonic_clock
              (meta_kms_impl_device_get_caps (impl_state i)), w1).
Proof.
  intros Hnew.
  destruct (new_success_inv _ _ _ _ _ _ Hnew)
    as (type & st & _ & -> & -> & Hw1).
  set (device := fresh (dom (devices w))) in *.
  set (l := fresh (dom (impl_devices w))) in *.
  assert (Hd : devices w1 !! device
               = Some (constructed_device flags l st (glists w))).
  { rewrite Hw1. apply lookup_insert_eq. }
  exists l, (mkImplDevice type device st).
  split; [reflexivity|].
  split; [exact (get_field_run _ _ impl_device _ Hd)|].
  split; [rewrite Hw1; apply lookup_insert_eq|].
  split; [exact (get_field_run _ _ driver_name _ Hd)|].
  split; [exact (get_field_run _ _ driver_description _ Hd)|].
  split; [exact (get_field_run _ _ path _ Hd)|].
  split.
  - exact (get_field_run _ _ (λ d, prefers_shadow_buffer (caps d)) _ Hd).
  - exact (get_field_run _ _ (λ d, uses_monotonic_clock (caps d)) _ Hd).
Qed.

Lemma adopted_is_last_tried path flags types k type st :
  adopted (select_in_order path flags types k) = inl (type, st) →
  last (tried (select_in_order path flags types k)) = Some type.
Proof.
  intros Ha.
  pose proof (select_in_order_tries_until_success path flags types k) as Hs.
  rewrite Ha in Hs. destruct Hs as (failed & rest & _ & -> & _).
  apply last_snoc.
Qed.

Lemma select_backend_adopted path flags k type st :
  adopted (select_backend path flags k) = inl (type, st) →
  last (tried (select_backend path flags k)) = Some type ∧
  (no_mode_setting flags = true → type = META_TYPE_KMS_IMPL_DEVICE_DUMMY) ∧
  (no_mode_setting flags = false →
   (∀ st0 k0, impl_device_init META_TYPE_KMS_IMPL_DEVICE_ATOMIC path flags
                k = (inl st0, k0) →
              type = META_TYPE_KMS_IMPL_DEVICE_ATOMIC) ∧
   (∀ e k0, impl_device_init META_TYPE_KMS_IMPL_DEVICE_ATOMIC path flags
              k = (inr e, k0) →
            type = META_TYPE_KMS_IMPL_DEVICE_SIMPLE)).
Proof.
  unfold select_backend. destruct (no_mode_setting flags).
  - destruct (impl_device_init META_TYPE_KMS_IMPL_DEVICE_DUMMY path flags k)
      as [[st0|e] k1]; [|discriminate].
    intros [= <- <-]. split; [reflexivity|]. split; [done|discriminate].
  - intros Ha. split; [by eapply adopted_is_last_tried|].
    split; [discriminate|]. intros _. revert Ha. simpl.
    destruct (impl_device_init META_TYPE_KMS_IMPL_DEVICE_ATOMIC path flags k)
      as [[st0|e] k1]; simpl.
    + intros [= <- <-]. split; [done|]. intros ? ? [=].
    + destruct (impl_device_init META_TYPE_KMS_IMPL_DEVICE_SIMPLE path flags
                  k1) as [[st1|e1] k2]; simpl; [|discriminate].
      intros [= <- <-]. split; [|done]. intros ? ? [=].
Qed.

(** X7: a successful [meta_kms_device_new] binds exactly one new backend
    instance: it is of the last type handed to [g_initable_new] (Dummy with
    the no-mode-setting flag; otherwise Atomic if Atomic constructs and
    Simple if not), its device property is the returned device, and the
    backends that existed before are as they were; a type that failed
    before it leaves no instance. *)
Theorem adopted_backend_is_last_attempted
    path flags (w : World) device error w1 :
  meta_kms_device_new path flags w = Some ((Some device, error), w1) →
  ∃ l i,
    impl_devices w !! l = None ∧
    impl_devices w1 = <[l := i]> (impl_devices w) ∧
    impl_owner i = device ∧
    last (attempts w1) = Some (impl_type i) ∧
    (Z.land flags META_KMS_DEVICE_FLAG_NO_MODE_SETTING ≠ 0%Z →
     impl_type i = META_TYPE_KMS_IMPL_DEVICE_DUMMY) ∧
    (Z.land flags META_KMS_DEVICE_FLAG_NO_MODE_SETTING = 0%Z →
     (∀ st0 k0, impl_device_init META_TYPE_KMS_IMPL_DEVICE_ATOMIC path
                  flags (kernel w) = (inl st0, k0) →
                impl_type i = META_TYPE_KMS_IMPL_DEVICE_ATOMIC) ∧
     (∀ e k0, impl_device_init META_TYPE_KMS_IMPL_DEVICE_ATOMIC path flags
                (kernel w) = (inr e, k0) →
              impl_type i = META_TYPE_KMS_IMPL_DEVICE_SIMPLE)).
Proof.
  intros Hnew.
  destruct (new_success_inv _ _ _ _ _ _ Hnew)
    as (type & st & Ha & -> & -> & ->).
  destruct (select_backend_adopted _ _ _ _ _ Ha) as (Hlast & Hset & Hclear).
  exists (fresh (dom (impl_devices w))),
         (mkImplDevice type (fresh (dom (devices w))) st).
  split; [apply not_elem_of_dom, is_fresh|].
  split; [reflexivity|]. split; [reflexivity|].
  cbn [attempts impl_type].
  split.
  { destruct (tried (select_backend path flags (kernel w))) as [|t ts] eqn:Ht;
      [discriminate|].
    rewrite <- Hlast. apply last_app_cons. }
  unfold no_mode_setting in Hset, Hclear. split.
  - intros Hflag. apply Hset. by apply bool_decide_eq_true_2.
  - intros Hflag. apply Hclear. apply bool_decide_eq_false_2. by intros ?.
Qed.

Lemma select_backend_warned path flags k :
  warned (select_backend path flags k)
  = if no_mode_setting flags then []
    else match impl_device_init META_TYPE_KMS_IMPL_DEVICE_ATOMIC path flags k
         with
         | (inl _, _) => []
         | (inr eA, kA) =>
             warning_for META_TYPE_KMS_IMPL_DEVICE_ATOMIC eA ++
             match impl_device_init META_TYPE_KMS_IMPL_DEVICE_SIMPLE path
                     flags kA with
             | (inl _, _) => []
             | (inr eS, _) =>
                 warning_for META_TYPE_KMS_IMPL_DEVICE_SIMPLE eS
             end
         end.
Proof.
  unfold select_backend. destruct (no_mode_setting flags).
  - by destruct (impl_device_init _ _ _ _) as [[?|?] ?].
  - simpl.
    destruct (impl_device_init META_TYPE_KMS_IMPL_DEVICE_ATOMIC _ _ _)
      as [[?|eA] kA]; simpl; [done|].
    destruct (impl_device_init META_TYPE_KMS_IMPL_DEVICE_SIMPLE _ _ _)
      as [[?|eS] ?]; simpl; [done|].
    by rewrite app_nil_r.
Qed.

Lemma new_outcome_warnings path flags (w : World) :
  warnings (new_outcome path flags w).2
  = warnings w ++ warned (select_backend path flags (kernel w)).
Proof.
  unfold new_outcome.
  by destruct (adopted (select_backend path flags (kernel w))) as [[??]|?].
Qed.

(** X8: what [meta_kms_device_new] logs.  With the no-mode-setting flag
    it logs nothing, also when the Dummy backend fails.  Otherwise each of
    Atomic and Simple that was tried and failed adds, in this order, the
    line "Failed to open <type> backend: <message>" unless its error is in
    the [META_KMS_ERROR] domain, which is skipped silently. *)
Theorem construction_warns_on_unexpected_errors path flags (w : World) :
  ∃ r w1,
    meta_kms_device_new path flags w = Some (r, w1) ∧
    (Z.land flags META_KMS_DEVICE_FLAG_NO_MODE_SETTING ≠ 0%Z →
     warnings w1 = warnings w) ∧
    (Z.land flags META_KMS_DEVICE_FLAG_NO_MODE_SETTING = 0%Z →
     (∀ st k, impl_device_init META_TYPE_KMS_IMPL_DEVICE_ATOMIC path flags
                (kernel w) = (inl st, k) →
              warnings w1 = warnings w) ∧
     (∀ eA kA, impl_device_init META_TYPE_KMS_IMPL_DEVICE_ATOMIC path flags
                 (kernel w) = (inr eA, kA) →
        (∀ st k, impl_device_init META_TYPE_KMS_IMPL_DEVICE_SIMPLE path
                   flags kA = (inl st, k) →
                 warnings w1
                 = warnings w
                   ++ warning_for META_TYPE_KMS_IMPL_DEVICE_ATOMIC eA) ∧
        (∀ eS k, impl_device_init META_TYPE_KMS_IMPL_DEVICE_SIMPLE path
                   flags kA = (inr eS, k) →
                 warnings w1
                 = warnings w
                   ++ warning_for META_TYPE_KMS_IMPL_DEVICE_ATOMIC eA
                   ++ warning_for META_TYPE_KMS_IMPL_DEVICE_SIMPLE eS))) ∧
    (∀ type e, domain e = META_KMS_ERROR → warning_for type e = []) ∧
    (∀ type e, domain e ≠ META_KMS_ERROR →
       warning_for type e
       = ["Failed to open " +:+ impl_device_type_to_string type
          +:+ " backend: " +:+ message e]).
Proof.
  exists (new_outcome path flags w).1, (new_outcome path flags w).2.
  split.
  { rewrite meta_kms_device_new_run.
    by destruct (new_outcome path flags w) as [??]. }
  rewrite new_outcome_warnings, select_backend_warned.
  unfold no_mode_setting.
  split; [|split; [|split]].
  - intros Hflag. rewrite bool_decide_eq_true_2 by exact Hflag.
    apply app_nil_r.
  - intros Hflag. rewrite bool_decide_eq_false_2 by (by intros ?).
    split.
    + intros st k ->. apply app_nil_r.
    + intros eA kA ->. split.
      * intros st k ->. by rewrite app_nil_r.
      * intros eS k ->. reflexivity.
  - intros type e He. unfold warning_for. by rewrite decide_False by auto.
  - intros type e He. unfold warning_for. by rewrite decide_True.
Qed.

Lemma linked_keeps content (g : gmap loc (list gpointer)) x :
  is_Some (g !! x) → linked content g !! x = g !! x.
Proof.
  intros Hx. rewrite linked_lookup.
  destruct (decide (new_head content g = Some x)) as [Hn|]; [|done].
  apply new_head_fresh in Hn. rewrite Hn in Hx. by destruct Hx.
Qed.

Lemma constructed_lists_keep st (g : gmap loc (list gpointer)) x :
  is_Some (g !! x) → constructed_lists st g !! x = g !! x.
Proof.
  intros Hx. unfold constructed_lists.
  pose proof (linked_keeps (meta_kms_impl_device_peek_crtcs st) g x Hx) as K1.
  assert (H1 : is_Some (linked (meta_kms_impl_device_peek_crtcs st) g !! x))
    by (by rewrite K1).
  pose proof (linked_keeps (meta_kms_impl_device_peek_connectors st) _ x H1)
    as K2.
  assert (H2 : is_Some
            (linked (meta_kms_impl_device_peek_connectors st)
               (linked (meta_kms_impl_device_peek_crtcs st) g) !! x))
    by (by rewrite K2).
  pose proof (linked_keeps (meta_kms_impl_device_peek_planes st) _ x H2)
    as K3.
  rewrite linked_keeps by (by rewrite K3).
  by rewrite K3, K2, K1.
Qed.

(** X9: a device [meta_kms_device_new] returns caches copies of the
    backend's CRTC, connector, plane and fallback-mode lists; the three
    topology lists are live and no two share cells.  The device handle is
    a new one, and every device object and every list that existed before
    the call is as it was. *)
Theorem construction_caches_backend_lists
    path flags (w : World) device error w1 :
  meta_kms_device_new path flags w = Some ((Some device, error), w1) →
  ∃ d l i,
    bound_to w1 device d l i ∧
    snapshot_wf (glists w1) d ∧
    list_at (crtcs d) (glists w1)
    = Some (meta_kms_impl_device_peek_crtcs (impl_state i)) ∧
    list_at (connectors d) (glists w1)
    = Some (meta_kms_impl_device_peek_connectors (impl_state i)) ∧
    list_at (planes d) (glists w1)
    = Some (meta_kms_impl_device_peek_planes (impl_state i)) ∧
    list_at (fallback_modes d) (glists w1)
    = Some (meta_kms_impl_device_peek_fallback_modes (impl_state i)) ∧
    devices w !! device = None ∧
    (∀ other, other ≠ device → devices w1 !! other = devices w !! other) ∧
    (∀ x, is_Some (glists w !! x) → glists w1 !! x = glists w !! x).
Proof.
  intros Hnew.
  destruct (new_success_inv _ _ _ _ _ _ Hnew)
    as (type & st & _ & -> & -> & ->).
  set (device := fresh (dom (devices w))).
  set (l := fresh (dom (impl_devices w))).
  destruct (constructed_device_snapshot_wf flags l st (glists w))
    as (Hwf & Hc & Hn & Hp).
  exists (constructed_device flags l st (glists w)), l,
         (mkImplDevice type device st).
  cbn [glists devices impl_state].
  split.
  { split; [apply lookup_insert_eq|]. split; [reflexivity|].
    apply lookup_insert_eq. }
  split; [exact Hwf|]. split; [exact Hc|]. split; [exact Hn|].
  split; [exact Hp|].
  split; [apply list_at_new_head|].
  split; [apply fresh_device|].
  split.
  - intros other Hne. by apply lookup_insert_ne.
  - intros x Hx. by apply constructed_lists_keep.
Qed.

(** X10: on a device [meta_kms_device_new] returned, a plane lookup
    answers from the adopted backend's plane list: it returns the first
    plane of that list with the requested type that is usable with the
    CRTC, or [NULL] when the backend has none. *)
Theorem constructed_device_plane_lookup
    path flags (w : World) device error w1 :
  meta_kms_device_new path flags w = Some ((Some device, error), w1) →
  ∃ l i,
    meta_kms_device_get_impl_device device w1 = Some (Some l, w1) ∧
    impl_devices w1 !! l = Some i ∧
    ∀ crtc type, ∃ r,
      get_plane_with_type_for device crtc type w1 = Some (r, w1) ∧
      first_matching_plane crtc type
        (meta_kms_impl_device_peek_planes (impl_state i)) r.
Proof.
  intros Hnew.
  destruct (new_success_inv _ _ _ _ _ _ Hnew)
    as (ty & st & _ & -> & -> & Hw1).
  set (device := fresh (dom (devices w))) in *.
  set (l := fresh (dom (impl_devices w))) in *.
  destruct (constructed_device_snapshot_wf flags l st (glists w))
    as (_ & _ & _ & Hp).
  assert (Hd : devices w1 !! device
               = Some (constructed_device flags l st (glists w))).
  { rewrite Hw1. apply lookup_insert_eq. }
  exists l, (mkImplDevice ty device st).
  split; [exact (get_field_run _ _ impl_device _ Hd)|].
  split; [rewrite Hw1; apply lookup_insert_eq|].
  intros crtc type.
  exists (plane_scan crtc type (meta_kms_impl_device_peek_planes st)).
  split; [|apply plane_scan_first].
  apply get_plane_with_type_for_run
    with (constructed_device flags l st (glists w)); [exact Hd|].
  rewrite Hw1. exact Hp.
Qed.

(** ** A refresh, as seen by later lookups and by other devices *)

Lemma three_swaps_spec (g : gmap loc (list gpointer)) p1 p2 p3 L1 L2 L3 :
  is_Some (list_at p1 g) → is_Some (list_at p2 g) →
  is_Some (list_at p3 g) →
  (p2 = None ∨ p1 ≠ p2) → (p3 = None ∨ p1 ≠ p3) → (p3 = None ∨ p2 ≠ p3) →
  is_Some (list_at p2 (swapped_once p1 L1 g)) ∧
  is_Some (list_at p3 (swapped_once p2 L2 (swapped_once p1 L1 g))) ∧
  list_at (swapped_head p3 L3 (swapped_once p2 L2 (swapped_once p1 L1 g)))
    (swapped_once p3 L3 (swapped_once p2 L2 (swapped_once p1 L1 g)))
  = Some L3 ∧
  (∀ x, is_Some (g !! x) → p1 ≠ Some x → p2 ≠ Some x → p3 ≠ Some x →
        swapped_once p3 L3 (swapped_once p2 L2 (swapped_once p1 L1 g)) !! x
        = g !! x).
Proof.
  intros Hv1 Hv2 Hv3 H12 H13 H23. unfold swapped_once, swapped_head.
  destruct (swap_list_at_keeps p1 L1 g _ Hv2 H12) as [K2a _].
  destruct (swap_list_at_keeps p1 L1 g _ Hv3 H13) as [K3a _].
  assert (Hv3' : is_Some (list_at p3 (linked L1 (released p1 g))))
    by (by rewrite K3a).
  destruct (swap_list_at_keeps p2 L2 _ _ Hv3' H23) as [K3c _].
  split; [by rewrite K2a|]. split; [by rewrite K3c|].
  split; [apply list_at_new_head|].
  intros x Hx X1 X2 X3.
  destruct (swap_keeps p1 L1 g x Hx X1) as [E1 _].
  assert (Hx1 : is_Some (linked L1 (released p1 g) !! x)) by (by rewrite E1).
  destruct (swap_keeps p2 L2 _ x Hx1 X2) as [E2 _].
  assert (Hx2 : is_Some (linked L2 (released p2 (linked L1 (released p1 g)))
                         !! x)) by (by rewrite E2).
  destruct (swap_keeps p3 L3 _ x Hx2 X3) as [E3 _].
  by rewrite E3, E2, E1.
Qed.

Lemma update_states_nonempty_run
    (w : World) device d l i crtc_id connector_id :
  in_impl_context w →
  bound_to w device d l i →
  snapshot_wf (glists w) d →
  (impl_update_states (impl_state i) crtc_id connector_id (kernel w)).1.1
  ≠ META_KMS_UPDATE_CHANGE_NONE →
  meta_kms_device_update_states_in_impl device crtc_id connector_id w
  = Some ((impl_update_states (impl_state i) crtc_id connector_id
             (kernel w)).1.1,
          refreshed_world device l d i
            (impl_update_states (impl_state i) crtc_id connector_id
               (kernel w)) w).
Proof.
  intros Hctx (Hd & Himpl & Hi) Hwf Hchg.
  apply snapshot_wf_heads in Hwf as ((Hv1 & Hv2 & Hv3) & H12 & H13 & H23).
  set (out := impl_update_states (impl_state i) crtc_id connector_id
                (kernel w)) in *.
  destruct (three_swaps_spec (glists w) _ _ _
              (meta_kms_impl_device_peek_crtcs out.1.2)
              (meta_kms_impl_device_peek_connectors out.1.2)
              (meta_kms_impl_device_peek_planes out.1.2)
              Hv1 Hv2 Hv3 H12 H13 H23) as (Hv2' & Hv3' & _ & _).
  unfold refreshed_world, refreshed_device, refreshed_lists.
  set (g1 := swapped_once (crtcs d)
               (meta_kms_impl_device_peek_crtcs out.1.2) (glists w)) in *.
  set (g2 := swapped_once (connectors d)
               (meta_kms_impl_device_peek_connectors out.1.2) g1) in *.
  set (n1 := swapped_head (crtcs d)
               (meta_kms_impl_device_peek_crtcs out.1.2) (glists w)).
  set (n2 := swapped_head (connectors d)
               (meta_kms_impl_device_peek_connectors out.1.2) g1).
  unfold meta_kms_device_update_states_in_impl,
    meta_kms_device_get_crtcs, meta_kms_device_get_connectors,
    meta_kms_device_get_planes, meta_kms_impl_device_copy_crtcs,
    meta_kms_impl_device_copy_connectors, meta_kms_impl_device_copy_planes.
  rewrite get_impl_device_then, Hd, Himpl.
  rewrite (assertions_in_impl_run _ _ Hctx).
  unfold meta_kms_impl_device_update_states.
  rewrite (bind_run_some _ _ _ _ _ (call_impl_run _ _ _ _ Hi)).
  fold out. rewrite decide_False by exact Hchg.
  erewrite bind_run_some; last first.
  { apply (get_field_run _ d crtcs). exact Hd. }
  erewrite bind_run_some; last first.
  { apply g_list_free_run. exact Hv1. }
  erewrite bind_run_some; last first.
  { apply copy_run. cbn [impl_devices set_glists set_kernel set_impl_devices].
    apply lookup_insert_eq. }
  erewrite bind_run_some; last first.
  { apply store_device_run.
    cbn [devices set_glists set_kernel set_impl_devices]. exact Hd. }
  erewrite bind_run_some; last first.
  { apply (get_field_run _ (with_crtcs n1 d) connectors).
    cbn [devices set_devices]. apply lookup_insert_eq. }
  erewrite bind_run_some; last first.
  { apply g_list_free_run.
    cbn [glists set_devices set_glists connectors with_crtcs
         impl_state]. exact Hv2'. }
  erewrite bind_run_some; last first.
  { apply copy_run.
    cbn [impl_devices set_devices set_glists set_kernel set_impl_devices].
    apply lookup_insert_eq. }
  erewrite bind_run_some; last first.
  { apply store_device_run. cbn [devices set_devices set_glists].
    apply lookup_insert_eq. }
  erewrite bind_run_some; last first.
  { apply (get_field_run _ (with_connectors n2 (with_crtcs n1 d)) planes).
    cbn [devices set_devices]. apply lookup_insert_eq. }
  erewrite bind_run_some; last first.
  { apply g_list_free_run.
    cbn [glists set_devices set_glists planes with_connectors with_crtcs
         impl_state]. exact Hv3'. }
  erewrite bind_run_some; last first.
  { apply copy_run.
    cbn [impl_devices set_devices set_glists set_kernel set_impl_devices].
    apply lookup_insert_eq. }
  erewrite bind_run_some; last first.
  { apply store_device_run. cbn [devices set_devices set_glists].
    apply lookup_insert_eq. }
  unfold mret, M_ret.
  cbn [kms devices impl_devices impl_registry glists cells kernel attempts
       warnings set_devices set_glists set_kernel set_impl_devices
       impl_state planes connectors crtcs with_crtcs with_connectors].
  rewrite !insert_insert_eq. reflexivity.
Qed.

(** X11: after a refresh that reported a change, a plane lookup on the
    device answers from the backend's plane list as the refresh left it:
    the first plane of that list with the requested type that is usable
    with the CRTC, or [NULL]. *)
Theorem refreshed_device_plane_lookup
    (w : World) device d l i crtc_id connector_id :
  in_impl_context w →
  bound_to w device d l i →
  snapshot_wf (glists w) d →
  (impl_update_states (impl_state i) crtc_id connector_id (kernel w)).1.1
  ≠ META_KMS_UPDATE_CHANGE_NONE →
  ∃ changes w1,
    meta_kms_device_update_states_in_impl device crtc_id connector_id w
    = Some (changes, w1) ∧
    ∀ crtc type, ∃ r,
      get_plane_with_type_for device crtc type w1 = Some (r, w1) ∧
      first_matching_plane crtc type
        (meta_kms_impl_device_peek_planes
           (impl_update_states (impl_state i) crtc_id connector_id
              (kernel w)).1.2) r.
Proof.
  intros Hctx Hb Hwf Hchg.
  pose proof (update_states_nonempty_run _ _ _ _ _ _ _ Hctx Hb Hwf Hchg)
    as Hrun.
  destruct Hb as (Hd & Himpl & Hi).
  apply snapshot_wf_heads in Hwf as ((Hv1 & Hv2 & Hv3) & H12 & H13 & H23).
  set (out := impl_update_states (impl_state i) crtc_id connector_id
                (kernel w)) in *.
  destruct (three_swaps_spec (glists w) _ _ _
              (meta_kms_impl_device_peek_crtcs out.1.2)
              (meta_kms_impl_device_peek_connectors out.1.2)
              (meta_kms_impl_device_peek_planes out.1.2)
              Hv1 Hv2 Hv3 H12 H13 H23) as (_ & _ & Hplanes & _).
  eexists _, _. split; [exact Hrun|].
  intros crtc type.
  exists (plane_scan crtc type (meta_kms_impl_device_peek_planes out.1.2)).
  split; [|apply plane_scan_first].
  apply get_plane_with_type_for_run
    with (refreshed_device d out.1.2 (glists w)).
  - apply lookup_insert_eq.
  - exact Hplanes.
Qed.

(** X12: a refresh of one device is local to it: every other device
    object, every other backend instance and every list that is not one of
    the device's three cached lists are as before, so a plane lookup on
    another device, whose plane list is its own, returns what it returned
    before. *)
Theorem refresh_leaves_other_devices
    (w : World) device d l i crtc_id connector_id :
  in_impl_context w →
  bound_to w device d l i →
  snapshot_wf (glists w) d →
  (impl_update_states (impl_state i) crtc_id connector_id (kernel w)).1.1
  ≠ META_KMS_UPDATE_CHANGE_NONE →
  ∃ changes w1,
    meta_kms_device_update_states_in_impl device crtc_id connector_id w
    = Some (changes, w1) ∧
    (∀ other, other ≠ device → devices w1 !! other = devices w !! other) ∧
    (∀ l', l' ≠ l → impl_devices w1 !! l' = impl_devices w !! l') ∧
    (∀ x, is_Some (glists w !! x) → x ∉ snapshot_heads d →
          glists w1 !! x = glists w !! x) ∧
    (∀ other d2 planes2 crtc type,
       other ≠ device →
       devices w !! other = Some d2 →
       list_at (planes d2) (glists w) = Some planes2 →
       (∀ x, planes d2 = Some x → x ∉ snapshot_heads d) →
       get_plane_with_type_for other crtc type w
       = Some (plane_scan crtc type planes2, w) ∧
       get_plane_with_type_for other crtc type w1
       = Some (plane_scan crtc type planes2, w1)).
Proof.
  intros Hctx Hb Hwf Hchg.
  pose proof (update_states_nonempty_run _ _ _ _ _ _ _ Hctx Hb Hwf Hchg)
    as Hrun.
  destruct Hb as (Hd & Himpl & Hi).
  apply snapshot_wf_heads in Hwf as ((Hv1 & Hv2 & Hv3) & H12 & H13 & H23).
  set (out := impl_update_states (impl_state i) crtc_id connector_id
                (kernel w)) in *.
  destruct (three_swaps_spec (glists w) _ _ _
              (meta_kms_impl_device_peek_crtcs out.1.2)
              (meta_kms_impl_device_peek_connectors out.1.2)
              (meta_kms_impl_device_peek_planes out.1.2)
              Hv1 Hv2 Hv3 H12 H13 H23) as (_ & _ & _ & Hkeep).
  assert (Hlists : ∀ x, is_Some (glists w !! x) → x ∉ snapshot_heads d →
            glists (refreshed_world device l d i out w) !! x
            = glists w !! x).
  { intros x Hx Hnot. rewrite elem_of_snapshot_heads in Hnot.
    apply Hkeep; [exact Hx|..]; intros E; apply Hnot; auto. }
  eexists _, _. split; [exact Hrun|].
  split; [intros other Hne; by apply lookup_insert_ne|].
  split; [intros l' Hne; by apply lookup_insert_ne|].
  split; [exact Hlists|].
  intros other d2 planes2 crtc type Hne Hd2 Hp2 Hown.
  split; [by apply get_plane_with_type_for_run with d2|].
  apply get_plane_with_type_for_run with d2.
  - cbn [devices refreshed_world]. by rewrite lookup_insert_ne.
  - destruct (planes d2) as [x|]; [|exact Hp2].
    cbn [list_at] in *. rewrite Hlists; [exact Hp2|by rewrite Hp2|by auto].
Qed.

(** ** Finalization *)

Lemma difference_union_singleton_fresh (l : loc) (X : gset loc) :
  l ∉ X → ({[l]} ∪ X) ∖ {[l]} = X.
Proof.
  intros Hl. apply set_eq. intros x.
  rewrite elem_of_difference, elem_of_union, !elem_of_singleton.
  split; [intros [[->|Hx] Hne]; done|].
  intros Hx. split; [by right|]. intros ->. done.
Qed.

Lemma unref_bound_device_run (w : World) device d l i :
  bound_to w device d l i →
  ref_count d = 1%nat →
  snapshot_wf (glists w) d →
  g_object_unref_device device w
  = Some (tt,
          mkWorld (mkKms false false) (delete device (devices w))
            (delete l (impl_devices w))
            (impl_registry w ∖ {[l]})
            (released (planes d)
               (released (connectors d) (released (crtcs d) (glists w))))
            (cells w) (kernel w) (attempts w) (warnings w)).
Proof.
  intros (Hd & Himpl & Hi) Href Hwf.
  apply snapshot_wf_heads in Hwf as ((Hv1 & Hv2 & Hv3) & H12 & H13 & H23).
  assert (Hv2' : is_Some (list_at (connectors d)
                            (released (crtcs d) (glists w)))).
  { destruct (connectors d) as [x|]; [|by eauto]. cbn [list_at] in *.
    rewrite released_lookup, decide_False; [exact Hv2|].
    destruct H12 as [?|?]; congruence. }
  assert (Hv3' : is_Some (list_at (planes d)
                            (released (connectors d)
                               (released (crtcs d) (glists w))))).
  { destruct (planes d) as [x|]; [|by eauto]. cbn [list_at] in *.
    rewrite !released_lookup, decide_False, decide_False; [exact Hv3|..].
    - destruct H13 as [?|?]; congruence.
    - destruct H23 as [?|?]; congruence. }
  unfold g_object_unref_device.
  rewrite (bind_run_some _ _ _ _ _ (load_run devices _ _ _ Hd)).
  rewrite Href, decide_True by reflexivity.
  unfold meta_kms_device_finalize.
  rewrite (bind_run_some _ _ _ _ _ (load_run devices _ _ _ Hd)).
  rewrite (bind_run_some _ _ _ _ _ (g_list_free_run _ _ Hv1)).
  erewrite bind_run_some; last first.
  { apply g_list_free_run. cbn [glists set_glists]. exact Hv2'. }
  erewrite bind_run_some; last first.
  { apply g_list_free_run. cbn [glists set_glists]. exact Hv3'. }
  rewrite Himpl.
  erewrite bind_run_some; last first.
  { erewrite bind_run_some; last first.
    { apply run_impl_task_sync_run. unfold free_impl_device_in_impl.
      erewrite bind_run_some; last first.
      { unfold g_object_unref_impl_device.
        erewrite bind_run_some; last first.
        { apply load_run. cbn [impl_devices set_glists set_kms]. exact Hi. }
        reflexivity. }
      reflexivity. }
    reflexivity. }
  reflexivity.
Qed.

(** X13: dropping the last reference of a device bound to a backend
    frees its three cached topology lists, releases the backend instance
    (gone from the impl context's store and registry) and the device
    object.  No other list is freed: every list that is not one of the
    three, the device's fallback-mode list among them, stays allocated. *)
Theorem finalize_frees_snapshot_and_backend (w : World) device d l i :
  bound_to w device d l i →
  ref_count d = 1%nat →
  snapshot_wf (glists w) d →
  ∃ w1,
    g_object_unref_device device w = Some (tt, w1) ∧
    devices w1 !! device = None ∧
    (∀ other, other ≠ device → devices w1 !! other = devices w !! other) ∧
    impl_devices w1 !! l = None ∧
    (l ∉ impl_registry w1) ∧
    (∀ x, x ∈ snapshot_heads d → glists w1 !! x = None) ∧
    (∀ x, x ∉ snapshot_heads d → glists w1 !! x = glists w !! x).
Proof.
  intros Hb Href Hwf.
  pose proof (unref_bound_device_run _ _ _ _ _ Hb Href Hwf) as Hrun.
  eexists. split; [exact Hrun|].
  cbn [devices impl_devices impl_registry glists].
  split; [apply lookup_delete_eq|].
  split; [intros other Hne; by apply lookup_delete_ne|].
  split; [apply lookup_delete_eq|].
  split.
  { intros Hin. apply elem_of_difference in Hin as [_ Hne].
    apply Hne. by apply elem_of_singleton. }
  split.
  - intros x Hx. rewrite elem_of_snapshot_heads in Hx.
    rewrite !released_lookup.
    repeat case_decide; try done. destruct Hx as [?|[?|?]]; done.
  - intros x Hx. rewrite elem_of_snapshot_heads in Hx.
    rewrite !released_lookup.
    repeat case_decide; try done; exfalso; apply Hx; auto.
Qed.

Lemma constructed_lists_lookup st (g : gmap loc (list gpointer)) flags l x :
  released (planes (constructed_device flags l st g))
    (released (connectors (constructed_device flags l st g))
       (released (crtcs (constructed_device flags l st g))
          (constructed_lists st g))) !! x
  = if decide (fallback_modes (constructed_device flags l st g) = Some x)
    then Some (meta_kms_impl_device_peek_fallback_modes st)
    else g !! x.
Proof.
  unfold constructed_device, constructed_lists.
  cbn [crtcs connectors planes fallback_modes].
  set (L1 := meta_kms_impl_device_peek_crtcs st).
  set (L2 := meta_kms_impl_device_peek_connectors st).
  set (L3 := meta_kms_impl_device_peek_planes st).
  set (L4 := meta_kms_impl_device_peek_fallback_modes st).
  set (g1 := linked L1 g). set (g2 := linked L2 g1).
  set (g3 := linked L3 g2).
  rewrite !released_lookup.
  pose proof (new_head_fresh L1 g x) as F1.
  pose proof (new_head_fresh L2 g1 x) as F2.
  pose proof (new_head_fresh L3 g2 x) as F3.
  pose proof (new_head_fresh L4 g3 x) as F4.
  pose proof (linked_lookup L1 g x) as E1.
  pose proof (linked_lookup L2 g1 x) as E2.
  pose proof (linked_lookup L3 g2 x) as E3.
  pose proof (linked_lookup L4 g3 x) as E4.
  fold g1 in E1, F2. fold g2 in E2, F3. fold g3 in E3, F4.
  destruct (decide (new_head L4 g3 = Some x)) as [N4|N4].
  - (* the fallback copy: allocated last, so none of the three *)
    specialize (F4 N4). rewrite F4 in E3.
    destruct (decide (new_head L3 g2 = Some x)) as [N3|N3]; [done|].
    rewrite <- E3 in E2.
    destruct (decide (new_head L2 g1 = Some x)) as [N2|N2]; [done|].
    rewrite <- E2 in E1.
    destruct (decide (new_head L1 g = Some x)) as [N1|N1]; [done|].
    exact E4.
  - destruct (decide (new_head L3 g2 = Some x)) as [N3|N3].
    { specialize (F3 N3). rewrite F3 in E2.
      destruct (decide (new_head L2 g1 = Some x)) as [N2|N2]; [done|].
      rewrite <- E2 in E1.
      destruct (decide (new_head L1 g = Some x)) as [N1|N1]; [done|].
      by rewrite <- E1. }
    destruct (decide (new_head L2 g1 = Some x)) as [N2|N2].
    { specialize (F2 N2). rewrite F2 in E1.
      destruct (decide (new_head L1 g = Some x)) as [N1|N1]; [done|].
      by rewrite <- E1. }
    destruct (decide (new_head L1 g = Some x)) as [N1|N1].
    { by rewrite (F1 N1). }
    by rewrite E4, E3, E2, E1.
Qed.

(** X14: constructing a device and dropping its only reference gives
    back the device store and the backend store of before the call (and the
    registry, when every registered backend was live), and frees the copies
    of the CRTC, connector and plane lists.  The copy of the backend's
    fallback-mode list is not freed by [meta_kms_device_finalize]: it is the
    one list the heap has gained. *)
Theorem construct_then_unref_leaks_fallback_modes
    path flags (w : World) device error w1 :
  meta_kms_device_new path flags w = Some ((Some device, error), w1) →
  ∃ d l i w2,
    bound_to w1 device d l i ∧
    g_object_unref_device device w1 = Some (tt, w2) ∧
    devices w2 = devices w ∧
    impl_devices w2 = impl_devices w ∧
    (registry_live w → impl_registry w2 = impl_registry w) ∧
    (∀ x, glists w2 !! x
          = if decide (fallback_modes d = Some x)
            then Some (meta_kms_impl_device_peek_fallback_modes
                         (impl_state i))
            else glists w !! x) ∧
    (∀ x, fallback_modes d = Some x → glists w !! x = None) ∧
    (meta_kms_impl_device_peek_fallback_modes (impl_state i) = [] →
     glists w2 = glists w).
Proof.
  intros Hnew.
  destruct (new_success_inv _ _ _ _ _ _ Hnew)
    as (ty & st & _ & -> & -> & ->).
  set (device := fresh (dom (devices w))).
  set (l := fresh (dom (impl_devices w))).
  set (d := constructed_device flags l st (glists w)).
  set (w1 := mkWorld _ _ _ _ _ _ _ _ _).
  assert (Hb : bound_to w1 device d l (mkImplDevice ty device st)).
  { split; [apply lookup_insert_eq|]. split; [reflexivity|].
    apply lookup_insert_eq. }
  destruct (constructed_device_snapshot_wf flags l st (glists w))
    as (Hwf & _).
  pose proof (unref_bound_device_run w1 _ _ _ _ Hb eq_refl Hwf) as Hrun.
  assert (Hlook := constructed_lists_lookup st (glists w) flags l).
  fold d in Hlook.
  eexists d, l, _, _. split; [exact Hb|]. split; [exact Hrun|].
  cbn [devices impl_devices impl_registry glists impl_state w1].
  split; [apply delete_insert_id, fresh_device|].
  split; [apply delete_insert_id, not_elem_of_dom, is_fresh|].
  split.
  { intros Hlive. apply difference_union_singleton_fresh. intros Hx.
    destruct (Hlive _ Hx) as [v Hv].
    apply (is_fresh (dom (impl_devices w))). apply elem_of_dom. eauto. }
  split; [exact Hlook|].
  split.
  { intros x Hx. unfold d, constructed_device in Hx.
    cbn [fallback_modes] in Hx. apply new_head_fresh in Hx.
    destruct (glists w !! x) as [v|] eqn:Hv; [|done].
    exfalso.
    assert (H1 : is_Some (glists w !! x)) by eauto.
    pose proof (linked_keeps (meta_kms_impl_device_peek_crtcs st) _ x H1)
      as K1.
    assert (H2 : is_Some (linked (meta_kms_impl_device_peek_crtcs st)
                            (glists w) !! x)) by (by rewrite K1).
    pose proof (linked_keeps (meta_kms_impl_device_peek_connectors st) _ x
                  H2) as K2.
    assert (H3 : is_Some
              (linked (meta_kms_impl_device_peek_connectors st)
                 (linked (meta_kms_impl_device_peek_crtcs st) (glists w))
               !! x)) by (by rewrite K2).
    pose proof (linked_keeps (meta_kms_impl_device_peek_planes st) _ x H3)
      as K3.
    rewrite K3, K2, K1, Hv in Hx. discriminate Hx. }
  intros Hempty. apply map_eq. intros x. rewrite Hlook.
  destruct (decide (fallback_modes d = Some x)) as [E|]; [|done].
  unfold d, constructed_device in E. cbn [fallback_modes] in E.
  rewrite Hempty in E. discriminate E.
Qed.

(** ** What the dispatched operations leave alone *)

Lemma process_update_sync_run (w : World) device upd flags d l i :
  is_Some (devices w !! device) →
  bound_to w (meta_kms_update_get_device upd) d l i →
  meta_kms_device_process_update_sync device upd flags w
  = Some (Some (impl_process_update (impl_state i) upd flags
                  (kernel w)).1.1,
          set_kms (mkKms false false)
            (set_kernel
               (impl_process_update (impl_state i) upd flags (kernel w)).2
               (set_impl_devices
                  (<[l := mkImplDevice (impl_type i) (impl_owner i)
                            (impl_process_update (impl_state i) upd flags
                               (kernel w)).1.2]> (impl_devices w))
                  (set_kms (mkKms true true) w)))).
Proof.
  intros [d0 Hd0] (Hd & Himpl & Hi).
  unfold meta_kms_device_process_update_sync, meta_kms_device_get_kms.
  rewrite (bind_run_some _ _ _ _ _ (get_field_run _ _ (λ _, tt) _ Hd0)).
  erewrite bind_run_some; last first.
  { apply run_impl_task_sync_run. unfold process_update_in_impl.
    cbn [update update_flags].
    rewrite get_impl_device_then. cbn [devices set_kms]. rewrite Hd, Himpl.
    unfold meta_kms_impl_device_process_update.
    erewrite bind_run_some; last first.
    { apply call_impl_run. exact Hi. }
    reflexivity. }
  reflexivity.
Qed.

(** X15: [meta_kms_device_process_update_sync] has the update processed
    by the backend of the device the update names, which need not be the
    device passed as first argument: that backend's state and the kernel
    state are what the backend's [process_update] returned, every other
    backend is untouched, and so are all device objects and cached lists. *)
Theorem process_update_runs_on_update_device
    (w : World) device upd flags d l i :
  is_Some (devices w !! device) →
  bound_to w (meta_kms_update_get_device upd) d l i →
  ∃ w1 i1,
    meta_kms_device_process_update_sync device upd flags w
    = Some (Some (impl_process_update (impl_state i) upd flags
                    (kernel w)).1.1, w1) ∧
    impl_devices w1 !! l = Some i1 ∧
    impl_state i1
    = (impl_process_update (impl_state i) upd flags (kernel w)).1.2 ∧
    impl_type i1 = impl_type i ∧
    kernel w1
    = (impl_process_update (impl_state i) upd flags (kernel w)).2 ∧
    (∀ l', l' ≠ l → impl_devices w1 !! l' = impl_devices w !! l') ∧
    devices w1 = devices w ∧ glists w1 = glists w ∧
    impl_registry w1 = impl_registry w ∧ warnings w1 = warnings w.
Proof.
  intros Hdev Hb.
  pose proof (process_update_sync_run _ _ _ flags _ _ _ Hdev Hb) as Hrun.
  eexists _, _. split; [exact Hrun|].
  cbn [impl_devices kernel devices glists impl_registry warnings set_kms
       set_kernel set_impl_devices].
  split; [apply lookup_insert_eq|].
  split; [reflexivity|]. split; [reflexivity|]. split; [reflexivity|].
  split; [intros l' Hne; by apply lookup_insert_ne|].
  split; [reflexivity|]. split; [reflexivity|]. split; reflexivity.
Qed.

(** X16: [meta_kms_device_disable] changes the state of the device's
    backend and the kernel state and nothing else: all device objects,
    cached lists, other backends, the registry and the logs are as before,
    so plane lookups on the disabled device return what they returned
    before. *)
Theorem disable_keeps_cached_topology (w : World) device d l i :
  in_impl_task (kms w) = false →
  bound_to w device d l i →
  ∃ w1,
    meta_kms_device_disable device w = Some (tt, w1) ∧
    devices w1 = devices w ∧ glists w1 = glists w ∧
    (∀ l', l' ≠ l → impl_devices w1 !! l' = impl_devices w !! l') ∧
    impl_registry w1 = impl_registry w ∧
    warnings w1 = warnings w ∧ attempts w1 = attempts w ∧
    (∀ crtc type planes0,
       list_at (planes d) (glists w) = Some planes0 →
       get_plane_with_type_for device crtc type w
       = Some (plane_scan crtc type planes0, w) ∧
       get_plane_with_type_for device crtc type w1
       = Some (plane_scan crtc type planes0, w1)).
Proof.
  intros Hout Hb.
  pose proof (disable_run _ _ _ _ _ Hout Hb) as Hrun.
  destruct Hb as (Hd & _ & _).
  eexists. split; [exact Hrun|].
  cbn [impl_devices kernel devices glists impl_registry warnings attempts
       set_kms set_kernel set_impl_devices].
  split; [reflexivity|]. split; [reflexivity|].
  split; [intros l' Hne; by apply lookup_insert_ne|].
  split; [reflexivity|]. split; [reflexivity|]. split; [reflexivity|].
  intros crtc type planes0 Hp.
  split; by apply get_plane_with_type_for_run with d.
Qed.

End EntryPoints.

(** * The width-limiting column: properties *)

Section Column.

#[local] Existing Instance Hdy.H_ret.
#[local] Existing Instance Hdy.H_bind.

Lemma hbind_run {A B} (m : Hdy.H A) (f : A → Hdy.H B) (s : Hdy.State) :
  (m ≫= f) s = match m s with Some (a, s1) => f a s1 | None => None end.
Proof. reflexivity. Qed.

Lemma hbind_run_some {A B} (m : Hdy.H A) (f : A → Hdy.H B) s s1 a :
  m s = Some (a, s1) → (m ≫= f) s = f a s1.
Proof. intros Hm. rewrite hbind_run, Hm. reflexivity. Qed.

Lemma store_gint_run p v (s : Hdy.State) :
  is_Some (Hdy.gints s !! p) →
  Hdy.store_gint p v s
  = Some (tt, Hdy.set_gints (<[p := v]> (Hdy.gints s)) s).
Proof. intros [old Hp]. unfold Hdy.store_gint. by rewrite Hp. Qed.

Lemma load_gint_run p v (s : Hdy.State) :
  Hdy.gints s !! p = Some v → Hdy.load_in Hdy.gints p s = Some (v, s).
Proof. intros Hp. unfold Hdy.load_in. by rewrite Hp. Qed.

Lemma is_column_run self c (s : Hdy.State) :
  Hdy.columns s !! self = Some c →
  Hdy.HDY_IS_COLUMN (Some self) s = Some (true, s).
Proof.
  intros Hc. unfold Hdy.HDY_IS_COLUMN.
  rewrite bool_decide_eq_true_2 by eauto. reflexivity.
Qed.

Lemma get_maximum_width_run self c (s : Hdy.State) :
  Hdy.columns s !! self = Some c →
  Hdy.hdy_column_get_maximum_width (Some self) s
  = Some (Hdy.maximum_width c, s).
Proof.
  intros Hc. unfold Hdy.hdy_column_get_maximum_width.
  rewrite (hbind_run_some _ _ _ _ _ (is_column_run _ _ _ Hc)).
  cbn [negb]. rewrite hbind_run. unfold Hdy.load_in. rewrite Hc.
  reflexivity.
Qed.

Lemma set_maximum_width_run self c v (s : Hdy.State) :
  Hdy.columns s !! self = Some c →
  Hdy.hdy_column_set_maximum_width (Some self) v s
  = Some (tt, Hdy.set_columns
                (<[self := Hdy.mkColumn (Hdy.child c) v]> (Hdy.columns s))
                s).
Proof.
  intros Hc. unfold Hdy.hdy_column_set_maximum_width.
  rewrite (hbind_run_some _ _ _ _ _ (is_column_run _ _ _ Hc)).
  cbn [negb]. unfold Hdy.store_maximum_width. rewrite Hc. reflexivity.
Qed.

(** X17: on a live column, storing a width through the [maximum-width]
    property and reading the property back yields that width; the store
    logs nothing and keeps the child, while the read, whose [case] falls
    through into [default], also logs the invalid-property-id warning for
    [PROP_MAXIMUM_WIDTH]. *)
Theorem hdy_property_round_trip
    (s : Hdy.State) self c value_in value_out v :
  Hdy.columns s !! self = Some c →
  Hdy.gints s !! value_in = Some v →
  is_Some (Hdy.gints s !! value_out) →
  ∃ s1 s2,
    Hdy.hdy_column_set_property (Some self) Hdy.PROP_MAXIMUM_WIDTH value_in s
    = Some (tt, s1) ∧
    Hdy.log s1 = Hdy.log s ∧
    Hdy.columns s1 !! self = Some (Hdy.mkColumn (Hdy.child c) v) ∧
    Hdy.hdy_column_get_property (Some self) Hdy.PROP_MAXIMUM_WIDTH
      value_out s1 = Some (tt, s2) ∧
    Hdy.gints s2 !! value_out = Some v ∧
    Hdy.columns s2 = Hdy.columns s1 ∧
    Hdy.log s2
    = Hdy.log s ++ [Hdy.WARNING_invalid_property_id Hdy.PROP_MAXIMUM_WIDTH].
Proof.
  intros Hc Hin Hout.
  set (s1 := Hdy.set_columns
               (<[self := Hdy.mkColumn (Hdy.child c) v]> (Hdy.columns s)) s).
  assert (Hc1 : Hdy.columns s1 !! self = Some (Hdy.mkColumn (Hdy.child c) v))
    by apply lookup_insert_eq.
  exists s1,
    (Hdy.set_log
       (Hdy.log s ++ [Hdy.WARNING_invalid_property_id Hdy.PROP_MAXIMUM_WIDTH])
       (Hdy.set_gints (<[value_out := v]> (Hdy.gints s)) s1)).
  split.
  { unfold Hdy.hdy_column_set_property.
    rewrite decide_True by reflexivity.
    unfold Hdy.g_value_get_int.
    rewrite (hbind_run_some _ _ _ _ _ (load_gint_run _ _ _ Hin)).
    by apply set_maximum_width_run. }
  split; [reflexivity|]. split; [exact Hc1|].
  split.
  { unfold Hdy.hdy_column_get_property.
    rewrite decide_True by reflexivity.
    rewrite (hbind_run_some _ _ _ _ _ (get_maximum_width_run _ _ _ Hc1)).
    unfold Hdy.g_value_set_int.
    erewrite hbind_run_some; last first.
    { apply store_gint_run. exact Hout. }
    reflexivity. }
  split; [apply lookup_insert_eq|]. split; reflexivity.
Qed.

(** What the column asks for: its visible child's request, nothing
    without one. *)
Lemma child_is_visible_run (s : Hdy.State) ch :
  (∀ x, ch = Some x → is_Some (Hdy.widgets s !! x)) →
  Hdy.child_is_visible ch s
  = Some (match ch with
          | Some x =>
              match Hdy.widgets s !! x with
              | Some wd => Hdy.visible wd
              | None => false
              end
          | None => false
          end, s).
Proof.
  intros Hlive. destruct ch as [x|]; [|reflexivity].
  destruct (Hlive x eq_refl) as [wd Hwd].
  unfold Hdy.child_is_visible, Hdy.gtk_widget_get_visible.
  rewrite hbind_run. unfold Hdy.load_in. rewrite Hwd. reflexivity.
Qed.

Lemma gtk_bin_get_child_run widget c (s : Hdy.State) :
  Hdy.columns s !! widget = Some c →
  Hdy.gtk_bin_get_child widget s = Some (Hdy.child c, s).
Proof.
  intros Hc. unfold Hdy.gtk_bin_get_child. rewrite hbind_run.
  unfold Hdy.load_in. rewrite Hc. reflexivity.
Qed.

Lemma set_gints_same (s : Hdy.State) p v :
  Hdy.gints s !! p = Some v →
  Hdy.set_gints (<[p := v]> (Hdy.gints s)) s = s.
Proof. intros Hp. rewrite insert_id by exact Hp. by destruct s. Qed.

(** The closing [*minimum = (gdouble) *minimum; *natural = (gdouble)
    *natural;] leaves both cells as they are. *)
Lemma reassign_both_run minimum natural a b (s : Hdy.State) :
  Hdy.gints s !! minimum = Some a →
  Hdy.gints s !! natural = Some b →
  (Hdy.load_in Hdy.gints minimum ≫= λ m,
   Hdy.store_gint minimum m ≫= λ _,
   Hdy.load_in Hdy.gints natural ≫= λ n, Hdy.store_gint natural n) s
  = Some (tt, s).
Proof.
  intros Hmin Hnat.
  rewrite (hbind_run_some _ _ _ _ _ (load_gint_run _ _ _ Hmin)).
  erewrite hbind_run_some; last first.
  { rewrite store_gint_run by eauto.
    rewrite set_gints_same by exact Hmin. reflexivity. }
  rewrite (hbind_run_some _ _ _ _ _ (load_gint_run _ _ _ Hnat)).
  rewrite store_gint_run by eauto.
  by rewrite set_gints_same.
Qed.

Lemma store_gint_if_run p v (s : Hdy.State) :
  (∀ l, p = Some l → is_Some (Hdy.gints s !! l)) →
  Hdy.store_gint_if p v s
  = Some (tt, Hdy.set_gints (Hdy.put_if p v (Hdy.gints s)) s).
Proof.
  intros Hp. destruct p as [l|]; simpl.
  - apply store_gint_run. by apply Hp.
  - by destruct s.
Qed.

Lemma visible_child_cases (s : Hdy.State) c :
  Hdy.child_live s c →
  (∃ x wd, Hdy.child c = Some x ∧ Hdy.widgets s !! x = Some wd ∧
           Hdy.visible wd = true ∧ Hdy.visible_child s c = Some wd) ∨
  (Hdy.visible_child s c = None ∧
   match Hdy.child c with
   | Some x =>
       match Hdy.widgets s !! x with
       | Some wd => Hdy.visible wd
       | None => false
       end
   | None => false
   end = false).
Proof.
  intros Hlive. unfold Hdy.visible_child.
  destruct (Hdy.child c) as [x|] eqn:Hx; [|by right].
  destruct (Hlive x Hx) as [wd Hwd]. rewrite Hwd.
  destruct (Hdy.visible wd) eqn:Hv; [left|right]; eauto 10.
Qed.

(** X18: [hdy_column_get_preferred_width] reports the minimum and
    natural width of the column's child when it has a visible one, and 0
    and 0 otherwise; [maximum_width] plays no part in the request, and
    nothing but the two out-cells is written. *)
Theorem hdy_preferred_width_is_childs
    (s : Hdy.State) widget c minimum natural :
  Hdy.columns s !! widget = Some c →
  Hdy.child_live s c →
  minimum ≠ natural →
  is_Some (Hdy.gints s !! minimum) →
  is_Some (Hdy.gints s !! natural) →
  ∃ s1,
    Hdy.hdy_column_get_preferred_width widget minimum natural s
    = Some (tt, s1) ∧
    Hdy.gints s1 !! minimum = Some (Hdy.width_request s c).1 ∧
    Hdy.gints s1 !! natural = Some (Hdy.width_request s c).2 ∧
    (∀ p, p ≠ minimum → p ≠ natural →
          Hdy.gints s1 !! p = Hdy.gints s !! p) ∧
    Hdy.columns s1 = Hdy.columns s ∧ Hdy.widgets s1 = Hdy.widgets s ∧
    Hdy.log s1 = Hdy.log s.
Proof.
  intros Hc Hlive Hne Hmin Hnat.
  set (g2 := <[natural := 0%Z]> (<[minimum := 0%Z]> (Hdy.gints s))).
  assert (Hnat1 : is_Some (<[minimum := 0%Z]> (Hdy.gints s) !! natural))
    by (by rewrite lookup_insert_ne).
  assert (Hstart : ∀ {A} (k : Hdy.H A),
    (Hdy.store_gint minimum 0 ≫= λ _, Hdy.store_gint natural 0 ≫= λ _, k) s
    = k (Hdy.set_gints g2 s)).
  { intros A k.
    rewrite (hbind_run_some _ _ _ _ _ (store_gint_run _ _ _ Hmin)).
    erewrite hbind_run_some; last first.
    { apply store_gint_run. exact Hnat1. }
    reflexivity. }
  unfold Hdy.hdy_column_get_preferred_width. rewrite Hstart.
  erewrite hbind_run_some; last first.
  { apply gtk_bin_get_child_run. exact Hc. }
  erewrite hbind_run_some; last first.
  { apply child_is_visible_run. exact Hlive. }
  unfold Hdy.width_request.
  destruct (visible_child_cases s c Hlive)
    as [(x & wd & Hx & Hwd & Hvis & ->)|[-> Hno]].
  - (* a visible child answers *)
    rewrite Hx. cbn [Hdy.widgets Hdy.set_gints]. rewrite Hwd, Hvis.
    set (g4 := <[natural := (Hdy.preferred_width wd).2]>
                 (<[minimum := (Hdy.preferred_width wd).1]> g2)).
    erewrite hbind_run_some with (s1 := Hdy.set_gints g4 s); last first.
    { unfold Hdy.gtk_widget_get_preferred_width.
      rewrite hbind_run. unfold Hdy.load_in.
      cbn [Hdy.widgets Hdy.set_gints]. rewrite Hwd.
      erewrite hbind_run_some; last first.
      { apply store_gint_run. cbn [Hdy.gints Hdy.set_gints]. unfold g2.
        rewrite lookup_insert_ne by done. rewrite lookup_insert_eq. eauto. }
      rewrite store_gint_run; [reflexivity|].
      cbn [Hdy.gints Hdy.set_gints].
      rewrite lookup_insert_ne by done. unfold g2.
      rewrite lookup_insert_eq. eauto. }
    assert (G4min : g4 !! minimum = Some (Hdy.preferred_width wd).1).
    { unfold g4. rewrite lookup_insert_ne by done. apply lookup_insert_eq. }
    assert (G4nat : g4 !! natural = Some (Hdy.preferred_width wd).2)
      by apply lookup_insert_eq.
    rewrite (reassign_both_run minimum natural _ _ (Hdy.set_gints g4 s)
               G4min G4nat).
    eexists. split; [reflexivity|].
    cbn [Hdy.gints Hdy.columns Hdy.widgets Hdy.log Hdy.set_gints].
    split; [exact G4min|]. split; [exact G4nat|].
    split; [|by auto].
    intros p P1 P2. unfold g4, g2. by rewrite !lookup_insert_ne.
  - (* nobody to ask *)
    assert (G2min : g2 !! minimum = Some 0%Z).
    { unfold g2. rewrite lookup_insert_ne by done. apply lookup_insert_eq. }
    assert (G2nat : g2 !! natural = Some 0%Z) by apply lookup_insert_eq.
    cbn [Hdy.widgets Hdy.set_gints]. rewrite Hno.
    erewrite hbind_run_some with (s1 := Hdy.set_gints g2 s) (a := tt);
      last first.
    { by destruct (Hdy.child c). }
    rewrite (reassign_both_run minimum natural _ _ (Hdy.set_gints g2 s)
               G2min G2nat).
    eexists. split; [reflexivity|].
    cbn [Hdy.gints Hdy.columns Hdy.widgets Hdy.log Hdy.set_gints fst snd].
    split; [exact G2min|]. split; [exact G2nat|].
    split; [|by auto].
    intros p P1 P2. unfold g2. by rewrite !lookup_insert_ne.
Qed.

Lemma height_written_lookup minimum natural mb nb r (g : gmap loc Z) :
  NoDup (Hdy.height_cells minimum natural mb nb) →
  Hdy.height_written minimum natural mb nb r g !! minimum = Some r.1.1 ∧
  Hdy.height_written minimum natural mb nb r g !! natural = Some r.1.2 ∧
  (∀ l, mb = Some l →
        Hdy.height_written minimum natural mb nb r g !! l = Some r.2.1) ∧
  (∀ l, nb = Some l →
        Hdy.height_written minimum natural mb nb r g !! l = Some r.2.2) ∧
  (∀ p, p ∉ Hdy.height_cells minimum natural mb nb →
        Hdy.height_written minimum natural mb nb r g !! p = g !! p).
Proof.
  unfold Hdy.height_cells, Hdy.height_written, Hdy.put_if.
  destruct mb as [a|], nb as [b|]; simpl;
    rewrite ?NoDup_cons, ?not_elem_of_cons, ?elem_of_nil;
    intros Hnd;
    (split; [|split; [|split; [|split]]]);
    try (intros l [= <-]); try (intros l [=]);
    try (intros p Hp; rewrite ?not_elem_of_cons in Hp);
    rewrite ?lookup_insert_eq;
    repeat (rewrite lookup_insert_ne by (intros ->; intuition congruence));
    rewrite ?lookup_insert_eq; try reflexivity.
Qed.

Lemma height_written_valid minimum natural mb nb r (g : gmap loc Z) p :
  is_Some (g !! p) →
  is_Some (Hdy.height_written minimum natural mb nb r g !! p).
Proof.
  intros Hp. unfold Hdy.height_written, Hdy.put_if.
  destruct mb, nb; rewrite ?lookup_insert_is_Some'; auto 10.
Qed.

Lemma four_stores_run {A} (k : Hdy.H A) minimum natural mb nb r
    (s : Hdy.State) :
  (∀ p, p ∈ Hdy.height_cells minimum natural mb nb →
        is_Some (Hdy.gints s !! p)) →
  (Hdy.store_gint minimum r.1.1 ≫= λ _,
   Hdy.store_gint natural r.1.2 ≫= λ _,
   Hdy.store_gint_if mb r.2.1 ≫= λ _,
   Hdy.store_gint_if nb r.2.2 ≫= λ _, k) s
  = k (Hdy.set_gints
         (Hdy.height_written minimum natural mb nb r (Hdy.gints s)) s).
Proof.
  intros Hvalid. unfold Hdy.height_cells in Hvalid.
  assert (Hmin : is_Some (Hdy.gints s !! minimum))
    by (apply Hvalid; set_solver).
  assert (Hnat : is_Some (Hdy.gints s !! natural))
    by (apply Hvalid; set_solver).
  assert (Hmb : ∀ l, mb = Some l → is_Some (Hdy.gints s !! l)).
  { intros l ->. apply Hvalid. simpl. set_solver. }
  assert (Hnb : ∀ l, nb = Some l → is_Some (Hdy.gints s !! l)).
  { intros l ->. apply Hvalid. destruct mb; simpl; set_solver. }
  rewrite (hbind_run_some _ _ _ _ _ (store_gint_run _ _ _ Hmin)).
  erewrite hbind_run_some; last first.
  { apply store_gint_run. cbn [Hdy.gints Hdy.set_gints].
    rewrite lookup_insert_is_Some'. auto. }
  erewrite hbind_run_some; last first.
  { apply store_gint_if_run. cbn [Hdy.gints Hdy.set_gints].
    intros l Hl. rewrite !lookup_insert_is_Some'. auto. }
  erewrite hbind_run_some; last first.
  { apply store_gint_if_run. cbn [Hdy.gints Hdy.set_gints].
    intros l Hl. unfold Hdy.put_if. destruct mb;
      rewrite !lookup_insert_is_Some'; auto 10. }
  reflexivity.
Qed.

Lemma hbind_ext {A B} (m : Hdy.H A) (f g : A → Hdy.H B) (s : Hdy.State) :
  (∀ a s1, f a s1 = g a s1) → (m ≫= f) s = (m ≫= g) s.
Proof.
  intros Hfg. rewrite !hbind_run. destruct (m s) as [[a s1]|]; [|done].
  apply Hfg.
Qed.

Lemma hbind_end (m : Hdy.H unit) (s : Hdy.State) :
  (m ≫= λ _, mret tt) s = m s.
Proof. rewrite hbind_run. by destruct (m s) as [[[] s1]|]. Qed.

Lemma four_stores_end minimum natural mb nb r (s : Hdy.State) :
  (∀ p, p ∈ Hdy.height_cells minimum natural mb nb →
        is_Some (Hdy.gints s !! p)) →
  (Hdy.store_gint minimum r.1.1 ≫= λ _,
   Hdy.store_gint natural r.1.2 ≫= λ _,
   Hdy.store_gint_if mb r.2.1 ≫= λ _,
   Hdy.store_gint_if nb r.2.2) s
  = Some (tt,
          Hdy.set_gints
            (Hdy.height_written minimum natural mb nb r (Hdy.gints s)) s).
Proof.
  intros Hvalid.
  transitivity
    ((mret tt : Hdy.H unit)
       (Hdy.set_gints
          (Hdy.height_written minimum natural mb nb r (Hdy.gints s)) s));
    [|reflexivity].
  rewrite <- (four_stores_run (mret tt) minimum natural mb nb r s Hvalid).
  symmetry.
  apply hbind_ext; intros [] s1. apply hbind_ext; intros [] s2.
  apply hbind_ext; intros [] s3. apply hbind_end.
Qed.

Lemma height_for_width_run
    (s : Hdy.State) widget c width minimum natural mb nb :
  Hdy.columns s !! widget = Some c →
  Hdy.child_live s c →
  (∀ p, p ∈ Hdy.height_cells minimum natural mb nb →
        is_Some (Hdy.gints s !! p)) →
  Hdy.hdy_column_get_preferred_height_and_baseline_for_width widget width
    minimum natural mb nb s
  = Some (tt,
          Hdy.set_gints
            (match Hdy.visible_child s c with
             | Some wd =>
                 Hdy.height_written minimum natural mb nb
                   (Hdy.preferred_height_and_baseline_for_width wd width)
                   (Hdy.height_written minimum natural mb nb
                      ((0, 0), (-1, -1))%Z (Hdy.gints s))
             | None =>
                 Hdy.height_written minimum natural mb nb
                   ((0, 0), (-1, -1))%Z (Hdy.gints s)
             end) s).
Proof.
  intros Hc Hlive Hvalid.
  unfold Hdy.hdy_column_get_preferred_height_and_baseline_for_width.
  rewrite (four_stores_run _ minimum natural mb nb ((0, 0), (-1, -1))%Z s
             Hvalid).
  erewrite hbind_run_some; last first.
  { apply gtk_bin_get_child_run. exact Hc. }
  erewrite hbind_run_some; last first.
  { apply child_is_visible_run. exact Hlive. }
  cbn [Hdy.widgets Hdy.set_gints].
  destruct (visible_child_cases s c Hlive)
    as [(x & wd & Hx & Hwd & Hvis & ->)|[-> Hno]].
  - rewrite Hx, Hwd, Hvis.
    unfold Hdy.gtk_widget_get_preferred_height_and_baseline_for_width.
    rewrite hbind_run. unfold Hdy.load_in at 1.
    cbn [Hdy.widgets Hdy.set_gints]. rewrite Hwd.
    rewrite (four_stores_end minimum natural mb nb
               (Hdy.preferred_height_and_baseline_for_width wd width)).
    + reflexivity.
    + intros p Hp. cbn [Hdy.gints Hdy.set_gints].
      apply height_written_valid. by apply Hvalid.
  - rewrite Hno. by destruct (Hdy.child c).
Qed.

(** X19: [hdy_column_get_preferred_height_and_baseline_for_width]
    reports the heights and baselines its visible child gives for that
    width; without a visible child it reports heights 0 and baselines -1.
    A baseline is written only where the caller passed a cell for it, and
    no other cell is written. *)
Theorem hdy_preferred_height_and_baseline_is_childs
    (s : Hdy.State) widget c width minimum natural mb nb :
  Hdy.columns s !! widget = Some c →
  Hdy.child_live s c →
  NoDup (Hdy.height_cells minimum natural mb nb) →
  (∀ p, p ∈ Hdy.height_cells minimum natural mb nb →
        is_Some (Hdy.gints s !! p)) →
  ∃ s1,
    Hdy.hdy_column_get_preferred_height_and_baseline_for_width widget width
      minimum natural mb nb s = Some (tt, s1) ∧
    Hdy.gints s1 !! minimum = Some (Hdy.height_request s c width).1.1 ∧
    Hdy.gints s1 !! natural = Some (Hdy.height_request s c width).1.2 ∧
    (∀ l, mb = Some l →
          Hdy.gints s1 !! l = Some (Hdy.height_request s c width).2.1) ∧
    (∀ l, nb = Some l →
          Hdy.gints s1 !! l = Some (Hdy.height_request s c width).2.2) ∧
    (∀ p, p ∉ Hdy.height_cells minimum natural mb nb →
          Hdy.gints s1 !! p = Hdy.gints s !! p) ∧
    Hdy.columns s1 = Hdy.columns s ∧ Hdy.log s1 = Hdy.log s.
Proof.
  intros Hc Hlive Hnd Hvalid.
  eexists. split; [by apply height_for_width_run|].
  cbn [Hdy.gints Hdy.columns Hdy.log Hdy.set_gints].
  unfold Hdy.height_request.
  destruct (Hdy.visible_child s c) as [wd|].
  - destruct (height_written_lookup minimum natural mb nb
                (Hdy.preferred_height_and_baseline_for_width wd width)
                (Hdy.height_written minimum natural mb nb
                   ((0, 0), (-1, -1))%Z (Hdy.gints s)) Hnd)
      as (E1 & E2 & E3 & E4 & E5).
    destruct (height_written_lookup minimum natural mb nb
                ((0, 0), (-1, -1))%Z (Hdy.gints s) Hnd)
      as (_ & _ & _ & _ & F5).
    split; [exact E1|]. split; [exact E2|]. split; [exact E3|].
    split; [exact E4|]. split; [|by auto].
    intros p Hp. rewrite E5 by exact Hp. by apply F5.
  - destruct (height_written_lookup minimum natural mb nb
                ((0, 0), (-1, -1))%Z (Hdy.gints s) Hnd)
      as (E1 & E2 & E3 & E4 & E5).
    split; [exact E1|]. split; [exact E2|]. split; [exact E3|].
    split; [exact E4|]. split; [exact E5|]. by auto.
Qed.

(** X20: [hdy_column_get_preferred_height] is the height request for
    width -1 with no baseline asked for: it reports what the visible child
    gives for width -1 (0 and 0 without one) and writes the two out-cells
    only. *)
Theorem hdy_preferred_height_asks_for_any_width
    (s : Hdy.State) widget c minimum natural :
  Hdy.columns s !! widget = Some c →
  Hdy.child_live s c →
  minimum ≠ natural →
  is_Some (Hdy.gints s !! minimum) →
  is_Some (Hdy.gints s !! natural) →
  ∃ s1,
    Hdy.hdy_column_get_preferred_height widget minimum natural s
    = Some (tt, s1) ∧
    Hdy.gints s1 !! minimum = Some (Hdy.height_request s c (-1)).1.1 ∧
    Hdy.gints s1 !! natural = Some (Hdy.height_request s c (-1)).1.2 ∧
    (∀ p, p ≠ minimum → p ≠ natural →
          Hdy.gints s1 !! p = Hdy.gints s !! p) ∧
    Hdy.columns s1 = Hdy.columns s ∧ Hdy.log s1 = Hdy.log s.
Proof.
  intros Hc Hlive Hne Hmin Hnat.
  assert (Hnd : NoDup (Hdy.height_cells minimum natural None None)).
  { unfold Hdy.height_cells. simpl.
    apply NoDup_cons_2; [|apply NoDup_singleton].
    rewrite not_elem_of_cons. split; [exact Hne|apply not_elem_of_nil]. }
  assert (Hvalid : ∀ p, p ∈ Hdy.height_cells minimum natural None None →
                        is_Some (Hdy.gints s !! p)).
  { intros p Hp. unfold Hdy.height_cells in Hp. simpl in Hp.
    rewrite !elem_of_cons, elem_of_nil in Hp.
    destruct Hp as [->|[->|[]]]; assumption. }
  eexists. split.
  { unfold Hdy.hdy_column_get_preferred_height.
    by apply height_for_width_run. }
  cbn [Hdy.gints Hdy.columns Hdy.log Hdy.set_gints].
  unfold Hdy.height_request.
  assert (Hout : ∀ p, p ≠ minimum → p ≠ natural →
                      p ∉ Hdy.height_cells minimum natural None None).
  { intros p P1 P2. unfold Hdy.height_cells. simpl.
    rewrite !not_elem_of_cons, elem_of_nil. tauto. }
  destruct (Hdy.visible_child s c) as [wd|].
  - destruct (height_written_lookup minimum natural None None
                (Hdy.preferred_height_and_baseline_for_width wd (-1))
                (Hdy.height_written minimum natural None None
                   ((0, 0), (-1, -1))%Z (Hdy.gints s)) Hnd)
      as (E1 & E2 & _ & _ & E5).
    destruct (height_written_lookup minimum natural None None
                ((0, 0), (-1, -1))%Z (Hdy.gints s) Hnd)
      as (_ & _ & _ & _ & F5).
    split; [exact E1|]. split; [exact E2|]. split; [|by auto].
    intros p P1 P2. rewrite E5 by auto. by apply F5; auto.
  - destruct (height_written_lookup minimum natural None None
                ((0, 0), (-1, -1))%Z (Hdy.gints s) Hnd)
      as (E1 & E2 & _ & _ & E5).
    split; [exact E1|]. split; [exact E2|]. split; [|by auto].
    intros p P1 P2. apply E5. auto.
Qed.

(** X21: handed something that is no column ([NULL], or another widget),
    [hdy_column_get_maximum_width] answers 0 and
    [hdy_column_set_maximum_width] stores nothing; each logs the critical
    of its failed check and nothing else changes. *)
Theorem hdy_accessors_reject_non_columns (s : Hdy.State) self v :
  (∀ l, self = Some l → Hdy.columns s !! l = None) →
  Hdy.hdy_column_get_maximum_width self s
  = Some (0%Z,
          Hdy.set_log
            (Hdy.log s
             ++ [Hdy.CRITICAL_check_failed "hdy_column_get_maximum_width"])
            s) ∧
  Hdy.hdy_column_set_maximum_width self v s
  = Some (tt,
          Hdy.set_log
            (Hdy.log s
             ++ [Hdy.CRITICAL_check_failed "hdy_column_set_maximum_width"])
            s).
Proof.
  intros Hno.
  assert (Hcheck : Hdy.HDY_IS_COLUMN self s = Some (false, s)).
  { unfold Hdy.HDY_IS_COLUMN. destruct self as [l|]; [|reflexivity].
    rewrite (Hno l eq_refl). rewrite bool_decide_eq_false_2; [reflexivity|].
    intros [x Hx]. discriminate Hx. }
  split.
  - unfold Hdy.hdy_column_get_maximum_width.
    rewrite (hbind_run_some _ _ _ _ _ Hcheck). reflexivity.
  - unfold Hdy.hdy_column_set_maximum_width.
    rewrite (hbind_run_some _ _ _ _ _ Hcheck). reflexivity.
Qed.

End Column.

(** * The remaining entry points on the fixture *)

Lemma fixture_in_impl_context : @in_impl_context fixture_env fixture_world_in_impl.
Proof. split; reflexivity. Qed.

Lemma fixture_snapshot_wf_outside :
  @snapshot_wf (glists fixture_world) fixture_device.
Proof.
  split.
  - apply (bool_decide_unpack _). vm_compute. exact I.
  - apply Forall_forall. apply (bool_decide_unpack _). vm_compute. exact I.
Qed.

(** CRTC 42 is the second CRTC of the fixture backend. *)
Lemma find_crtc_witness :
  ∃ r,
    @meta_kms_device_find_crtc_in_impl fixture_env 1%positive 42
      fixture_world_in_impl = Some (r, fixture_world_in_impl) ∧
    @first_with_id Z.pos 42 [41%positive; 42%positive] r.
Proof.
  exact (@find_crtc_in_impl_first_with_id fixture_env fixture_world_in_impl
           1%positive fixture_device 1%positive fixture_impl_device 42
           fixture_in_impl_context fixture_world_in_impl_bound).
Defined.

(** No connector has id 7. *)
Lemma find_connector_witness :
  ∃ r,
    @meta_kms_device_find_connector_in_impl fixture_env 1%positive 7
      fixture_world_in_impl = Some (r, fixture_world_in_impl) ∧
    @first_with_id Z.pos 7 [51%positive] r.
Proof.
  exact (@find_connector_in_impl_first_with_id fixture_env
           fixture_world_in_impl 1%positive fixture_device 1%positive
           fixture_impl_device 7
           fixture_in_impl_context fixture_world_in_impl_bound).
Defined.

Lemma context_assertions_witness :
  @meta_kms_device_find_crtc_in_impl fixture_env 1%positive 42 fixture_world
  = None ∧
  @meta_kms_device_disable fixture_env 1%positive fixture_world_in_impl
  = None.
Proof.
  destruct (@context_assertions_trip fixture_env fixture_world 1%positive)
    as [Hout _].
  destruct (@context_assertions_trip fixture_env fixture_world_in_impl
              1%positive) as [_ Hin].
  split.
  - apply (Hout eq_refl).
  - apply (Hin eq_refl).
Defined.

(** The fixture backend makes up plane 35, which goes behind plane 33. *)
Lemma add_fake_plane_witness :
  ∃ w1 d1,
    @meta_kms_device_add_fake_plane_in_impl fixture_env 1%positive
      META_KMS_PLANE_TYPE_CURSOR 41%positive fixture_world_in_impl
    = Some (tt, w1) ∧
    devices w1 !! 1%positive = Some d1 ∧
    list_at (planes d1) (glists w1)
    = Some [34%positive; 31%positive; 32%positive; 33%positive;
            35%positive].
Proof.
  destruct (@add_fake_plane_appends_to_snapshot fixture_env
              fixture_world_in_impl 1%positive fixture_device 1%positive
              fixture_impl_device META_KMS_PLANE_TYPE_CURSOR 41%positive
              fixture_planes)
    as (w1 & d1 & i1 & Hrun & (Hd1 & _) & _ & Hplanes & _).
  - reflexivity.
  - exact fixture_world_in_impl_bound.
  - exact fixture_snapshot_wf.
  - vm_compute. reflexivity.
  - exists w1, d1. split; [exact Hrun|]. split; [exact Hd1|]. exact Hplanes.
Defined.

(** The cursor plane of CRTC 41 is plane 32 before and after. *)
Lemma fake_plane_witness :
  ∃ w1,
    @meta_kms_device_add_fake_plane_in_impl fixture_env 1%positive
      META_KMS_PLANE_TYPE_CURSOR 41%positive fixture_world_in_impl
    = Some (tt, w1) ∧
    @get_plane_with_type_for fixture_env 1%positive 41%positive
      META_KMS_PLANE_TYPE_CURSOR w1 = Some (Some 32%positive, w1).
Proof.
  destruct (@fake_plane_is_found_last fixture_env
              fixture_world_in_impl 1%positive fixture_device 1%positive
              fixture_impl_device META_KMS_PLANE_TYPE_CURSOR 41%positive
              fixture_planes 41%positive META_KMS_PLANE_TYPE_CURSOR)
    as (w1 & before & after & Hrun & Hbefore & Hafter & Hsame & _).
  - reflexivity.
  - exact fixture_world_in_impl_bound.
  - vm_compute. reflexivity.
  - exists w1. split; [exact Hrun|].
    assert (before = Some 32%positive) as ->.
    { vm_compute in Hbefore. by injection Hbefore as <-. }
    rewrite Hafter, Hsame by eauto. reflexivity.
Defined.

Lemma fixture_construction :
  @meta_kms_device_new fixture_env "/dev/dri/by-path/pci-0000:00:02.0-card" 0
    (fixture_boot (mkFixtureKernel false true true))
  = Some ((Some 1%positive, None), fixture_world).
Proof. vm_compute. reflexivity. Qed.

Lemma constructed_device_getters_witness :
  @meta_kms_device_get_driver_name fixture_env 1%positive fixture_world
  = Some (Some "fixture", fixture_world) ∧
  @meta_kms_device_get_path fixture_env 1%positive fixture_world
  = Some (Some "/dev/dri/card0", fixture_world).
Proof.
  destruct (@constructed_device_getters fixture_env _ _ _ _ _ _
              fixture_construction)
    as (l & i & _ & _ & Hi & Hname & _ & Hpath & _).
  split; [exact Hname|exact Hpath].
Defined.

(** Atomic is refused, so the backend bound to device 1 is the legacy one. *)
Lemma adopted_backend_witness :
  ∃ l i,
    impl_devices fixture_world
    = <[l := i]> (impl_devices
                    (fixture_boot (mkFixtureKernel false true true))) ∧
    impl_owner i = 1%positive ∧
    impl_type i = META_TYPE_KMS_IMPL_DEVICE_SIMPLE.
Proof.
  destruct (@adopted_backend_is_last_attempted fixture_env _ _ _ _ _ _
              fixture_construction)
    as (l & i & _ & Himpls & Howner & _ & _ & Hclear).
  exists l, i. split; [exact Himpls|]. split; [exact Howner|].
  destruct (Hclear eq_refl) as [_ Hsimple].
  apply (Hsimple (mkGError META_KMS_ERROR 0 "Atomic mode setting disabled")
           (mkFixtureKernel false true true)).
  reflexivity.
Defined.

Lemma construction_caches_witness :
  ∃ d l i,
    @bound_to fixture_env fixture_world 1%positive d l i ∧
    snapshot_wf (glists fixture_world) d ∧
    list_at (planes d) (glists fixture_world)
    = Some [34%positive; 31%positive; 32%positive; 33%positive].
Proof.
  destruct (@construction_caches_backend_lists fixture_env _ _ _ _ _ _
              fixture_construction)
    as (d & l & i & Hb & Hwf & _ & _ & Hplanes & _).
  exists d, l, i. split; [exact Hb|]. split; [exact Hwf|]. exact Hplanes.
Defined.

Lemma constructed_device_plane_lookup_witness :
  ∃ r,
    @get_plane_with_type_for fixture_env 1%positive 42%positive
      META_KMS_PLANE_TYPE_PRIMARY fixture_world = Some (r, fixture_world) ∧
    @first_matching_plane fixture_env 42%positive META_KMS_PLANE_TYPE_PRIMARY
      [34%positive; 31%positive; 32%positive; 33%positive] r.
Proof.
  destruct (@constructed_device_plane_lookup fixture_env _ _ _ _ _ _
              fixture_construction) as (l & i & _ & _ & Hlookup).
  exact (Hlookup 42%positive META_KMS_PLANE_TYPE_PRIMARY).
Defined.

Lemma refreshed_plane_lookup_witness :
  ∃ changes w1,
    @meta_kms_device_update_states_in_impl fixture_env 1%positive 0 1
      fixture_world_in_impl = Some (changes, w1) ∧
    ∃ r,
      @get_plane_with_type_for fixture_env 1%positive 41%positive
        META_KMS_PLANE_TYPE_PRIMARY w1 = Some (r, w1) ∧
      @first_matching_plane fixture_env 41%positive
        META_KMS_PLANE_TYPE_PRIMARY
        [34%positive; 31%positive; 32%positive; 33%positive] r.
Proof.
  destruct (@refreshed_device_plane_lookup fixture_env
              fixture_world_in_impl 1%positive fixture_device 1%positive
              fixture_impl_device 0 1)
    as (changes & w1 & Hrun & Hlookup).
  - exact fixture_in_impl_context.
  - exact fixture_world_in_impl_bound.
  - exact fixture_snapshot_wf.
  - vm_compute. discriminate.
  - exists changes, w1. split; [exact Hrun|].
    exact (Hlookup 41%positive META_KMS_PLANE_TYPE_PRIMARY).
Defined.

Lemma fixture_two_devices_bound :
  @bound_to fixture_env fixture_two_devices_in_impl 1%positive fixture_device
    1%positive fixture_impl_device.
Proof. repeat split; vm_compute; reflexivity. Qed.

Lemma fixture_two_devices_second_bound :
  @bound_to fixture_env fixture_two_devices 2%positive fixture_second_device
    2%positive fixture_second_impl_device.
Proof. repeat split; vm_compute; reflexivity. Qed.

Lemma fixture_two_devices_snapshot_wf :
  @snapshot_wf (glists fixture_two_devices_in_impl) fixture_device.
Proof.
  split.
  - apply (bool_decide_unpack _). vm_compute. exact I.
  - apply Forall_forall. apply (bool_decide_unpack _). vm_compute. exact I.
Qed.

(** Device 1 is refreshed; device 2 and its plane list (list 5) stay. *)
Lemma refresh_other_devices_witness :
  ∃ changes w1,
    @meta_kms_device_update_states_in_impl fixture_env 1%positive 0 1
      fixture_two_devices_in_impl = Some (changes, w1) ∧
    devices w1 !! 2%positive = Some fixture_second_device ∧
    glists w1 !! 5%positive
    = Some [34%positive; 31%positive; 32%positive; 33%positive].
Proof.
  destruct (@refresh_leaves_other_devices fixture_env
              fixture_two_devices_in_impl 1%positive fixture_device
              1%positive fixture_impl_device 0 1)
    as (changes & w1 & Hrun & Hdevices & _ & Hlists & _).
  - split; reflexivity.
  - exact fixture_two_devices_bound.
  - exact fixture_two_devices_snapshot_wf.
  - vm_compute. discriminate.
  - exists changes, w1. split; [exact Hrun|]. split.
    + rewrite Hdevices by discriminate. vm_compute. reflexivity.
    + rewrite Hlists.
      * vm_compute. reflexivity.
      * vm_compute. eauto.
      * apply (bool_decide_unpack _). vm_compute. exact I.
Defined.

Lemma finalize_witness :
  ∃ w1,
    @g_object_unref_device fixture_env 1%positive fixture_world
    = Some (tt, w1) ∧
    devices w1 !! 1%positive = None ∧
    impl_devices w1 !! 1%positive = None ∧
    glists w1 !! 3%positive = None.
Proof.
  destruct (@finalize_frees_snapshot_and_backend fixture_env fixture_world
              1%positive fixture_device 1%positive fixture_impl_device)
    as (w1 & Hrun & Hdev & _ & Himpl & _ & Hfreed & _).
  - exact fixture_world_bound.
  - reflexivity.
  - exact fixture_snapshot_wf_outside.
  - exists w1. split; [exact Hrun|]. split; [exact Hdev|].
    split; [exact Himpl|].
    apply Hfreed. apply (bool_decide_unpack _). vm_compute. exact I.
Defined.

(** With a backend that reports fallback modes 61 and 62, creating the
    device on an empty heap and dropping it leaves the copy of these two
    modes behind. *)
Lemma construct_then_unref_witness :
  ∃ w1 w2,
    @meta_kms_device_new fixture_env_with_modes "/dev/dri/card0" 0
      (fixture_boot_with_modes (mkFixtureKernel true true true))
    = Some ((Some 1%positive, None), w1) ∧
    @g_object_unref_device fixture_env_with_modes 1%positive w1
    = Some (tt, w2) ∧
    devices w2 = ∅ ∧ impl_devices w2 = ∅ ∧
    glists w2 !! 4%positive = Some [61%positive; 62%positive].
Proof.
  set (w1 := world_after_new_with_modes).
  assert (Hnew : @meta_kms_device_new fixture_env_with_modes "/dev/dri/card0"
                   0 (fixture_boot_with_modes (mkFixtureKernel true true true))
                 = Some ((Some 1%positive, None), w1)).
  { vm_compute. reflexivity. }
  destruct (@construct_then_unref_leaks_fallback_modes fixture_env_with_modes
              _ _ _ _ _ _ Hnew)
    as (d & l & i & w2 & (Hd & _) & Hrun & Hdev & Himpl & _ & Hlists & _).
  exists w1, w2. split; [exact Hnew|]. split; [exact Hrun|].
  split; [exact Hdev|]. split; [exact Himpl|].
  rewrite Hlists.
  assert (fallback_modes d = Some 4%positive) as ->.
  { vm_compute in Hd. by injection Hd as <-. }
  rewrite decide_True by reflexivity. reflexivity.
Defined.

(** The call is made on device 1 with an update for device 2: the Dummy
    backend of device 2 processes it, the backend of device 1 is as it was. *)
Lemma process_update_other_device_witness :
  ∃ w1,
    @meta_kms_device_process_update_sync fixture_env 1%positive
      (2%positive, 7%Z) 0 fixture_two_devices = Some (Some (inl 7%Z), w1) ∧
    impl_devices w1 !! 1%positive
    = impl_devices fixture_two_devices !! 1%positive.
Proof.
  destruct (@process_update_runs_on_update_device fixture_env
              fixture_two_devices 1%positive (2%positive, 7%Z) 0
              fixture_second_device 2%positive fixture_second_impl_device)
    as (w1 & i1 & Hrun & _ & _ & _ & _ & Hothers & _).
  - vm_compute. eauto.
  - exact fixture_two_devices_second_bound.
  - exists w1. split; [exact Hrun|]. apply Hothers. discriminate.
Defined.

Lemma disable_keeps_topology_witness :
  ∃ w1,
    @meta_kms_device_disable fixture_env 1%positive fixture_world
    = Some (tt, w1) ∧
    devices w1 = devices fixture_world ∧ glists w1 = glists fixture_world.
Proof.
  destruct (@disable_keeps_cached_topology fixture_env fixture_world
              1%positive fixture_device 1%positive fixture_impl_device)
    as (w1 & Hrun & Hdev & Hlists & _).
  - reflexivity.
  - exact fixture_world_bound.
  - exists w1. auto.
Defined.

(** * The column on its fixture *)

Lemma fixture_child_live :
  Hdy.child_live Hdy.fixture_state (Hdy.mkColumn (Some 2%positive) 400).
Proof. intros x [= <-]. by eexists. Qed.

Lemma fixture_empty_child_live :
  Hdy.child_live Hdy.fixture_state (Hdy.mkColumn None 400).
Proof. intros x [=]. Qed.

(** Width 7 goes from cell 10 into column 1 and comes back in cell 11. *)
Lemma hdy_property_round_trip_witness :
  ∃ s1 s2,
    Hdy.hdy_column_set_property (Some 1%positive) Hdy.PROP_MAXIMUM_WIDTH
      10%positive Hdy.fixture_state = Some (tt, s1) ∧
    Hdy.log s1 = [] ∧
    Hdy.columns s1 !! 1%positive
    = Some (Hdy.mkColumn (Some 2%positive) 7) ∧
    Hdy.hdy_column_get_property (Some 1%positive) Hdy.PROP_MAXIMUM_WIDTH
      11%positive s1 = Some (tt, s2) ∧
    Hdy.gints s2 !! 11%positive = Some 7%Z ∧
    Hdy.columns s2 = Hdy.columns s1 ∧
    Hdy.log s2 = [Hdy.WARNING_invalid_property_id Hdy.PROP_MAXIMUM_WIDTH].
Proof.
  exact (hdy_property_round_trip Hdy.fixture_state 1%positive
           (Hdy.mkColumn (Some 2%positive) 400) 10%positive 11%positive 7%Z
           eq_refl eq_refl (ex_intro _ 7%Z eq_refl)).
Defined.

(** Column 1 passes on the 30 and 120 of its label. *)
Lemma hdy_preferred_width_witness :
  ∃ s1,
    Hdy.hdy_column_get_preferred_width 1%positive 10%positive 11%positive
      Hdy.fixture_state = Some (tt, s1) ∧
    Hdy.gints s1 !! 10%positive = Some 30%Z ∧
    Hdy.gints s1 !! 11%positive = Some 120%Z.
Proof.
  destruct (hdy_preferred_width_is_childs Hdy.fixture_state 1%positive
              (Hdy.mkColumn (Some 2%positive) 400) 10%positive 11%positive
              eq_refl fixture_child_live ltac:(discriminate)
              (ex_intro _ 7%Z eq_refl) (ex_intro _ 7%Z eq_refl))
    as (s1 & Hrun & Hmin & Hnat & _).
  exists s1. split; [exact Hrun|]. split; [exact Hmin|exact Hnat].
Defined.

Lemma fixture_height_cells_valid :
  ∀ p, p ∈ Hdy.height_cells 10%positive 11%positive (Some 12%positive) None →
       is_Some (Hdy.gints Hdy.fixture_state !! p).
Proof.
  intros p Hp. unfold Hdy.height_cells in Hp. simpl in Hp.
  rewrite !elem_of_cons, elem_of_nil in Hp.
  destruct Hp as [->|[->|[->|[]]]]; by eexists.
Qed.

Lemma fixture_height_cells_apart :
  NoDup (Hdy.height_cells 10%positive 11%positive (Some 12%positive) None).
Proof. apply (bool_decide_unpack _). vm_compute. exact I. Qed.

(** Column 1, asked for width 50 with a cell for the minimum baseline
    only: heights 18, baseline 14, cell 13 untouched. *)
Lemma hdy_preferred_height_and_baseline_witness :
  ∃ s1,
    Hdy.hdy_column_get_preferred_height_and_baseline_for_width 1%positive 50
      10%positive 11%positive (Some 12%positive) None Hdy.fixture_state
    = Some (tt, s1) ∧
    Hdy.gints s1 !! 10%positive = Some 18%Z ∧
    Hdy.gints s1 !! 11%positive = Some 18%Z ∧
    Hdy.gints s1 !! 12%positive = Some 14%Z ∧
    Hdy.gints s1 !! 13%positive = Some 7%Z.
Proof.
  destruct (hdy_preferred_height_and_baseline_is_childs Hdy.fixture_state
              1%positive (Hdy.mkColumn (Some 2%positive) 400) 50
              10%positive 11%positive (Some 12%positive) None
              eq_refl fixture_child_live fixture_height_cells_apart
              fixture_height_cells_valid)
    as (s1 & Hrun & Hmin & Hnat & Hmb & _ & Hframe & _).
  exists s1. split; [exact Hrun|]. split; [exact Hmin|].
  split; [exact Hnat|]. split; [exact (Hmb 12%positive eq_refl)|].
  rewrite Hframe; [reflexivity|].
  apply (bool_decide_unpack _). vm_compute. exact I.
Defined.

(** The empty column 3 asks for no height. *)
Lemma hdy_preferred_height_witness :
  ∃ s1,
    Hdy.hdy_column_get_preferred_height 3%positive 10%positive 11%positive
      Hdy.fixture_state = Some (tt, s1) ∧
    Hdy.gints s1 !! 10%positive = Some 0%Z ∧
    Hdy.gints s1 !! 11%positive = Some 0%Z.
Proof.
  destruct (hdy_preferred_height_asks_for_any_width Hdy.fixture_state
              3%positive (Hdy.mkColumn None 400) 10%positive 11%positive
              eq_refl fixture_empty_child_live ltac:(discriminate)
              (ex_intro _ 7%Z eq_refl) (ex_intro _ 7%Z eq_refl))
    as (s1 & Hrun & Hmin & Hnat & _).
  exists s1. split; [exact Hrun|]. split; [exact Hmin|exact Hnat].
Defined.

(** The label 2 is no column. *)
Lemma hdy_accessors_witness :
  Hdy.hdy_column_get_maximum_width (Some 2%positive) Hdy.fixture_state
  = Some (0%Z,
          Hdy.set_log
            [Hdy.CRITICAL_check_failed "hdy_column_get_maximum_width"]
            Hdy.fixture_state) ∧
  Hdy.hdy_column_set_maximum_width (Some 2%positive) 9 Hdy.fixture_state
  = Some (tt,
          Hdy.set_log
            [Hdy.CRITICAL_check_failed "hdy_column_set_maximum_width"]
            Hdy.fixture_state).
Proof.
  refine (hdy_accessors_reject_non_columns Hdy.fixture_state
            (Some 2%positive) 9 _).
  intros l [= <-]. reflexivity.
Defined.
